(** * Packet-header rewriting core: shallow embedding and verification

    The development embeds the eBPF packet-filter programs of the repository
    (tcp_fingerprint.c, network_shield_original.c, network_shield_v6.c and
    xdp_outbound.c) as functions on a flat byte buffer and settles the
    properties stated about them.

    Conventions.
    - A packet is the byte range [data, data_end): a list of bytes, offsets
      counted from [data] (so [data = 0] and [data_end = length]).
    - The programs are compiled for a little-endian target (bpfel, the
      x86-64 default of [clang -target bpf]): a [__u16] load of the bytes
      [b0 b1] is [b0 + 256 * b1], and [bpf_htons] swaps the two bytes.
    - Statistics counters are a side effect on a separate map and never feed
      back into the packet or the verdict; they are left out. *)

From Stdlib Require Import ZArith Lia Bool ZifyBool.
From stdpp Require Import base list.

Local Open Scope Z_scope.

(** ** Packet memory *)

Module Mem.

Abbreviation packet := (list Z).

Definition data_end (p : packet) : Z := Z.of_nat (length p).

(** Load of one byte at offset [o] (the caller has checked the bounds). *)
Definition ld8 (p : packet) (o : Z) : Z := p !!! Z.to_nat o.

(** Store of a [__u8]: the value is truncated to eight bits. *)
Definition st8 (p : packet) (o v : Z) : packet := <[Z.to_nat o := v mod 256]> p.

(** Host-order (little-endian) 16- and 32-bit accesses. *)
Definition ld16 (p : packet) (o : Z) : Z := ld8 p o + 256 * ld8 p (o + 1).

Definition st16 (p : packet) (o v : Z) : packet :=
  st8 (st8 p o v) (o + 1) (v / 256).

Definition ld32 (p : packet) (o : Z) : Z := ld16 p o + 65536 * ld16 p (o + 2).

Definition st32 (p : packet) (o v : Z) : packet :=
  st16 (st16 p o v) (o + 2) (v / 65536).

(** Every element is a byte. *)
Definition bytes_ok (p : packet) : bool :=
  forallb (fun b => (0 <=? b) && (b <? 256)) p.

End Mem.
Export Mem.

(** ** Outcome of a run: a result, or a read outside [data, data_end) *)

Inductive outcome (A : Type) : Type :=
| Ok (a : A)
| Fault (off : Z).
Arguments Ok {A} a.
Arguments Fault {A} off.

#[global] Instance outcome_ret : MRet outcome := fun A a => Ok a.

#[global] Instance outcome_bind : MBind outcome := fun A B k m =>
  match m with
  | Ok a => k a
  | Fault o => Fault o
  end.

(** A byte read that is not covered by a preceding bounds check. *)
Definition load8 (p : packet) (o : Z) : outcome Z :=
  if (0 <=? o) && (o <? data_end p) then Ok (ld8 p o) else Fault o.

(** ** Byte order and fixed-width arithmetic *)

Definition u8 (x : Z) : Z := x mod 256.
Definition u16 (x : Z) : Z := x mod 65536.
Definition u32 (x : Z) : Z := x mod 4294967296.

(** [bpf_htons] / [bpf_ntohs] on a little-endian host: swap the bytes of the
    low 16 bits. *)
Definition bpf_htons (x : Z) : Z := (x mod 256) * 256 + (x / 256) mod 256.
Definition bpf_ntohs (x : Z) : Z := bpf_htons x.

(** [bpf_htonl] / [bpf_ntohl]: reverse the four bytes. *)
Definition bpf_htonl (x : Z) : Z :=
  (x mod 256) * 16777216 + ((x / 256) mod 256) * 65536
  + ((x / 65536) mod 256) * 256 + (x / 16777216) mod 256.
Definition bpf_ntohl (x : Z) : Z := bpf_htonl x.

(** [~x] truncated to a [__u16]. *)
Definition not16 (x : Z) : Z := Z.lnot x mod 65536.

(** ** Header layout (linux/if_ether.h, linux/ip.h, linux/tcp.h) *)

Definition ETH_HLEN : Z := 14.
Definition ETH_P_IP : Z := 2048.       (* 0x0800 *)
Definition IPPROTO_TCP : Z := 6.
Definition IPPROTO_UDP : Z := 17.
Definition sizeof_ethhdr : Z := 14.
Definition sizeof_iphdr : Z := 20.
Definition sizeof_tcphdr : Z := 20.

Inductive xdp_action := XDP_ABORTED | XDP_DROP | XDP_PASS | XDP_TX | XDP_REDIRECT.
Inductive tc_action := TC_ACT_OK | TC_ACT_SHOT.

Section Fields.
Variable p : packet.

(** struct ethhdr *)
Definition eth_h_proto (eth : Z) : Z := ld16 p (eth + 12).

(** struct iphdr; [ihl] is the low nibble of the first byte *)
Definition iph_ihl (iph : Z) : Z := Z.land (ld8 p iph) 15.
Definition iph_tot_len (iph : Z) : Z := ld16 p (iph + 2).
Definition iph_id (iph : Z) : Z := ld16 p (iph + 4).
Definition iph_ttl (iph : Z) : Z := ld8 p (iph + 8).
Definition iph_protocol (iph : Z) : Z := ld8 p (iph + 9).
Definition iph_check (iph : Z) : Z := ld16 p (iph + 10).
Definition iph_saddr (iph : Z) : Z := ld32 p (iph + 12).
Definition iph_daddr (iph : Z) : Z := ld32 p (iph + 16).

(** struct tcphdr; [doff] is the high nibble of byte 12, the flags sit in
byte 13 (FIN bit 0, SYN bit 1, RST bit 2, PSH bit 3, ACK bit 4) *)
Definition tcph_doff (tcph : Z) : Z := Z.land (Z.shiftr (ld8 p (tcph + 12)) 4) 15.
Definition tcph_syn (tcph : Z) : bool := Z.testbit (ld8 p (tcph + 13)) 1.
Definition tcph_ack (tcph : Z) : bool := Z.testbit (ld8 p (tcph + 13)) 4.
Definition tcph_window (tcph : Z) : Z := ld16 p (tcph + 14).
Definition tcph_check (tcph : Z) : Z := ld16 p (tcph + 16).
End Fields.

Definition set_ip_ttl (p : packet) (iph v : Z) : packet := st8 p (iph + 8) v.
Definition set_ip_id (p : packet) (iph v : Z) : packet := st16 p (iph + 4) v.
Definition set_ip_check (p : packet) (iph v : Z) : packet := st16 p (iph + 10) v.
Definition set_tcp_window (p : packet) (tcph v : Z) : packet := st16 p (tcph + 14) v.
Definition set_tcp_check (p : packet) (tcph v : Z) : packet := st16 p (tcph + 16) v.

(** ** Kernel helpers used by the TC programs

    [bpf_l3_csum_replace] and [bpf_l4_csum_replace] belong to the kernel, not
    to the repository.  They are written after net/core/filter.c and
    include/net/checksum.h for a packet whose checksum is not offloaded: the
    only bytes they touch are the two bytes of the checksum field at
    [offset]; on a bad offset they fail and leave the packet as it is (the
    programs ignore the return value). *)

Module Kernel.

Definition csum16_add (csum addend : Z) : Z :=
  let res := u16 (csum + addend) in
  u16 (res + (if res <? addend then 1 else 0)).

Definition csum16_sub (csum addend : Z) : Z := csum16_add csum (not16 addend).

Definition csum_replace2 (sum old new : Z) : Z :=
  not16 (csum16_add (csum16_sub (not16 sum) old) new).

Definition csum_add (csum addend : Z) : Z :=
  let res := u32 (csum + addend) in
  u32 (res + (if res <? addend then 1 else 0)).

Definition csum_sub (csum addend : Z) : Z := csum_add csum (u32 (Z.lnot addend)).

Definition csum_fold (csum : Z) : Z :=
  let sum := Z.land csum 65535 + Z.shiftr csum 16 in
  let sum := Z.land sum 65535 + Z.shiftr sum 16 in
  not16 sum.

Definition csum_replace4 (sum from to : Z) : Z :=
  csum_fold (csum_add (csum_sub (u32 (Z.lnot sum)) from) to).

Definition csum_replace_by_diff (sum diff : Z) : Z :=
  csum_fold (csum_add diff (u32 (Z.lnot sum))).

Definition offset_ok (p : packet) (offset : Z) : bool :=
  (0 <=? offset) && (offset <=? 65535) && Z.even offset
  && (offset + 2 <=? data_end p).

Definition bpf_l3_csum_replace (p : packet) (offset from to flags : Z) : packet :=
  if negb (offset_ok p offset) then p
  else if flags =? 0 then
    if negb (from =? 0) then p
    else st16 p offset (csum_replace_by_diff (ld16 p offset) (u32 to))
  else if flags =? 2 then
    st16 p offset (csum_replace2 (ld16 p offset) (u16 from) (u16 to))
  else if flags =? 4 then
    st16 p offset (csum_replace4 (ld16 p offset) (u32 from) (u32 to))
  else p.

Definition bpf_l4_csum_replace (p : packet) (offset from to flags : Z) : packet :=
  if negb (offset_ok p offset) then p
  else if flags =? 0 then
    if negb (from =? 0) then p
    else st16 p offset (csum_replace_by_diff (ld16 p offset) (u32 to))
  else if flags =? 2 then
    st16 p offset (csum_replace4 (ld16 p offset) (u16 from) (u16 to))
  else if flags =? 4 then
    st16 p offset (csum_replace4 (ld16 p offset) (u32 from) (u32 to))
  else p.

End Kernel.

(** ** titan/ebpf/tcp_fingerprint.c *)

Module TcpFingerprint.

Record tcp_config := {
  ttl : Z;               (* __u8  *)
  window_size : Z;       (* __u16 *)
  mss : Z;               (* __u16 *)
  window_scale : Z;      (* __u8  *)
  sack_permitted : Z;    (* __u8  *)
  timestamps : Z;        (* __u8  *)
  timestamp_offset : Z   (* __u32 *)
}.

(** The fields hold values of their C types. *)
Definition config_ok (c : tcp_config) : bool :=
  (0 <=? ttl c) && (ttl c <? 256)
  && (0 <=? window_size c) && (window_size c <? 65536)
  && (0 <=? mss c) && (mss c <? 65536)
  && (0 <=? timestamp_offset c) && (timestamp_offset c <? 4294967296).

(** The profile setters fill six fields of a caller-provided struct and
    leave [timestamp_offset] as they find it. *)
Definition get_windows_profile (config : tcp_config) : tcp_config :=
  {| ttl := 128; window_size := 65535; mss := 1460; window_scale := 8;
     sack_permitted := 1; timestamps := 0;
     timestamp_offset := timestamp_offset config |}.

Definition get_macos_profile (config : tcp_config) : tcp_config :=
  {| ttl := 64; window_size := 65535; mss := 1460; window_scale := 6;
     sack_permitted := 1; timestamps := 1;
     timestamp_offset := timestamp_offset config |}.

Definition get_linux_profile (config : tcp_config) : tcp_config :=
  {| ttl := 64; window_size := 29200; mss := 1460; window_scale := 7;
     sack_permitted := 1; timestamps := 1;
     timestamp_offset := timestamp_offset config |}.

(** One round of the loop body of [csum_fold_helper]. *)
Definition fold_once (csum : Z) : Z :=
  if negb (Z.shiftr csum 16 =? 0) then Z.land csum 65535 + Z.shiftr csum 16
  else csum.

Definition csum_fold_helper (csum : Z) : Z :=
  not16 (Nat.iter 4 fold_once csum).

(** [n] rounds of [csum += *ptr++] on a [__u32] accumulator. *)
Fixpoint sum_words (n : nat) (p : packet) (ptr csum : Z) : Z :=
  match n with
  | O => csum
  | S n' => sum_words n' p (ptr + 2) (u32 (csum + ld16 p ptr))
  end.

(** The same with the guard of [update_tcp_checksum]: stop as soon as the
    next word would end past [data_end]. *)
Fixpoint sum_words_guarded (n : nat) (p : packet) (ptr csum : Z) : Z :=
  match n with
  | O => csum
  | S n' =>
      if ptr + 2 >? data_end p then csum
      else sum_words_guarded n' p (ptr + 2) (u32 (csum + ld16 p ptr))
  end.

Definition update_ip_checksum (p : packet) (iph : Z) : packet :=
  let p0 := set_ip_check p iph 0 in
  let csum := sum_words (Z.to_nat (Z.shiftr sizeof_iphdr 1)) p0 iph 0 in
  set_ip_check p0 iph (csum_fold_helper csum).

Definition pseudo_header_sum (p : packet) (iph : Z) : Z :=
  let tcp_len := u32 (bpf_ntohs (iph_tot_len p iph) - Z.shiftl (iph_ihl p iph) 2) in
  let csum := 0 in
  let csum := u32 (csum + Z.land (Z.shiftr (iph_saddr p iph) 16) 65535) in
  let csum := u32 (csum + Z.land (iph_saddr p iph) 65535) in
  let csum := u32 (csum + Z.land (Z.shiftr (iph_daddr p iph) 16) 65535) in
  let csum := u32 (csum + Z.land (iph_daddr p iph) 65535) in
  let csum := u32 (csum + bpf_htons IPPROTO_TCP) in
  u32 (csum + bpf_htons (u16 tcp_len)).

Definition update_tcp_checksum (p : packet) (iph tcph : Z) : packet :=
  let csum := pseudo_header_sum p iph in
  let p0 := set_tcp_check p tcph 0 in
  let csum := sum_words_guarded 10 p0 tcph csum in
  set_tcp_check p0 tcph (csum_fold_helper csum).

(** The timestamp loop of [tcp_fingerprint_xdp]; [i] is the loop variable
    and [fuel] counts the iterations still allowed. *)
Fixpoint ts_walk (fuel : nat) (config : tcp_config) (tcp_hdr_len : Z)
    (p : packet) (opts opts_end i : Z) : outcome packet :=
  match fuel with
  | O => Ok p
  | S fuel' =>
      if negb ((i <? 40) && (opts + i <? opts_end)) then Ok p
      else
        kind ← load8 p (opts + i);
        if kind =? 0 then Ok p
        else if kind =? 1 then
          ts_walk fuel' config tcp_hdr_len p opts opts_end (i + 1)
        else if (kind =? 8) && (i + 9 <? tcp_hdr_len - 20) then
          let tsval := opts + i + 2 in
          if tsval + 4 <=? data_end p then
            Ok (st32 p tsval
                  (bpf_htonl (u32 (bpf_ntohl (ld32 p tsval)
                                   + timestamp_offset config))))
          else Ok p
        else
          opt_len ← load8 p (opts + i + 1);
          if opt_len <? 2 then Ok p
          else ts_walk fuel' config tcp_hdr_len p opts opts_end
                 (i + (opt_len - 1) + 1)
  end.

(** The MSS loop of [tcp_fingerprint_xdp]. *)
Fixpoint mss_walk (fuel : nat) (config : tcp_config) (tcp_hdr_len2 : Z)
    (p : packet) (opts2 opts2_end j : Z) : outcome packet :=
  match fuel with
  | O => Ok p
  | S fuel' =>
      if negb ((j <? 40) && (opts2 + j <? opts2_end)) then Ok p
      else
        kind ← load8 p (opts2 + j);
        if kind =? 0 then Ok p
        else if kind =? 1 then
          mss_walk fuel' config tcp_hdr_len2 p opts2 opts2_end (j + 1)
        else if (kind =? 2) && (j + 3 <? tcp_hdr_len2 - 20) then
          let mss_val := opts2 + j + 2 in
          if mss_val + 2 <=? data_end p then
            let current_mss := bpf_ntohs (ld16 p mss_val) in
            if current_mss <? mss config
            then Ok (st16 p mss_val (bpf_htons (mss config)))
            else Ok p
          else Ok p
        else
          opt_len2 ← load8 p (opts2 + j + 1);
          if opt_len2 <? 2 then Ok p
          else mss_walk fuel' config tcp_hdr_len2 p opts2 opts2_end
                 (j + (opt_len2 - 1) + 1)
  end.

(** The loops run while [i < 40] and [i] grows in every round. *)
Definition walk_fuel : nat := 40.

Definition timestamp_stage (config : tcp_config) (p : packet) (tcph : Z)
  : outcome packet :=
  if negb (timestamp_offset config =? 0) then
    let tcp_hdr_len := u8 (tcph_doff p tcph * 4) in
    if tcp_hdr_len >? 20 then
      let opts := tcph + 20 in
      let opts_end := tcph + tcp_hdr_len in
      if opts_end <=? data_end p
      then ts_walk walk_fuel config tcp_hdr_len p opts opts_end 0
      else Ok p
    else Ok p
  else Ok p.

Definition mss_stage (config : tcp_config) (p : packet) (tcph : Z)
  : outcome packet :=
  if tcph_syn p tcph && (mss config >? 0) then
    let tcp_hdr_len2 := u8 (tcph_doff p tcph * 4) in
    if tcp_hdr_len2 >? 20 then
      let opts2 := tcph + 20 in
      let opts2_end := tcph + tcp_hdr_len2 in
      if opts2_end <=? data_end p
      then mss_walk walk_fuel config tcp_hdr_len2 p opts2 opts2_end 0
      else Ok p
    else Ok p
  else Ok p.

(** A struct left uninitialised on the stack; only the fields that
    [get_windows_profile] sets are read afterwards. *)
Definition stack_config : tcp_config :=
  {| ttl := 0; window_size := 0; mss := 0; window_scale := 0;
     sack_permitted := 0; timestamps := 0; timestamp_offset := 0 |}.

(** The field edits of [tcp_fingerprint_xdp], between the header parse and
    the checksum recalculation.  [config] is the result of the lookup in
    [tcp_config_map]. *)
Definition apply_config (config : option tcp_config) (p : packet)
    (iph tcph : Z) : outcome packet :=
  match config with
  | None =>
      let default_config := get_windows_profile stack_config in
      let p := set_ip_ttl p iph (ttl default_config) in
      let p := if tcph_syn p tcph && negb (tcph_ack p tcph)
               then set_tcp_window p tcph (bpf_htons (window_size default_config))
               else p in
      Ok p
  | Some config =>
      let p := set_ip_ttl p iph (ttl config) in
      let p := if tcph_syn p tcph && negb (tcph_ack p tcph)
               then set_tcp_window p tcph (bpf_htons (window_size config))
               else p in
      p ← timestamp_stage config p tcph;
      mss_stage config p tcph
  end.

Definition tcp_fingerprint_xdp (config : option tcp_config) (p : packet)
  : outcome (xdp_action * packet) :=
  let eth := 0 in
  if eth + sizeof_ethhdr >? data_end p then Ok (XDP_PASS, p)
  else if negb (eth_h_proto p eth =? bpf_htons ETH_P_IP) then Ok (XDP_PASS, p)
  else
    let iph := eth + sizeof_ethhdr in
    if iph + sizeof_iphdr >? data_end p then Ok (XDP_PASS, p)
    else if negb (iph_protocol p iph =? IPPROTO_TCP) then Ok (XDP_PASS, p)
    else
      let tcph := iph + Z.shiftl (iph_ihl p iph) 2 in
      if tcph + sizeof_tcphdr >? data_end p then Ok (XDP_PASS, p)
      else
        p ← apply_config config p iph tcph;
        let p := update_ip_checksum p iph in
        let p := update_tcp_checksum p iph tcph in
        Ok (XDP_PASS, p).

Definition tcp_fingerprint_tc (config : option tcp_config) (p : packet)
  : tc_action * packet :=
  let eth := 0 in
  if eth + sizeof_ethhdr >? data_end p then (TC_ACT_OK, p)
  else if negb (eth_h_proto p eth =? bpf_htons ETH_P_IP) then (TC_ACT_OK, p)
  else
    let iph := eth + sizeof_ethhdr in
    if iph + sizeof_iphdr >? data_end p then (TC_ACT_OK, p)
    else if negb (iph_protocol p iph =? IPPROTO_TCP) then (TC_ACT_OK, p)
    else
      let tcph := iph + Z.shiftl (iph_ihl p iph) 2 in
      if tcph + sizeof_tcphdr >? data_end p then (TC_ACT_OK, p)
      else
        match config with
        | None => (TC_ACT_OK, p)
        | Some config =>
            let p := set_ip_ttl p iph (ttl config) in
            let p := if tcph_syn p tcph
                     then set_tcp_window p tcph (bpf_htons (window_size config))
                     else p in
            let p := Kernel.bpf_l3_csum_replace p (sizeof_ethhdr + 10) 0 0 0 in
            (TC_ACT_OK, p)
        end.

End TcpFingerprint.

(** ** opt/titan/lib/network_shield_original.c *)

Module NetworkShield.

Definition PERSONA_LINUX : Z := 0.
Definition PERSONA_WINDOWS : Z := 1.
Definition PERSONA_MACOS : Z := 2.

Record os_signature := {
  ttl : Z;                 (* __u8  *)
  tcp_window : Z;          (* __u16 *)
  tcp_mss : Z;             (* __u16 *)
  tcp_sack_permitted : Z;  (* __u8  *)
  tcp_timestamps : Z;      (* __u8  *)
  tcp_window_scale : Z     (* __u8  *)
}.

Definition signatures : list os_signature :=
  [ {| ttl := 64; tcp_window := 29200; tcp_mss := 1460;
       tcp_sack_permitted := 1; tcp_timestamps := 1; tcp_window_scale := 7 |};
    {| ttl := 128; tcp_window := 65535; tcp_mss := 1460;
       tcp_sack_permitted := 1; tcp_timestamps := 0; tcp_window_scale := 8 |};
    {| ttl := 64; tcp_window := 65535; tcp_mss := 1460;
       tcp_sack_permitted := 1; tcp_timestamps := 1; tcp_window_scale := 6 |} ].

(** [while (sum >> 16) sum = (sum & 0xFFFF) + (sum >> 16);] *)
Fixpoint fold_carries (fuel : nat) (sum : Z) : Z :=
  match fuel with
  | O => sum
  | S fuel' =>
      if negb (Z.shiftr sum 16 =? 0)
      then fold_carries fuel' (Z.land sum 65535 + Z.shiftr sum 16)
      else sum
  end.

(** A [__u32] is folded after two rounds (see [fold_carries_done]). *)
Definition fold_fuel : nat := 32.

(** The unrolled loop of [ip_checksum]: words 0..9, each added only while
    it starts inside the declared header length. *)
Fixpoint sum_header (n : nat) (p : packet) (iph len i sum : Z) : Z :=
  match n with
  | O => sum
  | S n' =>
      let sum := if i * 2 <? len then u32 (sum + ld16 p (iph + 2 * i)) else sum in
      sum_header n' p iph len (i + 1) sum
  end.

(** [ip_checksum] zeroes the checksum field and returns the new value. *)
Definition ip_checksum (p : packet) (iph : Z) : packet * Z :=
  let len := iph_ihl p iph * 4 in
  let p := set_ip_check p iph 0 in
  let sum := sum_header 10 p iph len 0 0 in
  let sum := fold_carries fold_fuel sum in
  (p, not16 sum).

Definition update_tcp_checksum (p : packet) (tcph old_val new_val : Z) : packet :=
  let sum := Z.land (Z.lnot (bpf_ntohs (tcph_check p tcph))) 65535 in
  let sum := u32 (sum + Z.land (Z.lnot old_val) 65535) in
  let sum := u32 (sum + new_val) in
  let sum := fold_carries fold_fuel sum in
  set_tcp_check p tcph (bpf_htons (u16 (Z.lnot sum))).

(** The persona is read from [persona_config] (absent: Linux) and clamped;
    the result indexes [signatures]. *)
Definition resolve_persona (persona_ptr : option Z) : Z :=
  let persona := match persona_ptr with
                 | Some v => v
                 | None => PERSONA_LINUX
                 end in
  if persona >? PERSONA_MACOS then PERSONA_LINUX else persona.

(** The array access [signatures[persona]]; an index outside the table is
    an access out of bounds. *)
Definition signature_at (persona : Z) : outcome os_signature :=
  match signatures !! Z.to_nat persona with
  | Some sig => if 0 <=? persona then Ok sig else Fault persona
  | None => Fault persona
  end.

Definition rewrite_ttl (sig : os_signature) (p : packet) (iph : Z) : packet :=
  if negb (iph_ttl p iph =? ttl sig) then
    let p := set_ip_ttl p iph (ttl sig) in
    let '(p, check) := ip_checksum p iph in
    set_ip_check p iph check
  else p.

Definition network_shield_xdp (persona_ptr : option Z) (p : packet)
  : outcome (xdp_action * packet) :=
  let eth := 0 in
  if eth + sizeof_ethhdr >? data_end p then Ok (XDP_PASS, p)
  else if negb (eth_h_proto p eth =? bpf_htons ETH_P_IP) then Ok (XDP_PASS, p)
  else
    let iph := eth + sizeof_ethhdr in
    if iph + sizeof_iphdr >? data_end p then Ok (XDP_PASS, p)
    else
      let persona := resolve_persona persona_ptr in
      sig ← signature_at persona;
      let p := rewrite_ttl sig p iph in
      if iph_protocol p iph =? IPPROTO_TCP then
        let tcph := iph + iph_ihl p iph * 4 in
        if tcph + sizeof_tcphdr >? data_end p then Ok (XDP_PASS, p)
        else
          let p :=
            if tcph_syn p tcph && negb (tcph_ack p tcph) then
              let old_window := tcph_window p tcph in
              let new_window := bpf_htons (tcp_window sig) in
              if negb (old_window =? new_window) then
                let p := set_tcp_window p tcph new_window in
                update_tcp_checksum p tcph (bpf_ntohs old_window)
                                    (bpf_ntohs new_window)
              else p
            else p in
          Ok (XDP_PASS, p)
      else Ok (XDP_PASS, p).

Definition network_shield_tc (persona_ptr : option Z) (p : packet)
  : outcome (tc_action * packet) :=
  let eth := 0 in
  if eth + sizeof_ethhdr >? data_end p then Ok (TC_ACT_OK, p)
  else if negb (eth_h_proto p eth =? bpf_htons ETH_P_IP) then Ok (TC_ACT_OK, p)
  else
    let iph := eth + sizeof_ethhdr in
    if iph + sizeof_iphdr >? data_end p then Ok (TC_ACT_OK, p)
    else
      let persona := resolve_persona persona_ptr in
      sig ← signature_at persona;
      Ok (TC_ACT_OK, rewrite_ttl sig p iph).

End NetworkShield.

(** ** opt/lucid-empire/backend/network/xdp_outbound.c *)

Module XdpOutbound.

Definition xdp_outbound_masking (p : packet) : xdp_action * packet :=
  let eth := 0 in
  let ip := eth + sizeof_ethhdr in
  if ip + sizeof_iphdr >? data_end p then (XDP_PASS, p)
  else if negb (eth_h_proto p eth =? bpf_htons ETH_P_IP) then (XDP_PASS, p)
  else
    let p := set_ip_ttl p ip 64 in
    let p := set_ip_id p ip 0 in
    if (iph_protocol p ip =? IPPROTO_TCP)
       && (ip + sizeof_iphdr + sizeof_tcphdr >? data_end p)
    then (XDP_PASS, p)
    else
      let p := set_ip_check p ip 0 in
      (XDP_PASS, p).

End XdpOutbound.

(** ** opt/titan/core/network_shield_v6.c *)

Module NetworkShieldV6.

Definition OS_PROFILE_WINDOWS11 : Z := 0.
Definition OS_PROFILE_WINDOWS10 : Z := 1.
Definition OS_PROFILE_MACOS14 : Z := 2.
Definition OS_PROFILE_LINUX6 : Z := 3.

Definition TCPOPT_EOL : Z := 0.
Definition TCPOPT_NOP : Z := 1.
Definition TCPOPT_MSS : Z := 2.
Definition TCPOPT_WSCALE : Z := 3.
Definition TCPOPT_SACKOK : Z := 4.
Definition TCPOPT_TIMESTAMP : Z := 8.

Record titan_config := {
  quic_proxy_enabled : Z;
  tcp_fingerprint_enabled : Z;
  dns_protection_enabled : Z;
  webrtc_block_enabled : Z;
  proxy_ip : Z;
  proxy_port : Z;
  os_profile : Z;            (* __u8, an OS_PROFILE_* constant *)
  dns_server_1 : Z;
  dns_server_2 : Z
}.

Record os_tcp_profile := {
  ttl : Z;            (* __u8  *)
  window_size : Z;    (* __u16 *)
  window_scale : Z;   (* __u8  *)
  mss : Z;            (* __u16 *)
  sack_ok : Z;
  timestamps : Z;
  nop_count : Z;
  opt_order : list Z;
  opt_count : Z
}.

(** A BPF_MAP_TYPE_ARRAY: [max_entries] slots, a lookup with a key at or
    above [max_entries] returns NULL. *)
Definition bpf_array_lookup {V : Type} (max_entries : Z) (slots : list V)
    (key : Z) : option V :=
  if (0 <=? key) && (key <? max_entries) then slots !! Z.to_nat key else None.

Record maps := {
  titan_config_map : list titan_config;      (* max_entries 1 *)
  titan_os_profiles : list os_tcp_profile    (* max_entries 4 *)
}.

Definition get_config (m : maps) : option titan_config :=
  bpf_array_lookup 1 (titan_config_map m) 0.

Definition get_os_profile (m : maps) (profile_id : Z) : option os_tcp_profile :=
  let key := u32 (u8 profile_id) in
  bpf_array_lookup 4 (titan_os_profiles m) key.

(** Control flow of a block that may [return TC_ACT_OK] (or [goto done])
    from the middle: it goes on with a value, or the program ends with the
    packet as it is. *)
Inductive flow (A : Type) : Type :=
| Continue (a : A)
| Return (p : packet).
Arguments Continue {A} a.
Arguments Return {A} p.

(** The MSS branch of the loop body; it goes on with the packet and the
    (re-derived) [opts] and [opts_end]. *)
Definition rewrite_mss (os_prof : os_tcp_profile) (tcp_hdr_len : Z)
    (p : packet) (ip opts opts_end i kind len : Z)
  : outcome (flow (packet * Z * Z)) :=
  if (kind =? TCPOPT_MSS) && (len =? 4) && (opts + i + 3 <? opts_end) then
    b2 ← load8 p (opts + i + 2);
    b3 ← load8 p (opts + i + 3);
    let old_mss := u16 (Z.lor (Z.shiftl b2 8) b3) in
    let new_mss := mss os_prof in
    if negb (old_mss =? new_mss) then
      let p := Kernel.bpf_l4_csum_replace p
                 (ETH_HLEN + iph_ihl p ip * 4 + 16)
                 (bpf_htons old_mss) (bpf_htons new_mss) 2 in
      let eth := 0 in
      if eth + sizeof_ethhdr >? data_end p then Ok (Return p)
      else
        let ip := eth + sizeof_ethhdr in
        if ip + sizeof_iphdr >? data_end p then Ok (Return p)
        else
          let tcp := ip + iph_ihl p ip * 4 in
          if tcp + sizeof_tcphdr >? data_end p then Ok (Return p)
          else
            let opts := tcp + 20 in
            let opts_end := tcp + tcp_hdr_len in
            if opts_end >? data_end p then Ok (Return p)
            else
              let p := st8 p (opts + i + 2) (Z.land (Z.shiftr new_mss 8) 255) in
              let p := st8 p (opts + i + 3) (Z.land new_mss 255) in
              Ok (Continue (p, opts, opts_end))
    else Ok (Continue (p, opts, opts_end))
  else Ok (Continue (p, opts, opts_end)).

(** The window-scale branch of the loop body. *)
Definition rewrite_wscale (os_prof : os_tcp_profile)
    (p : packet) (ip opts opts_end i kind len : Z) : outcome (flow packet) :=
  if (kind =? TCPOPT_WSCALE) && (len =? 3) && (opts + i + 2 <? opts_end) then
    old_scale ← load8 p (opts + i + 2);
    let new_scale := u8 (window_scale os_prof) in
    if negb (old_scale =? new_scale) then
      let p := st8 p (opts + i + 2) new_scale in
      let p := Kernel.bpf_l4_csum_replace p
                 (ETH_HLEN + iph_ihl p ip * 4 + 16)
                 (bpf_htons old_scale) (bpf_htons new_scale) 2 in
      if 0 + ETH_HLEN + 40 >? data_end p then Ok (Return p)
      else Ok (Continue p)
    else Ok (Continue p)
  else Ok (Continue p).

(** The option loop of [titan_tc_egress]; [i] is the loop variable and
    [fuel] counts the iterations still allowed. *)
Fixpoint option_walk (fuel : nat) (os_prof : os_tcp_profile) (tcp_hdr_len : Z)
    (p : packet) (ip opts opts_end i : Z) : outcome packet :=
  match fuel with
  | O => Ok p
  | S fuel' =>
      if negb (i <? 40) then Ok p
      else if opts + i >=? opts_end then Ok p
      else
        kind ← load8 p (opts + i);
        if kind =? TCPOPT_EOL then Ok p
        else if kind =? TCPOPT_NOP then
          option_walk fuel' os_prof tcp_hdr_len p ip opts opts_end (i + 1)
        else if opts + i + 1 >=? opts_end then Ok p
        else
          len ← load8 p (opts + i + 1);
          if (len <? 2) || (opts + i + len >? opts_end) then Ok p
          else
            r ← rewrite_mss os_prof tcp_hdr_len p ip opts opts_end i kind len;
            match r with
            | Return p => Ok p
            | Continue (p, opts, opts_end) =>
                r ← rewrite_wscale os_prof p ip opts opts_end i kind len;
                match r with
                | Return p => Ok p
                | Continue p =>
                    option_walk fuel' os_prof tcp_hdr_len p ip opts opts_end
                      (i + (len - 1) + 1)
                end
            end
  end.

(** The loop runs while [i < 40] and [i] grows in every round. *)
Definition walk_fuel : nat := 40.

(** The TTL edit with its checksum fix-up. *)
Definition rewrite_ttl (os_prof : os_tcp_profile) (p : packet) (ip : Z)
  : flow packet :=
  let old_ttl := iph_ttl p ip in
  let new_ttl := u8 (ttl os_prof) in
  if negb (old_ttl =? new_ttl) then
    let p := Kernel.bpf_l3_csum_replace p (ETH_HLEN + 10)
               (bpf_htons old_ttl) (bpf_htons new_ttl) 2 in
    let eth := 0 in
    if eth + sizeof_ethhdr >? data_end p then Return p
    else
      let ip := eth + sizeof_ethhdr in
      if ip + sizeof_iphdr >? data_end p then Return p
      else Continue (set_ip_ttl p ip new_ttl)
  else Continue p.

(** The window edit of a SYN packet with its checksum fix-up; it goes on
    with the packet and the (re-derived) [tcp]. *)
Definition rewrite_window (os_prof : os_tcp_profile) (p : packet) (ip tcp : Z)
  : flow (packet * Z) :=
  let old_win := tcph_window p tcp in
  let new_win := bpf_htons (window_size os_prof) in
  if negb (old_win =? new_win) then
    let p := Kernel.bpf_l4_csum_replace p
               (ETH_HLEN + iph_ihl p ip * 4 + 16) old_win new_win 2 in
    let eth := 0 in
    if eth + sizeof_ethhdr >? data_end p then Return p
    else
      let ip := eth + sizeof_ethhdr in
      if ip + sizeof_iphdr >? data_end p then Return p
      else
        let tcp := ip + iph_ihl p ip * 4 in
        if tcp + sizeof_tcphdr >? data_end p then Return p
        else Continue (set_tcp_window p tcp new_win, tcp)
  else Continue (p, tcp).

(** The part of [titan_tc_egress] that follows the TCP header parse. *)
Definition rewrite_syn (os_prof : os_tcp_profile) (p : packet) (ip tcp : Z)
  : outcome packet :=
  if tcph_syn p tcp then
    match rewrite_window os_prof p ip tcp with
    | Return p => Ok p
    | Continue (p, tcp) =>
        let tcp_hdr_len := u8 (tcph_doff p tcp * 4) in
        if tcp_hdr_len <=? 20 then Ok p
        else
          let opts := tcp + 20 in
          let opts_end := tcp + tcp_hdr_len in
          if opts_end >? data_end p then Ok p
          else option_walk walk_fuel os_prof tcp_hdr_len p ip opts opts_end 0
    end
  else Ok p.

Definition titan_tc_egress (m : maps) (p : packet) : outcome (tc_action * packet) :=
  match get_config m with
  | None => Ok (TC_ACT_OK, p)
  | Some cfg =>
    if tcp_fingerprint_enabled cfg =? 0 then Ok (TC_ACT_OK, p)
    else
      let eth := 0 in
      if eth + sizeof_ethhdr >? data_end p then Ok (TC_ACT_OK, p)
      else if negb (eth_h_proto p eth =? bpf_htons ETH_P_IP) then Ok (TC_ACT_OK, p)
      else
        let ip := eth + sizeof_ethhdr in
        if ip + sizeof_iphdr >? data_end p then Ok (TC_ACT_OK, p)
        else if negb (iph_protocol p ip =? IPPROTO_TCP) then Ok (TC_ACT_OK, p)
        else
          match get_os_profile m (os_profile cfg) with
          | None => Ok (TC_ACT_OK, p)
          | Some os_prof =>
            match rewrite_ttl os_prof p ip with
            | Return p => Ok (TC_ACT_OK, p)
            | Continue p =>
              let tcp := ip + iph_ihl p ip * 4 in
              if tcp + sizeof_tcphdr >? data_end p then Ok (TC_ACT_OK, p)
              else
                p ← rewrite_syn os_prof p ip tcp;
                Ok (TC_ACT_OK, p)
            end
          end
  end.

End NetworkShieldV6.

(** ** The filters and hooks around the rewriters

    The remaining programs of network_shield_original.c and
    network_shield_v6.c only read the packet; the ones that count update a
    statistics slot, which is part of their state here. *)

Definition sizeof_udphdr : Z := 8.

(** struct udphdr *)
Definition udph_source (p : packet) (udph : Z) : Z := ld16 p udph.
Definition udph_dest (p : packet) (udph : Z) : Z := ld16 p (udph + 2).

(** [__u64] arithmetic. *)
Definition u64 (x : Z) : Z := x mod 18446744073709551616.

(** *** opt/titan/lib/network_shield_original.c: [quic_blocker] *)

Module QuicBlocker.

Definition quic_blocker (p : packet) : xdp_action :=
  let eth := 0 in
  if eth + sizeof_ethhdr >? data_end p then XDP_PASS
  else if negb (eth_h_proto p eth =? bpf_htons ETH_P_IP) then XDP_PASS
  else
    let iph := eth + sizeof_ethhdr in
    if iph + sizeof_iphdr >? data_end p then XDP_PASS
    else if negb (iph_protocol p iph =? IPPROTO_UDP) then XDP_PASS
    else
      let udph := iph + iph_ihl p iph * 4 in
      if udph + sizeof_udphdr >? data_end p then XDP_PASS
      else if udph_dest p udph =? bpf_htons 443 then XDP_DROP
      else XDP_PASS.

End QuicBlocker.

(** *** opt/titan/core/network_shield_v6.c: the XDP filter and the cgroup
    hooks *)

Module TitanFilter.
Import NetworkShieldV6.

Definition QUIC_PORT : Z := 443.
Definition PROXY_PORT : Z := 8443.
Definition SOCK_RAW : Z := 3.

Record titan_stats := {
  packets_total : Z;        (* __u64 *)
  packets_quic : Z;
  packets_redirected : Z;
  packets_blocked : Z;
  bytes_total : Z
}.

(** [titan_stats_map] is a per-CPU array with one slot; the state is the
    slot of the CPU that runs the program. *)
Definition update_stats (stats_map : list titan_stats)
    (bytes is_quic redirected blocked : Z) : list titan_stats :=
  match bpf_array_lookup 1 stats_map 0 with
  | None => stats_map
  | Some stats =>
      <[0%nat :=
        {| packets_total := u64 (packets_total stats + 1);
           bytes_total := u64 (bytes_total stats + bytes);
           packets_quic :=
             if negb (is_quic =? 0) then u64 (packets_quic stats + 1)
             else packets_quic stats;
           packets_redirected :=
             if negb (redirected =? 0) then u64 (packets_redirected stats + 1)
             else packets_redirected stats;
           packets_blocked :=
             if negb (blocked =? 0) then u64 (packets_blocked stats + 1)
             else packets_blocked stats |}]> stats_map
  end.

(** A block of [titan_xdp_filter] ends the program with a verdict, or the
    program goes on. *)
Inductive step : Type :=
| Verdict (v : xdp_action) (stats_map : list titan_stats)
| Next (stats_map : list titan_stats).

(** The DNS rule of the UDP block. *)
Definition dns_protection (cfg : titan_config) (stats_map : list titan_stats)
    (p : packet) (ip pkt_size dst_port : Z) : step :=
  if negb (dns_protection_enabled cfg =? 0) && (dst_port =? 53) then
    let dst_ip := iph_daddr p ip in
    if negb (dst_ip =? dns_server_1 cfg) && negb (dst_ip =? dns_server_2 cfg)
    then Verdict XDP_DROP (update_stats stats_map pkt_size 0 0 1)
    else Next (update_stats stats_map pkt_size 0 0 0)
  else Next stats_map.

(** The STUN/TURN rule of the UDP block. *)
Definition webrtc_block (cfg : titan_config) (stats_map : list titan_stats)
    (pkt_size dst_port src_port : Z) : step :=
  if negb (webrtc_block_enabled cfg =? 0) then
    if (dst_port =? 3478) || (dst_port =? 5349)
       || (src_port =? 3478) || (src_port =? 5349)
    then Verdict XDP_DROP (update_stats stats_map pkt_size 0 0 1)
    else Next stats_map
  else Next stats_map.

Definition udp_block (cfg : titan_config) (stats_map : list titan_stats)
    (p : packet) (ip pkt_size : Z) : step :=
  let udp := ip + iph_ihl p ip * 4 in
  if udp + sizeof_udphdr >? data_end p then Verdict XDP_PASS stats_map
  else
    let dst_port := bpf_ntohs (udph_dest p udp) in
    let src_port := bpf_ntohs (udph_source p udp) in
    match dns_protection cfg stats_map p ip pkt_size dst_port with
    | Verdict v stats_map => Verdict v stats_map
    | Next stats_map =>
        match webrtc_block cfg stats_map pkt_size dst_port src_port with
        | Verdict v stats_map => Verdict v stats_map
        | Next stats_map =>
            if dst_port =? QUIC_PORT
            then Verdict XDP_PASS (update_stats stats_map pkt_size 1 0 0)
            else Next stats_map
        end
    end.

Definition titan_xdp_filter (m : maps) (stats_map : list titan_stats)
    (p : packet) : xdp_action * list titan_stats :=
  match get_config m with
  | None => (XDP_PASS, stats_map)
  | Some cfg =>
      let eth := 0 in
      if eth + sizeof_ethhdr >? data_end p then (XDP_PASS, stats_map)
      else if negb (eth_h_proto p eth =? bpf_htons ETH_P_IP)
      then (XDP_PASS, stats_map)
      else
        let ip := eth + sizeof_ethhdr in
        if ip + sizeof_iphdr >? data_end p then (XDP_PASS, stats_map)
        else
          let pkt_size := u32 (data_end p - 0) in
          match (if iph_protocol p ip =? IPPROTO_UDP
                 then udp_block cfg stats_map p ip pkt_size
                 else Next stats_map) with
          | Verdict v stats_map => (v, stats_map)
          | Next stats_map =>
              if (iph_protocol p ip =? IPPROTO_TCP)
                 && negb (tcp_fingerprint_enabled cfg =? 0) then
                let tcp := ip + iph_ihl p ip * 4 in
                if tcp + sizeof_tcphdr >? data_end p
                then (XDP_PASS, stats_map)
                else (XDP_PASS, update_stats stats_map pkt_size 0 0 0)
              else (XDP_PASS, stats_map)
          end
  end.

(** cgroup/sock_create: 1 allows the socket, 0 denies it. *)
Definition titan_sock_create (m : maps) (sk_type : Z) : Z :=
  match get_config m with
  | None => 1
  | Some _ => if sk_type =? SOCK_RAW then 0 else 1
  end.

(** The two fields of [struct bpf_sock_addr] that [titan_connect4] uses,
    both in network byte order. *)
Record bpf_sock_addr := {
  user_ip4 : Z;     (* __u32 *)
  user_port : Z     (* __u32 *)
}.

Definition titan_connect4 (m : maps) (ctx : bpf_sock_addr)
  : Z * bpf_sock_addr :=
  match get_config m with
  | None => (1, ctx)
  | Some cfg =>
      let dst_port := bpf_ntohs (user_port ctx) in
      if negb (quic_proxy_enabled cfg =? 0) && (dst_port =? QUIC_PORT) then
        (1, {| user_ip4 := bpf_htonl 2130706433;     (* 0x7f000001 *)
               user_port := bpf_htons (proxy_port cfg) |})
      else (1, ctx)
  end.

End TitanFilter.

(** ** opt/lucid-empire/ebpf/tcp_fingerprint.c

    The file shares its configuration struct, the profile setters and the
    three checksum helpers with titan/ebpf/tcp_fingerprint.c, line for
    line; they are taken from [TcpFingerprint].  Its XDP program has no
    option loops, and its TC program ends with a pass over the options that
    blanks the timestamp option. *)

Module LucidTcpFingerprint.
Import TcpFingerprint.

Definition tcp_fingerprint_xdp (config : option tcp_config) (p : packet)
  : xdp_action * packet :=
  let eth := 0 in
  if eth + sizeof_ethhdr >? data_end p then (XDP_PASS, p)
  else if negb (eth_h_proto p eth =? bpf_htons ETH_P_IP) then (XDP_PASS, p)
  else
    let iph := eth + sizeof_ethhdr in
    if iph + sizeof_iphdr >? data_end p then (XDP_PASS, p)
    else if negb (iph_protocol p iph =? IPPROTO_TCP) then (XDP_PASS, p)
    else
      let tcph := iph + Z.shiftl (iph_ihl p iph) 2 in
      if tcph + sizeof_tcphdr >? data_end p then (XDP_PASS, p)
      else
        let p :=
          match config with
          | None =>
              let default_config := get_windows_profile stack_config in
              let p := set_ip_ttl p iph (ttl default_config) in
              if tcph_syn p tcph && negb (tcph_ack p tcph)
              then set_tcp_window p tcph
                     (bpf_htons (window_size default_config))
              else p
          | Some config =>
              let p := set_ip_ttl p iph (ttl config) in
              if tcph_syn p tcph && negb (tcph_ack p tcph)
              then set_tcp_window p tcph (bpf_htons (window_size config))
              else p
          end in
        let p := update_ip_checksum p iph in
        let p := update_tcp_checksum p iph tcph in
        (XDP_PASS, p).

(** The inner loop of the timestamp pass: [options[i + k] = 1] while
    [k < opt_len_actual && i + k < opt_len]. *)
Fixpoint nop_fill (fuel : nat) (p : packet)
    (options opt_len i opt_len_actual k : Z) : packet :=
  match fuel with
  | O => p
  | S fuel' =>
      if (k <? opt_len_actual) && (i + k <? opt_len)
      then nop_fill fuel' (st8 p (options + i + k) 1)
             options opt_len i opt_len_actual (k + 1)
      else p
  end.

(** The outer loop; the read of [options[i + 1]] is not preceded by a
    bounds check. *)
Fixpoint timestamp_walk (fuel : nat) (p : packet) (options opt_len i : Z)
  : outcome packet :=
  match fuel with
  | O => Ok p
  | S fuel' =>
      if negb (i <? opt_len) then Ok p
      else
        opt_type ← load8 p (options + i);
        if opt_type =? 0 then Ok p
        else if opt_type =? 1 then
          timestamp_walk fuel' p options opt_len (i + 1)
        else
          opt_len_actual ← load8 p (options + i + 1);
          if opt_type =? 8
          then Ok (nop_fill (Z.to_nat opt_len_actual) p
                     options opt_len i opt_len_actual 0)
          else timestamp_walk fuel' p options opt_len
                 (i + (if opt_len_actual >? 0 then opt_len_actual else 1))
  end.

(** [opt_len] is a [__u8] and [i] grows in every round. *)
Definition walk_fuel : nat := 256.

Definition timestamp_destruction (p : packet) : outcome packet :=
  let data := 0 in
  let tcph := data + sizeof_ethhdr + sizeof_iphdr in
  if data + sizeof_ethhdr + sizeof_iphdr + sizeof_tcphdr >? data_end p
  then Ok p
  else
    let options := tcph + sizeof_tcphdr in
    let opt_len := u8 (tcph_doff p tcph * 4 - sizeof_tcphdr) in
    if options + opt_len >? data_end p then Ok p
    else timestamp_walk walk_fuel p options opt_len 0.

Definition tcp_fingerprint_tc (config : option tcp_config) (p : packet)
  : outcome (tc_action * packet) :=
  let eth := 0 in
  if eth + sizeof_ethhdr >? data_end p then Ok (TC_ACT_OK, p)
  else if negb (eth_h_proto p eth =? bpf_htons ETH_P_IP) then Ok (TC_ACT_OK, p)
  else
    let iph := eth + sizeof_ethhdr in
    if iph + sizeof_iphdr >? data_end p then Ok (TC_ACT_OK, p)
    else if negb (iph_protocol p iph =? IPPROTO_TCP) then Ok (TC_ACT_OK, p)
    else
      let tcph := iph + Z.shiftl (iph_ihl p iph) 2 in
      if tcph + sizeof_tcphdr >? data_end p then Ok (TC_ACT_OK, p)
      else
        match config with
        | None => Ok (TC_ACT_OK, p)
        | Some config =>
            let p := set_ip_ttl p iph (ttl config) in
            let p := if tcph_syn p tcph
                     then set_tcp_window p tcph (bpf_htons (window_size config))
                     else p in
            let p := Kernel.bpf_l3_csum_replace p (sizeof_ethhdr + 10) 0 0 0 in
            p ← timestamp_destruction p;
            Ok (TC_ACT_OK, p)
        end.

End LucidTcpFingerprint.

(** ** Reference checksums (RFC 1071), written from the specification

    These follow the words of the specification, not the code: zero the
    checksum field, sum the 16-bit big-endian words, fold the carries until
    none remains, complement, and store in network byte order. *)

Module Reference.

Definition be16 (p : packet) (o : Z) : Z := 256 * ld8 p o + ld8 p (o + 1).

Definition put_be16 (p : packet) (o v : Z) : packet :=
  st8 (st8 p o (v / 256)) (o + 1) v.

(** Sum of [n] big-endian words from offset [o] on. *)
Fixpoint sum_be (n : nat) (p : packet) (o : Z) : Z :=
  match n with
  | O => 0
  | S n' => be16 p o + sum_be n' p (o + 2)
  end.

(** Add the upper 16 bits into the lower 16 bits until no carry remains. *)
Fixpoint fold16 (fuel : nat) (x : Z) : Z :=
  match fuel with
  | O => x
  | S fuel' => if x <? 65536 then x else fold16 fuel' (x mod 65536 + x / 65536)
  end.

Definition ones_complement_checksum (sum : Z) : Z := 65535 - fold16 64 sum.

(** IPv4: the header proper, over its declared length of [ihl * 4] bytes. *)
Definition ip_checksum (p : packet) (iph : Z) : Z :=
  let p0 := put_be16 p (iph + 10) 0 in
  ones_complement_checksum (sum_be (Z.to_nat (iph_ihl p iph * 2)) p0 iph).

(** The packet with the reference IPv4 checksum stored. *)
Definition with_ip_checksum (p : packet) (iph : Z) : packet :=
  put_be16 p (iph + 10) (ip_checksum p iph).

(** TCP over the whole segment: pseudo-header (addresses, protocol, TCP
    length) and every byte from the TCP header to the end of the datagram
    (an even number of bytes is assumed). *)
Definition tcp_segment_checksum (p : packet) (iph : Z) : Z :=
  let tcph := iph + iph_ihl p iph * 4 in
  let tcp_len := be16 p (iph + 2) - iph_ihl p iph * 4 in
  let p0 := put_be16 p (tcph + 16) 0 in
  ones_complement_checksum
    (sum_be 4 p0 (iph + 12) + IPPROTO_TCP + tcp_len
     + sum_be (Z.to_nat (tcp_len / 2)) p0 tcph).


Definition is_syn (p : packet) : bool :=
  let tcph := 14 + iph_ihl p 14 * 4 in
  tcph_syn p tcph && negb (tcph_ack p tcph).

End Reference.

(** ** Sample frames

    Source 172.16.10.99:50000, destination 172.16.10.12:443, TTL 64, window
    29200; the IPv4 and TCP checksums in them verify. *)

Module Samples.

(** a SYN without options *)
Definition syn_plain : packet :=
  [0; 17; 34; 51; 68; 85; 102; 119; 136; 153; 170; 187; 8; 0; 69; 0; 0; 40; 28; 70; 64; 0; 64; 6; 177; 250; 172; 16; 10; 99; 172; 16; 10; 12; 195; 80; 1; 187; 1; 2; 3; 4; 0; 0; 0; 0; 80; 2; 114; 16; 8; 49; 0; 0].

(** a SYN with MSS 1400, SACK-permitted, timestamp, NOP and window scale 7 *)
Definition syn_opts : packet :=
  [0; 17; 34; 51; 68; 85; 102; 119; 136; 153; 170; 187; 8; 0; 69; 0; 0; 60; 28; 70; 64; 0; 64; 6; 177; 230; 172; 16; 10; 99; 172; 16; 10; 12; 195; 80; 1; 187; 1; 2; 3; 4; 0; 0; 0; 0; 160; 2; 114; 16; 201; 240; 0; 0; 2; 4; 5; 120; 4; 2; 8; 10; 0; 18; 214; 135; 0; 0; 0; 0; 1; 3; 3; 7].

(** the SYN-ACK with the same options *)
Definition synack_opts : packet :=
  [0; 17; 34; 51; 68; 85; 102; 119; 136; 153; 170; 187; 8; 0; 69; 0; 0; 60; 28; 70; 64; 0; 64; 6; 177; 230; 172; 16; 10; 99; 172; 16; 10; 12; 195; 80; 1; 187; 1; 2; 3; 4; 10; 11; 12; 13; 160; 18; 114; 16; 179; 200; 0; 0; 2; 4; 5; 120; 4; 2; 8; 10; 0; 18; 214; 135; 0; 0; 0; 0; 1; 3; 3; 7].

(** an ACK segment carrying a timestamp option *)
Definition ack_opts : packet :=
  [0; 17; 34; 51; 68; 85; 102; 119; 136; 153; 170; 187; 8; 0; 69; 0; 0; 52; 28; 70; 64; 0; 64; 6; 177; 238; 172; 16; 10; 99; 172; 16; 10; 12; 195; 80; 1; 187; 1; 2; 3; 4; 10; 11; 12; 13; 128; 16; 114; 16; 226; 89; 0; 0; 1; 1; 8; 10; 0; 18; 214; 135; 0; 0; 0; 0].

(** a SYN advertising MSS 9104 and window scale 7 *)
Definition syn_bigmss : packet :=
  [0; 17; 34; 51; 68; 85; 102; 119; 136; 153; 170; 187; 8; 0; 69; 0; 0; 48; 28; 70; 64; 0; 64; 6; 177; 242; 172; 16; 10; 99; 172; 16; 10; 12; 195; 80; 1; 187; 1; 2; 3; 4; 0; 0; 0; 0; 112; 2; 114; 16; 190; 138; 0; 0; 2; 4; 35; 144; 1; 3; 3; 7].

(** a SYN whose option area ends with a lone kind byte *)
Definition syn_truncated_opt : packet :=
  [0; 17; 34; 51; 68; 85; 102; 119; 136; 153; 170; 187; 8; 0; 69; 0; 0; 44; 28; 70; 64; 0; 64; 6; 177; 246; 172; 16; 10; 99; 172; 16; 10; 12; 195; 80; 1; 187; 1; 2; 3; 4; 0; 0; 0; 0; 96; 2; 114; 16; 246; 40; 0; 0; 1; 1; 1; 3].

(** a SYN behind an IPv4 header with the router-alert option (ihl = 6) *)
Definition syn_ipopts : packet :=
  [0; 17; 34; 51; 68; 85; 102; 119; 136; 153; 170; 187; 8; 0; 70; 0; 0; 44; 28; 70; 64; 0; 64; 6; 28; 242; 172; 16; 10; 99; 172; 16; 10; 12; 148; 4; 0; 0; 195; 80; 1; 187; 1; 2; 3; 4; 0; 0; 0; 0; 80; 2; 114; 16; 8; 49; 0; 0].

(** Ethernet and IPv4 header of a TCP packet, cut before the TCP header *)
Definition tcp_no_transport : packet :=
  [0; 17; 34; 51; 68; 85; 102; 119; 136; 153; 170; 187; 8; 0; 69; 0; 0; 40; 28; 70; 64; 0; 64; 6; 177; 250; 172; 16; 10; 99; 172; 16; 10; 12].

(** a frame one byte short of Ethernet + IPv4 *)
Definition short_frame : packet :=
  [0; 17; 34; 51; 68; 85; 102; 119; 136; 153; 170; 187; 8; 0; 69; 0; 0; 40; 28; 70; 64; 0; 64; 6; 177; 250; 172; 16; 10; 99; 172; 16; 10].

(** A configuration for [tcp_config_map]: the Windows values, no
    timestamp aging. *)
Definition windows_config : TcpFingerprint.tcp_config :=
  {| TcpFingerprint.ttl := 128; TcpFingerprint.window_size := 65535;
     TcpFingerprint.mss := 1460; TcpFingerprint.window_scale := 8;
     TcpFingerprint.sack_permitted := 1; TcpFingerprint.timestamps := 0;
     TcpFingerprint.timestamp_offset := 0 |}.

(** The same with a timestamp offset of 1000 ticks. *)
Definition aging_config : TcpFingerprint.tcp_config :=
  {| TcpFingerprint.ttl := 128; TcpFingerprint.window_size := 65535;
     TcpFingerprint.mss := 1460; TcpFingerprint.window_scale := 8;
     TcpFingerprint.sack_permitted := 1; TcpFingerprint.timestamps := 0;
     TcpFingerprint.timestamp_offset := 1000 |}.

Definition profile (ttl window_size window_scale mss : Z)
  : NetworkShieldV6.os_tcp_profile :=
  {| NetworkShieldV6.ttl := ttl; NetworkShieldV6.window_size := window_size;
     NetworkShieldV6.window_scale := window_scale; NetworkShieldV6.mss := mss;
     NetworkShieldV6.sack_ok := 1; NetworkShieldV6.timestamps := 0;
     NetworkShieldV6.nop_count := 0; NetworkShieldV6.opt_order := [];
     NetworkShieldV6.opt_count := 0 |}.

(** Contents of [titan_os_profiles], slots 0 to 3. *)
Definition os_profiles : list NetworkShieldV6.os_tcp_profile :=
  [ profile 128 64240 8 1460; profile 128 65535 8 1460;
    profile 64 65535 6 1460; profile 64 64240 7 1460 ].

Definition titan_config_with (os_profile : Z) : NetworkShieldV6.titan_config :=
  {| NetworkShieldV6.quic_proxy_enabled := 0;
     NetworkShieldV6.tcp_fingerprint_enabled := 1;
     NetworkShieldV6.dns_protection_enabled := 0;
     NetworkShieldV6.webrtc_block_enabled := 0;
     NetworkShieldV6.proxy_ip := 0; NetworkShieldV6.proxy_port := 0;
     NetworkShieldV6.os_profile := os_profile;
     NetworkShieldV6.dns_server_1 := 0; NetworkShieldV6.dns_server_2 := 0 |}.

(** The maps of network_shield_v6.c with profile [os_profile] selected. *)
Definition titan_maps (os_profile : Z) : NetworkShieldV6.maps :=
  {| NetworkShieldV6.titan_config_map := [titan_config_with os_profile];
     NetworkShieldV6.titan_os_profiles := os_profiles |}.

(** a SYN whose first option (kind 3) carries the length byte 0 *)
Definition syn_short_len : packet :=
  [0; 17; 34; 51; 68; 85; 102; 119; 136; 153; 170; 187; 8; 0; 69; 0; 0; 44; 28; 70; 64; 0; 64; 6; 177; 246; 172; 16; 10; 99; 172; 16; 10; 12; 195; 80; 1; 187; 1; 2; 3; 4; 0; 0; 0; 0; 96; 2; 114; 16; 244; 43; 0; 0; 3; 0; 1; 1].

(** a UDP datagram to port 53 of 8.8.8.8 *)
Definition dns_query : packet :=
  [0; 17; 34; 51; 68; 85; 102; 119; 136; 153; 170; 187; 8; 0; 69; 0; 0; 40; 28; 70; 64; 0; 64; 17; 87; 252; 172; 16; 10; 99; 8; 8; 8; 8; 156; 64; 0; 53; 0; 20; 156; 205; 0; 0; 0; 0; 0; 0; 0; 0; 0; 0; 0; 0].

(** a UDP datagram to port 443 *)
Definition quic_initial : packet :=
  [0; 17; 34; 51; 68; 85; 102; 119; 136; 153; 170; 187; 8; 0; 69; 0; 0; 40; 28; 70; 64; 0; 64; 17; 177; 239; 172; 16; 10; 99; 172; 16; 10; 12; 156; 64; 1; 187; 0; 20; 245; 58; 0; 0; 0; 0; 0; 0; 0; 0; 0; 0; 0; 0].

(** a UDP datagram to the STUN port 3478 *)
Definition stun_binding : packet :=
  [0; 17; 34; 51; 68; 85; 102; 119; 136; 153; 170; 187; 8; 0; 69; 0; 0; 40; 28; 70; 64; 0; 64; 17; 177; 239; 172; 16; 10; 99; 172; 16; 10; 12; 156; 64; 13; 150; 0; 20; 233; 95; 0; 0; 0; 0; 0; 0; 0; 0; 0; 0; 0; 0].

(** A configuration of network_shield_v6.c with every protection on,
    8.8.8.8 and 1.1.1.1 as DNS servers and the proxy on port 8443. *)
Definition shield_config : NetworkShieldV6.titan_config :=
  {| NetworkShieldV6.quic_proxy_enabled := 1;
     NetworkShieldV6.tcp_fingerprint_enabled := 1;
     NetworkShieldV6.dns_protection_enabled := 1;
     NetworkShieldV6.webrtc_block_enabled := 1;
     NetworkShieldV6.proxy_ip := 0; NetworkShieldV6.proxy_port := 8443;
     NetworkShieldV6.os_profile := 1;
     NetworkShieldV6.dns_server_1 := 134744072;    (* 8.8.8.8 *)
     NetworkShieldV6.dns_server_2 := 16843009 |}.  (* 1.1.1.1 *)

Definition shield_maps : NetworkShieldV6.maps :=
  {| NetworkShieldV6.titan_config_map := [shield_config];
     NetworkShieldV6.titan_os_profiles := os_profiles |}.

Definition zero_stats : TitanFilter.titan_stats :=
  {| TitanFilter.packets_total := 0; TitanFilter.packets_quic := 0;
     TitanFilter.packets_redirected := 0; TitanFilter.packets_blocked := 0;
     TitanFilter.bytes_total := 0 |}.

End Samples.

(** ** Vocabulary of the properties *)

(** Some header overlay of the parse (Ethernet, IPv4, TCP at the declared
    IPv4 header length) would end past [data_end]. *)
Definition header_overlay_fails (p : packet) : bool :=
  (14 >? data_end p) || (14 + 20 >? data_end p)
  || (14 + iph_ihl p 14 * 4 + 20 >? data_end p).

(** The frame parses as Ethernet / IPv4 / TCP in [tcp_fingerprint_xdp]. *)
Definition tcp_frame (p : packet) : bool :=
  (34 <=? data_end p)
  && (eth_h_proto p 0 =? bpf_htons ETH_P_IP)
  && (iph_protocol p 14 =? IPPROTO_TCP)
  && (14 + iph_ihl p 14 * 4 + 20 <=? data_end p).

(** The TTL and window edits that open both branches of
    [TcpFingerprint.apply_config]. *)
Definition ttl_window (ttl window_size : Z) (p : packet) (iph tcph : Z)
  : packet :=
  let p := set_ip_ttl p iph ttl in
  if tcph_syn p tcph && negb (tcph_ack p tcph)
  then set_tcp_window p tcph (bpf_htons window_size)
  else p.

(** The value a one's-complement accumulator folds to: the representative
    of [x] modulo 65535 in 1..65535, and 0 for 0. *)
Definition ones_reduce (x : Z) : Z :=
  if x =? 0 then 0 else (x - 1) mod 65535 + 1.

(** Plain sum of [n] host-order words from [ptr] on. *)
Fixpoint word_sum (n : nat) (p : packet) (ptr : Z) : Z :=
  match n with
  | O => 0
  | S n' => ld16 p ptr + word_sum n' p (ptr + 2)
  end.

(** The option records of a TCP header, read as the specification
    describes them: a kind byte; kind 0 ends the list, kind 1 is a single
    byte, any other kind is followed by a length byte (at least 2) that
    tells where the next record starts.  [find_option want fuel p opts len i]
    is the index, within the option area of [len] bytes at [opts], of the
    first record of kind [want] at or after index [i]. *)
Fixpoint find_option (want : Z) (fuel : nat) (p : packet) (opts len i : Z)
  : option Z :=
  match fuel with
  | O => None
  | S fuel' =>
      if i <? len then
        let kind := ld8 p (opts + i) in
        if kind =? 0 then None
        else if kind =? 1 then find_option want fuel' p opts len (i + 1)
        else if kind =? want then Some i
        else
          let l := ld8 p (opts + i + 1) in
          if l <? 2 then None else find_option want fuel' p opts len (i + l)
      else None
  end.

(** Size of the option area that the data offset declares. *)
Definition option_area_len (p : packet) (tcph : Z) : Z :=
  u8 (tcph_doff p tcph * 4) - 20.

(** Index of the MSS option (kind 2) in the option area, if there is one,
    and the value it advertises. *)
Definition mss_option (p : packet) (tcph : Z) : option Z :=
  find_option 2 TcpFingerprint.walk_fuel p (tcph + 20)
    (option_area_len p tcph) 0.

Definition mss_value (p : packet) (tcph j : Z) : Z :=
  Reference.be16 p (tcph + 20 + j + 2).

(** Index of the timestamp option (kind 8) in the option area, if there is
    one, and the 32-bit value it carries, read in network byte order. *)
Definition timestamp_option (p : packet) (tcph : Z) : option Z :=
  find_option 8 TcpFingerprint.walk_fuel p (tcph + 20)
    (option_area_len p tcph) 0.

Definition be32 (p : packet) (o : Z) : Z :=
  65536 * Reference.be16 p o + Reference.be16 p (o + 2).

Definition tsval (p : packet) (tcph j : Z) : Z := be32 p (tcph + 20 + j + 2).

(** The TTL and the window that a lookup result stands for. *)
Definition effective_ttl (config : option TcpFingerprint.tcp_config) : Z :=
  match config with
  | Some c => TcpFingerprint.ttl c
  | None => 128
  end.

Definition effective_window (config : option TcpFingerprint.tcp_config) : Z :=
  match config with
  | Some c => TcpFingerprint.window_size c
  | None => 65535
  end.

(** The frame parses as Ethernet / IPv4 / UDP in the filters, and the ports
    of the datagram in host order. *)
Definition udp_frame (p : packet) : bool :=
  (34 <=? data_end p)
  && (Reference.be16 p 12 =? ETH_P_IP)
  && (iph_protocol p 14 =? IPPROTO_UDP)
  && (14 + iph_ihl p 14 * 4 + 8 <=? data_end p).

Definition udp_source_port (p : packet) : Z :=
  Reference.be16 p (14 + iph_ihl p 14 * 4).

Definition udp_dest_port (p : packet) : Z :=
  Reference.be16 p (14 + iph_ihl p 14 * 4 + 2).

(** The two drop rules of [titan_xdp_filter], on a UDP datagram. *)
Definition dns_rule (cfg : NetworkShieldV6.titan_config) (p : packet) : bool :=
  negb (NetworkShieldV6.dns_protection_enabled cfg =? 0)
  && (udp_dest_port p =? 53)
  && negb (iph_daddr p 14 =? NetworkShieldV6.dns_server_1 cfg)
  && negb (iph_daddr p 14 =? NetworkShieldV6.dns_server_2 cfg).

Definition stun_rule (cfg : NetworkShieldV6.titan_config) (p : packet) : bool :=
  negb (NetworkShieldV6.webrtc_block_enabled cfg =? 0)
  && ((udp_dest_port p =? 3478) || (udp_dest_port p =? 5349)
      || (udp_source_port p =? 3478) || (udp_source_port p =? 5349)).

(** The counters of a statistics slot are 64-bit values and none of the
    three event counters exceeds the packet counter. *)
Definition stats_consistent (s : TitanFilter.titan_stats) : Prop :=
  0 <= TitanFilter.packets_total s < 18446744073709551616
  /\ 0 <= TitanFilter.packets_quic s <= TitanFilter.packets_total s
  /\ 0 <= TitanFilter.packets_redirected s <= TitanFilter.packets_total s
  /\ 0 <= TitanFilter.packets_blocked s <= TitanFilter.packets_total s.


(** * Verification *)

Import Samples.

(** ** Packet memory: reads after writes *)

Section MemLemmas.
Implicit Types (p : packet) (o v : Z).

Lemma data_end_nonneg p : 0 <= data_end p.
Proof. unfold data_end. lia. Qed.

Lemma data_end_st8 p o v : data_end (st8 p o v) = data_end p.
Proof. unfold data_end, st8. by rewrite length_insert. Qed.

Lemma data_end_st16 p o v : data_end (st16 p o v) = data_end p.
Proof. unfold st16. by rewrite !data_end_st8. Qed.

Lemma data_end_st32 p o v : data_end (st32 p o v) = data_end p.
Proof. unfold st32. by rewrite !data_end_st16. Qed.

Lemma ld8_st8_eq p o v :
  0 <= o < data_end p -> ld8 (st8 p o v) o = v mod 256.
Proof.
  unfold data_end, ld8, st8. intros H.
  apply list_lookup_total_insert_eq. lia.
Qed.

Lemma ld8_st8_ne p o v o' :
  0 <= o -> 0 <= o' -> o <> o' -> ld8 (st8 p o v) o' = ld8 p o'.
Proof.
  unfold ld8, st8. intros H1 H2 H3.
  apply list_lookup_total_insert_ne. lia.
Qed.

Lemma ld8_st16_ne p o v o' :
  0 <= o -> 0 <= o' -> o' <> o -> o' <> o + 1 ->
  ld8 (st16 p o v) o' = ld8 p o'.
Proof. intros. unfold st16. rewrite !ld8_st8_ne; auto with lia. Qed.

Lemma ld8_st16_lo p o v :
  0 <= o -> o + 1 < data_end p -> ld8 (st16 p o v) o = v mod 256.
Proof.
  intros. unfold st16. rewrite ld8_st8_ne by lia. apply ld8_st8_eq. lia.
Qed.

Lemma ld8_st16_hi p o v :
  0 <= o -> o + 1 < data_end p -> ld8 (st16 p o v) (o + 1) = (v / 256) mod 256.
Proof.
  intros. unfold st16. apply ld8_st8_eq. rewrite data_end_st8. lia.
Qed.

Lemma ld16_st16_ne p o v o' :
  0 <= o -> 0 <= o' -> o' + 1 < o \/ o + 1 < o' ->
  ld16 (st16 p o v) o' = ld16 p o'.
Proof. intros. unfold ld16. rewrite !ld8_st16_ne; auto with lia. Qed.

Lemma ld16_st8_ne p o v o' :
  0 <= o -> 0 <= o' -> o <> o' -> o <> o' + 1 ->
  ld16 (st8 p o v) o' = ld16 p o'.
Proof. intros. unfold ld16. rewrite !ld8_st8_ne; auto with lia. Qed.

Lemma st8_same p o v :
  0 <= o < data_end p -> ld8 p o = v mod 256 -> st8 p o v = p.
Proof.
  unfold data_end, ld8, st8. intros H1 H2.
  apply list_insert_id. rewrite <- H2.
  apply list_lookup_lookup_total_lt. lia.
Qed.

Lemma st8_st8 p o v w : st8 (st8 p o v) o w = st8 p o w.
Proof. unfold st8. apply list_insert_insert_eq. Qed.

Lemma st8_comm p o v o' w :
  0 <= o -> 0 <= o' -> o <> o' ->
  st8 (st8 p o v) o' w = st8 (st8 p o' w) o v.
Proof. unfold st8. intros. apply list_insert_insert_ne. lia. Qed.

Lemma packet_ext p q :
  data_end p = data_end q ->
  (forall o, 0 <= o < data_end p -> ld8 p o = ld8 q o) -> p = q.
Proof.
  unfold data_end, ld8. intros Hl H.
  apply list_eq_same_length with (length p); [lia | done |].
  intros i x y Hi Hx Hy.
  specialize (H (Z.of_nat i) ltac:(lia)). rewrite Nat2Z.id in H.
  rewrite (list_lookup_total_correct _ _ _ Hx) in H.
  rewrite (list_lookup_total_correct _ _ _ Hy) in H. done.
Qed.

Lemma land_15 x : Z.land x 15 = x mod 16.
Proof. change 15 with (Z.ones 4). by rewrite Z.land_ones by lia. Qed.

Lemma ihl_range p o : 0 <= iph_ihl p o <= 15.
Proof.
  unfold iph_ihl. rewrite land_15.
  pose proof (Z.mod_pos_bound (ld8 p o) 16 ltac:(lia)). lia.
Qed.

Lemma doff_range p o : 0 <= tcph_doff p o <= 15.
Proof.
  unfold tcph_doff. rewrite land_15.
  pose proof (Z.mod_pos_bound (Z.shiftr (ld8 p (o + 12)) 4) 16 ltac:(lia)). lia.
Qed.

Lemma shiftl2 x : Z.shiftl x 2 = x * 4.
Proof. rewrite Z.shiftl_mul_pow2 by lia. reflexivity. Qed.
End MemLemmas.

(** Simplify reads through writes; the offsets are compared by [lia]. *)
Ltac mem_step :=
  first
    [ rewrite data_end_st8 | rewrite data_end_st16 | rewrite data_end_st32
    | rewrite ld8_st8_ne by lia
    | rewrite ld8_st16_ne by lia
    | rewrite ld16_st16_ne by lia
    | rewrite ld16_st8_ne by lia ].
Ltac mem := repeat mem_step.

(** Turn the boolean tests of the programs into hypotheses. *)
Ltac case_test :=
  match goal with
  | |- context [if ?b then _ else _] => destruct b eqn:?
  end.

(** ** Frame of the checksum helpers of tcp_fingerprint.c *)

Section TcpFingerprintFrame.
Import TcpFingerprint.
Implicit Types (p : packet) (o iph tcph : Z).

Lemma data_end_update_ip_checksum p iph :
  data_end (update_ip_checksum p iph) = data_end p.
Proof. unfold update_ip_checksum, set_ip_check. by mem. Qed.

Lemma data_end_update_tcp_checksum p iph tcph :
  data_end (update_tcp_checksum p iph tcph) = data_end p.
Proof. unfold update_tcp_checksum, set_tcp_check. by mem. Qed.

Lemma ld8_update_ip_checksum p iph o :
  0 <= iph -> 0 <= o -> o <> iph + 10 -> o <> iph + 11 ->
  ld8 (update_ip_checksum p iph) o = ld8 p o.
Proof. intros. unfold update_ip_checksum, set_ip_check. by mem. Qed.

Lemma ld8_update_tcp_checksum p iph tcph o :
  0 <= tcph -> 0 <= o -> o <> tcph + 16 -> o <> tcph + 17 ->
  ld8 (update_tcp_checksum p iph tcph) o = ld8 p o.
Proof. intros. unfold update_tcp_checksum, set_tcp_check. by mem. Qed.
End TcpFingerprintFrame.

(** C10: on the fallback path of [tcp_fingerprint_xdp] (no entry in
    [tcp_config_map]) the program always completes with a pass verdict, and
    the only bytes that can differ afterwards are the TTL, the IPv4
    checksum, the TCP window and the TCP checksum; the window keeps its
    bytes unless SYN is set and ACK is clear, and every byte from the start
    of the TCP options on is unchanged. *)
Theorem fallback_path_leaves_options (p : packet) :
  let tcph := 14 + iph_ihl p 14 * 4 in
  exists q,
    TcpFingerprint.tcp_fingerprint_xdp None p = Ok (XDP_PASS, q)
    /\ data_end q = data_end p
    /\ (forall o, tcph + 20 <= o -> ld8 q o = ld8 p o)
    /\ (forall o, 0 <= o -> o <> 22 -> o <> 24 -> o <> 25 ->
                  ~ (tcph + 14 <= o <= tcph + 17) -> ld8 q o = ld8 p o)
    /\ (tcph_syn p tcph && negb (tcph_ack p tcph) = false ->
        ld8 q (tcph + 14) = ld8 p (tcph + 14)
        /\ ld8 q (tcph + 15) = ld8 p (tcph + 15)).
Proof.
  intros tcph. pose proof (ihl_range p 14) as Hihl.
  unfold TcpFingerprint.tcp_fingerprint_xdp.
  cbv beta iota zeta delta [sizeof_ethhdr sizeof_iphdr sizeof_tcphdr].
  rewrite shiftl2. change (0 + 14) with 14. fold tcph.
  repeat (case_test; [eexists; repeat split; eauto; fail |]).
  cbn [TcpFingerprint.apply_config mbind outcome_bind].
  eexists; split; [reflexivity |].
  unfold TcpFingerprint.get_windows_profile, set_ip_ttl, set_tcp_window;
    cbn [TcpFingerprint.ttl TcpFingerprint.window_size].
  assert (Hflags : forall v, tcph_syn (st8 p (14 + 8) v) tcph = tcph_syn p tcph
                        /\ tcph_ack (st8 p (14 + 8) v) tcph = tcph_ack p tcph).
  { intros v. unfold tcph_syn, tcph_ack. by mem. }
  destruct (Hflags 128) as [-> ->].
  rewrite data_end_update_tcp_checksum, data_end_update_ip_checksum.
  repeat split.
  - by destruct (_ && _); mem.
  - intros o Ho.
    rewrite ld8_update_tcp_checksum, ld8_update_ip_checksum by lia.
    by destruct (_ && _); mem.
  - intros o Ho1 Ho2 Ho3 Ho4 Ho5.
    rewrite ld8_update_tcp_checksum, ld8_update_ip_checksum by lia.
    by destruct (_ && _); mem.
  - rewrite ld8_update_tcp_checksum, ld8_update_ip_checksum by lia.
    rewrite H. by mem.
  - rewrite ld8_update_tcp_checksum, ld8_update_ip_checksum by lia.
    rewrite H. by mem.
Qed.


(** ** Bounds violations *)

(** C7 (as amended): when a header overlay would end past [data_end],
    [tcp_fingerprint_xdp] returns XDP_PASS with the buffer unchanged; a
    buffer shorter than Ethernet + IPv4 (34 bytes) also passes
    [xdp_outbound_masking] unchanged. *)
Theorem bounds_violation_passes_unchanged
    (config : option TcpFingerprint.tcp_config) (p : packet) :
  header_overlay_fails p = true ->
  TcpFingerprint.tcp_fingerprint_xdp config p = Ok (XDP_PASS, p)
  /\ (data_end p < 34 ->
      XdpOutbound.xdp_outbound_masking p = (XDP_PASS, p)).
Proof.
  unfold header_overlay_fails. intros H. split.
  - unfold TcpFingerprint.tcp_fingerprint_xdp.
    cbv beta iota zeta delta [sizeof_ethhdr sizeof_iphdr sizeof_tcphdr].
    rewrite shiftl2. change (0 + 14) with 14.
    repeat (case_test; [reflexivity |]). lia.
  - intros Hshort. unfold XdpOutbound.xdp_outbound_masking.
    cbv beta iota zeta delta [sizeof_ethhdr sizeof_iphdr sizeof_tcphdr].
    case_test; [reflexivity | lia].
Qed.

Lemma bounds_violation_witness :
  header_overlay_fails short_frame = true
  /\ TcpFingerprint.tcp_fingerprint_xdp (Some windows_config) short_frame
     = Ok (XDP_PASS, short_frame)
  /\ XdpOutbound.xdp_outbound_masking short_frame = (XDP_PASS, short_frame).
Proof.
  split; [reflexivity |].
  destruct (bounds_violation_passes_unchanged (Some windows_config) short_frame)
    as [H1 H2]; [reflexivity |].
  split; [exact H1 | apply H2; vm_compute; reflexivity].
Defined.

(** C7, as stated, fails on [xdp_outbound_masking]: for a TCP packet cut
    right after the IPv4 header the TCP overlay ends past [data_end], the
    verdict is XDP_PASS, but the TTL and the identification field have
    already been rewritten. *)
Lemma outbound_masking_edits_before_tcp_check :
  header_overlay_fails tcp_no_transport = true
  /\ fst (XdpOutbound.xdp_outbound_masking tcp_no_transport) = XDP_PASS
  /\ snd (XdpOutbound.xdp_outbound_masking tcp_no_transport) <> tcp_no_transport.
Proof. repeat split. vm_compute. discriminate. Qed.


(** ** Frame of network_shield_original.c *)

Section NetworkShieldFrame.
Import NetworkShield.
Implicit Types (p : packet) (o iph tcph : Z) (sig : os_signature).

Lemma data_end_rewrite_ttl sig p iph :
  data_end (rewrite_ttl sig p iph) = data_end p.
Proof.
  unfold rewrite_ttl, ip_checksum, set_ip_check, set_ip_ttl.
  case_test; by mem.
Qed.

Lemma ld8_rewrite_ttl sig p iph o :
  0 <= iph -> 0 <= o -> o <> iph + 8 -> o <> iph + 10 -> o <> iph + 11 ->
  ld8 (rewrite_ttl sig p iph) o = ld8 p o.
Proof.
  intros. unfold rewrite_ttl, ip_checksum, set_ip_check, set_ip_ttl.
  case_test; by mem.
Qed.

Lemma data_end_incremental_tcp_checksum p tcph old_val new_val :
  data_end (update_tcp_checksum p tcph old_val new_val) = data_end p.
Proof. unfold update_tcp_checksum, set_tcp_check. by mem. Qed.

Lemma ld8_incremental_tcp_checksum p tcph old_val new_val o :
  0 <= tcph -> 0 <= o -> o <> tcph + 16 -> o <> tcph + 17 ->
  ld8 (update_tcp_checksum p tcph old_val new_val) o = ld8 p o.
Proof. intros. unfold update_tcp_checksum, set_tcp_check. by mem. Qed.

(** The clamped persona always indexes the table. *)
Lemma signature_at_resolved persona_ptr :
  (forall v, persona_ptr = Some v -> 0 <= v) ->
  exists sig, signature_at (resolve_persona persona_ptr) = Ok sig
              /\ sig ∈ signatures.
Proof.
  intros Hv. unfold resolve_persona, PERSONA_MACOS, PERSONA_LINUX.
  destruct persona_ptr as [v|].
  - specialize (Hv v eq_refl). case_test.
    + eexists; split; [reflexivity |]. unfold signatures; repeat constructor.
    + assert (v = 0 \/ v = 1 \/ v = 2) as [-> | [-> | ->]] by lia;
        (eexists; split; [reflexivity |]); unfold signatures; repeat constructor.
  - eexists; split; [reflexivity |]. unfold signatures; repeat constructor.
Qed.

(** Bytes of the result of [network_shield_xdp] outside the fields it
    edits. *)
Lemma network_shield_xdp_frame persona_ptr p v q o :
  network_shield_xdp persona_ptr p = Ok (v, q) ->
  let tcph := 14 + iph_ihl p 14 * 4 in
  0 <= o -> o <> 22 -> o <> 24 -> o <> 25 ->
  ~ (tcph + 14 <= o <= tcph + 17) ->
  ld8 q o = ld8 p o.
Proof.
  intros Hrun tcph Ho H22 H24 H25 Htcp.
  pose proof (ihl_range p 14) as Hihl.
  revert Hrun. unfold network_shield_xdp.
  cbv beta iota zeta delta [sizeof_ethhdr sizeof_iphdr sizeof_tcphdr].
  change (0 + 14) with 14.
  repeat (case_test; [intros [= <- <-]; reflexivity |]).
  destruct (signature_at _) as [sig|]; [| discriminate].
  cbn [mbind outcome_bind].
  assert (Hihl' : iph_ihl (rewrite_ttl sig p 14) 14 = iph_ihl p 14).
  { unfold iph_ihl. by rewrite ld8_rewrite_ttl by lia. }
  rewrite Hihl'. fold tcph.
  case_test; [| intros [= <- <-]; by rewrite ld8_rewrite_ttl by lia].
  case_test; [intros [= <- <-]; by rewrite ld8_rewrite_ttl by lia |].
  intros [= <- <-].
  repeat case_test; unfold set_tcp_window;
    rewrite ?ld8_incremental_tcp_checksum by lia; mem;
    by rewrite ld8_rewrite_ttl by lia.
Qed.
End NetworkShieldFrame.

(** ** Locality of the TTL edit *)

(** C9 (as amended): in [network_shield_xdp] every byte of the IPv4 header
    (over its declared length) other than the TTL byte and the two checksum
    bytes is unchanged, the identification field included; in
    [xdp_outbound_masking] the identification field is zeroed as well, so
    the bytes that may differ are the TTL, the identification field and the
    checksum. *)
Theorem ttl_rewrite_is_local (persona_ptr : option Z) (p : packet) (o : Z) :
  0 <= o -> o <> 22 -> o <> 24 -> o <> 25 ->
  (forall v q, NetworkShield.network_shield_xdp persona_ptr p = Ok (v, q) ->
               o < 14 + iph_ihl p 14 * 4 -> ld8 q o = ld8 p o)
  /\ (o <> 18 -> o <> 19 ->
      ld8 (snd (XdpOutbound.xdp_outbound_masking p)) o = ld8 p o).
Proof.
  intros Ho H22 H24 H25. split.
  - intros v q Hrun Hlt. eapply network_shield_xdp_frame; eauto. lia.
  - intros H18 H19. unfold XdpOutbound.xdp_outbound_masking.
    cbv beta iota zeta delta [sizeof_ethhdr sizeof_iphdr sizeof_tcphdr].
    unfold set_ip_check, set_ip_id, set_ip_ttl.
    repeat case_test; cbn [snd]; by mem.
Qed.

Lemma ttl_rewrite_is_local_witness :
  exists q,
    NetworkShield.network_shield_xdp (Some 1) syn_plain = Ok (XDP_PASS, q)
    /\ ld8 q 18 = ld8 syn_plain 18
    /\ ld8 (snd (XdpOutbound.xdp_outbound_masking syn_plain)) 20
       = ld8 syn_plain 20.
Proof.
  eexists. split; [vm_compute; reflexivity |].
  destruct (ttl_rewrite_is_local (Some 1) syn_plain 18) as [H1 _];
    [vm_compute; discriminate | discriminate ..|].
  destruct (ttl_rewrite_is_local (Some 1) syn_plain 20) as [_ H2];
    [vm_compute; discriminate | discriminate ..|].
  split.
  - eapply H1; [vm_compute; reflexivity | vm_compute; reflexivity].
  - apply H2; discriminate.
Defined.

(** C9, as stated, fails on [xdp_outbound_masking]: the identification
    field (bytes 18 and 19 of the frame) is zeroed along with the TTL. *)
Lemma outbound_masking_zeroes_ip_id :
  iph_id syn_plain 14 <> 0
  /\ iph_id (snd (XdpOutbound.xdp_outbound_masking syn_plain)) 14 = 0
  /\ ld8 (snd (XdpOutbound.xdp_outbound_masking syn_plain)) 18
     <> ld8 syn_plain 18.
Proof. repeat split; vm_compute; discriminate. Qed.


(** ** Profile resolution *)

(** C4 (as amended): in network_shield_original.c a persona identifier
    above PERSONA_MACOS is clamped to PERSONA_LINUX, the table access stays
    in bounds and the packet is processed exactly as with the Linux
    persona; in network_shield_v6.c an identifier outside the four slots of
    [titan_os_profiles] makes the lookup miss, and [titan_tc_egress] passes
    the packet on unchanged. *)
Theorem out_of_range_profile_id (persona : Z) (m : NetworkShieldV6.maps)
    (cfg : NetworkShieldV6.titan_config) (p : packet) :
  2 < persona ->
  NetworkShieldV6.get_config m = Some cfg ->
  3 < NetworkShieldV6.os_profile cfg < 256 ->
  NetworkShield.resolve_persona (Some persona) = NetworkShield.PERSONA_LINUX
  /\ NetworkShield.signature_at (NetworkShield.resolve_persona (Some persona))
     = Ok {| NetworkShield.ttl := 64; NetworkShield.tcp_window := 29200;
             NetworkShield.tcp_mss := 1460;
             NetworkShield.tcp_sack_permitted := 1;
             NetworkShield.tcp_timestamps := 1;
             NetworkShield.tcp_window_scale := 7 |}
  /\ NetworkShield.network_shield_xdp (Some persona) p
     = NetworkShield.network_shield_xdp (Some NetworkShield.PERSONA_LINUX) p
  /\ NetworkShield.network_shield_tc (Some persona) p
     = NetworkShield.network_shield_tc (Some NetworkShield.PERSONA_LINUX) p
  /\ NetworkShieldV6.get_os_profile m (NetworkShieldV6.os_profile cfg) = None
  /\ NetworkShieldV6.titan_tc_egress m p = Ok (TC_ACT_OK, p).
Proof.
  intros Hpersona Hcfg Hid.
  assert (Hres : NetworkShield.resolve_persona (Some persona)
                 = NetworkShield.resolve_persona (Some NetworkShield.PERSONA_LINUX)).
  { unfold NetworkShield.resolve_persona, NetworkShield.PERSONA_MACOS,
      NetworkShield.PERSONA_LINUX.
    case_test; [reflexivity | lia]. }
  assert (Hmiss : NetworkShieldV6.get_os_profile m (NetworkShieldV6.os_profile cfg)
                  = None).
  { unfold NetworkShieldV6.get_os_profile, NetworkShieldV6.bpf_array_lookup, u32, u8.
    rewrite (Z.mod_small _ 256) by lia. rewrite (Z.mod_small _ _) by lia.
    case_test; [lia | reflexivity]. }
  repeat split.
  - by rewrite Hres.
  - by rewrite Hres.
  - unfold NetworkShield.network_shield_xdp. by rewrite Hres.
  - unfold NetworkShield.network_shield_tc. by rewrite Hres.
  - exact Hmiss.
  - unfold NetworkShieldV6.titan_tc_egress. rewrite Hcfg.
    cbv beta iota zeta. rewrite Hmiss.
    repeat (case_test; [reflexivity |]). reflexivity.
Qed.

Lemma out_of_range_profile_id_witness :
  NetworkShield.resolve_persona (Some 99) = 0
  /\ NetworkShieldV6.get_os_profile (titan_maps 99) 99 = None
  /\ NetworkShieldV6.titan_tc_egress (titan_maps 99) syn_opts
     = Ok (TC_ACT_OK, syn_opts).
Proof.
  destruct (out_of_range_profile_id 99 (titan_maps 99) (titan_config_with 99)
              syn_opts)
    as (H1 & _ & _ & _ & H5 & H6).
  - reflexivity.
  - reflexivity.
  - split; reflexivity.
  - exact (conj H1 (conj H5 H6)).
Defined.

(** C4, as stated, fails on network_shield_v6.c: with profile identifier
    99 the resolver returns no profile at all, and the SYN packet leaves
    [titan_tc_egress] untouched although each of the four profiles of the
    table would have edited it. *)
Lemma titan_out_of_range_profile_not_defaulted :
  NetworkShieldV6.get_os_profile (titan_maps 99) 99 = None
  /\ NetworkShieldV6.titan_tc_egress (titan_maps 99) syn_opts
     = Ok (TC_ACT_OK, syn_opts)
  /\ Forall (fun id => NetworkShieldV6.titan_tc_egress (titan_maps id) syn_opts
                       <> Ok (TC_ACT_OK, syn_opts)) [0; 1; 2; 3].
Proof.
  split; [reflexivity |]. split; [reflexivity |].
  repeat constructor; vm_compute; discriminate.
Qed.

(** ** The window edit and the ACK flag *)

(** C2 (failing input): on a SYN-ACK, [tcp_fingerprint_xdp] keeps the
    window, while [tcp_fingerprint_tc] and [titan_tc_egress], which test
    SYN alone, overwrite it with the profile's window. *)
Theorem tc_paths_overwrite_synack_window :
  tcph_syn synack_opts 34 = true /\ tcph_ack synack_opts 34 = true
  /\ tcph_window synack_opts 34 = bpf_htons 29200
  /\ (exists q, TcpFingerprint.tcp_fingerprint_xdp (Some windows_config) synack_opts
                = Ok (XDP_PASS, q)
                /\ tcph_window q 34 = bpf_htons 29200)
  /\ (exists q, TcpFingerprint.tcp_fingerprint_tc (Some windows_config) synack_opts
                = (TC_ACT_OK, q)
                /\ tcph_window q 34 = bpf_htons 65535)
  /\ (exists q, NetworkShieldV6.titan_tc_egress (titan_maps 1) synack_opts
                = Ok (TC_ACT_OK, q)
                /\ tcph_window q 34 = bpf_htons 65535).
Proof.
  repeat split; try (eexists; split; [vm_compute; reflexivity | reflexivity]).
Qed.

(** ** The option walk *)

(** C6 (failing input): the option area of the frame ends, together with
    the frame, in a lone kind byte; both option loops of
    [tcp_fingerprint_xdp] then read the length byte at [data_end].  The
    loop of [titan_tc_egress], which tests [opts + i + 1 >= opts_end]
    first, completes on the same frame. *)
Theorem xdp_option_walk_reads_at_data_end :
  data_end syn_truncated_opt = 58
  /\ TcpFingerprint.tcp_fingerprint_xdp (Some aging_config) syn_truncated_opt
     = Fault 58
  /\ TcpFingerprint.tcp_fingerprint_xdp (Some windows_config) syn_truncated_opt
     = Fault 58
  /\ exists q, NetworkShieldV6.titan_tc_egress (titan_maps 1) syn_truncated_opt
               = Ok (TC_ACT_OK, q).
Proof.
  repeat split. eexists. vm_compute. reflexivity.
Qed.

(** ** The IPv4 checksum of a header with options *)

(** C8 (failing input): for a header with [ihl = 6] both helpers sum the
    first ten words only; the value they store is not the checksum over
    the declared header length. *)
Theorem ip_checksum_ignores_ip_options :
  iph_ihl syn_ipopts 14 = 6
  /\ Reference.be16 syn_ipopts 24 = Reference.ip_checksum syn_ipopts 14
  /\ Reference.be16 (TcpFingerprint.update_ip_checksum syn_ipopts 14) 24
     <> Reference.ip_checksum syn_ipopts 14
  /\ bpf_ntohs (snd (NetworkShield.ip_checksum syn_ipopts 14))
     <> Reference.ip_checksum syn_ipopts 14
  /\ bpf_ntohs (snd (NetworkShield.ip_checksum syn_ipopts 14))
     = Reference.be16 (TcpFingerprint.update_ip_checksum syn_ipopts 14) 24.
Proof. repeat split; vm_compute; discriminate. Qed.


(** ** The full recompute of tcp_fingerprint.c is a projection *)

Section FullRecompute.
Import TcpFingerprint.
Implicit Types (p q : packet) (o iph tcph : Z).

Lemma ld16_ext p q o :
  ld8 p o = ld8 q o -> ld8 p (o + 1) = ld8 q (o + 1) -> ld16 p o = ld16 q o.
Proof. unfold ld16. by intros -> ->. Qed.

Lemma st16_same p o v :
  0 <= o -> o + 1 < data_end p ->
  ld8 p o = v mod 256 -> ld8 p (o + 1) = (v / 256) mod 256 ->
  st16 p o v = p.
Proof.
  intros Ho Hend H0 H1. unfold st16.
  rewrite (st8_same p o v) by (done || lia).
  apply st8_same; [lia | done].
Qed.

Lemma st16_st16 p o v w : 0 <= o -> st16 (st16 p o v) o w = st16 p o w.
Proof.
  intros Ho. unfold st16.
  rewrite (st8_comm (st8 p o v) (o + 1) _ o w) by lia.
  by rewrite !st8_st8.
Qed.

Lemma sum_words_ext n p q ptr csum :
  (forall o, ptr <= o < ptr + 2 * Z.of_nat n -> ld8 p o = ld8 q o) ->
  sum_words n p ptr csum = sum_words n q ptr csum.
Proof.
  revert ptr csum. induction n as [|n IH]; intros ptr csum H; [done |].
  cbn [sum_words]. rewrite (ld16_ext p q ptr) by (apply H; lia).
  apply IH. intros o Ho. apply H. lia.
Qed.

Lemma sum_words_guarded_ext n p q ptr csum :
  data_end p = data_end q ->
  (forall o, ptr <= o < ptr + 2 * Z.of_nat n -> ld8 p o = ld8 q o) ->
  sum_words_guarded n p ptr csum = sum_words_guarded n q ptr csum.
Proof.
  intros Hend. revert ptr csum.
  induction n as [|n IH]; intros ptr csum H; [done |].
  cbn [sum_words_guarded]. rewrite Hend.
  rewrite (ld16_ext p q ptr) by (apply H; lia).
  case_test; [done |]. apply IH. intros o Ho. apply H. lia.
Qed.

Lemma pseudo_header_sum_ext p q iph :
  (forall o, o = iph \/ iph + 2 <= o <= iph + 3 \/ iph + 12 <= o < iph + 20 ->
             ld8 p o = ld8 q o) ->
  pseudo_header_sum p iph = pseudo_header_sum q iph.
Proof.
  intros H. unfold pseudo_header_sum, iph_tot_len, iph_ihl, iph_saddr,
    iph_daddr, ld32, ld16.
  rewrite (H iph), (H (iph + 2)), (H (iph + 2 + 1)), (H (iph + 12)),
    (H (iph + 12 + 1)), (H (iph + 12 + 2)), (H (iph + 12 + 2 + 1)),
    (H (iph + 16)), (H (iph + 16 + 1)), (H (iph + 16 + 2)),
    (H (iph + 16 + 2 + 1)) by lia.
  reflexivity.
Qed.

Lemma update_ip_checksum_fix p q iph :
  0 <= iph -> iph + 20 <= data_end p -> data_end q = data_end p ->
  (forall o, iph <= o < iph + 20 -> ld8 q o = ld8 (update_ip_checksum p iph) o) ->
  update_ip_checksum q iph = q.
Proof.
  intros Hiph Hend Hq H. unfold update_ip_checksum, set_ip_check in *.
  change (Z.to_nat (Z.shiftr sizeof_iphdr 1)) with 10%nat in *.
  rewrite st16_st16 in * by lia.
  assert (Hsum : sum_words 10 (st16 q (iph + 10) 0) iph 0
                 = sum_words 10 (st16 p (iph + 10) 0) iph 0).
  { apply sum_words_ext. intros o Ho.
    destruct (decide (o = iph + 10)) as [-> |];
      [by rewrite !ld8_st16_lo by lia |].
    destruct (decide (o = iph + 11)) as [-> |].
    { replace (iph + 11) with (iph + 10 + 1) by lia.
      by rewrite !ld8_st16_hi by lia. }
    rewrite !ld8_st16_ne by lia. rewrite H by lia. by mem. }
  rewrite Hsum. apply st16_same; try lia.
  - rewrite H by lia. by rewrite ld8_st16_lo by lia.
  - rewrite H by lia. by rewrite ld8_st16_hi by lia.
Qed.

Lemma update_tcp_checksum_fix p q iph tcph :
  0 <= iph -> iph + 20 <= tcph -> tcph + 20 <= data_end p ->
  data_end q = data_end p ->
  (forall o, o = iph \/ iph + 2 <= o <= iph + 3 \/ iph + 12 <= o < iph + 20 ->
             ld8 q o = ld8 p o) ->
  (forall o, tcph <= o < tcph + 20 ->
             ld8 q o = ld8 (update_tcp_checksum p iph tcph) o) ->
  update_tcp_checksum q iph tcph = q.
Proof.
  intros Hiph Htcph Hend Hq Hip H. unfold update_tcp_checksum, set_tcp_check in *.
  rewrite st16_st16 in * by lia.
  rewrite (pseudo_header_sum_ext q p iph) by done.
  assert (Hsum : forall c,
             sum_words_guarded 10 (st16 q (tcph + 16) 0) tcph c
             = sum_words_guarded 10 (st16 p (tcph + 16) 0) tcph c).
  { intros c. apply sum_words_guarded_ext; [by mem |]. intros o Ho.
    destruct (decide (o = tcph + 16)) as [-> |];
      [by rewrite !ld8_st16_lo by lia |].
    destruct (decide (o = tcph + 17)) as [-> |].
    { replace (tcph + 17) with (tcph + 16 + 1) by lia.
      by rewrite !ld8_st16_hi by lia. }
    rewrite !ld8_st16_ne by lia. rewrite H by lia. by mem. }
  rewrite Hsum. apply st16_same; try lia.
  - rewrite H by lia. by rewrite ld8_st16_lo by lia.
  - rewrite H by lia. by rewrite ld8_st16_hi by lia.
Qed.


(** *** The MSS loop *)

Lemma load8_inv p o k : load8 p o = Ok k -> 0 <= o < data_end p /\ k = ld8 p o.
Proof. unfold load8. case_test; [intros [= <-]; lia | discriminate]. Qed.

Lemma load8_ok p o : 0 <= o < data_end p -> load8 p o = Ok (ld8 p o).
Proof. intros H. unfold load8. case_test; [done | lia]. Qed.

Lemma bind_inv {A B} (m : outcome A) (k : A -> outcome B) b :
  (m ≫= k) = Ok b -> exists a, m = Ok a /\ k a = Ok b.
Proof. destruct m as [a|]; [eauto | discriminate]. Qed.

(** The loop leaves the size alone, and also every byte up to the length
    byte of the option it stands on. *)
Lemma mss_walk_frame fuel config len p opts opts_end j p' :
  0 <= opts -> 0 <= j ->
  mss_walk fuel config len p opts opts_end j = Ok p' ->
  data_end p' = data_end p
  /\ forall o, 0 <= o < opts + j + 2 -> ld8 p' o = ld8 p o.
Proof.
  intros Hopts. revert j.
  induction fuel as [|fuel IH]; intros j Hj; cbn [mss_walk];
    [by intros [= <-] |].
  case_test; [by intros [= <-] |].
  intros (kind & Hkind%load8_inv & Hrun)%bind_inv. revert Hrun.
  case_test; [by intros [= <-] |].
  case_test.
  { intros [Hend H]%IH; [| lia]. split; [done |]. intros o Ho. apply H. lia. }
  case_test.
  { repeat case_test; intros [= <-]; (split; [by mem |]); try done.
    intros o Ho. by mem. }
  intros (l & Hl%load8_inv & Hrun)%bind_inv. revert Hrun.
  case_test; [by intros [= <-] |].
  intros [Hend H]%IH; [| lia]. split; [done |]. intros o Ho. apply H. lia.
Qed.

Lemma split_lo a b : 0 <= b < 256 -> (a * 256 + b) mod 256 = b.
Proof.
  intros. rewrite Z.add_comm, Z.mod_add by lia. apply Z.mod_small. lia.
Qed.

Lemma split_hi a b : 0 <= b < 256 -> (a * 256 + b) / 256 = a.
Proof.
  intros. rewrite Z.add_comm, Z.div_add by lia. rewrite Z.div_small; lia.
Qed.

Lemma u16_bytes x :
  0 <= x < 65536 ->
  0 <= x mod 256 < 256 /\ 0 <= x / 256 < 256
  /\ x = (x / 256) * 256 + x mod 256.
Proof.
  intros. pose proof (Z.div_mod x 256).
  repeat split; try lia.
  - apply Z.mod_pos_bound; lia.
  - apply Z.mod_pos_bound; lia.
  - apply Z.div_pos; lia.
  - apply Z.div_lt_upper_bound; lia.
Qed.

Lemma htons_split x :
  0 <= x < 65536 -> bpf_htons x = (x mod 256) * 256 + x / 256.
Proof.
  intros Hx. destruct (u16_bytes x Hx) as (Ha & Hb & _).
  unfold bpf_htons. by rewrite (Z.mod_small (x / 256)) by lia.
Qed.



Lemma mss_stage_frame config p tcph p' :
  0 <= tcph ->
  mss_stage config p tcph = Ok p' ->
  data_end p' = data_end p
  /\ forall o, 0 <= o < tcph + 22 -> ld8 p' o = ld8 p o.
Proof.
  intros Htcph. unfold mss_stage.
  repeat (case_test; [| by intros [= <-]]).
  intros [Hend H]%mss_walk_frame; [| lia ..].
  split; [done |]. intros o Ho. apply H. lia.
Qed.


(** The timestamp loop writes inside the option area only. *)
Lemma ts_walk_frame fuel config len p opts opts_end i p' :
  0 <= opts -> 0 <= i ->
  ts_walk fuel config len p opts opts_end i = Ok p' ->
  data_end p' = data_end p
  /\ forall o, 0 <= o < opts + i + 2 -> ld8 p' o = ld8 p o.
Proof.
  intros Hopts. revert i.
  induction fuel as [|fuel IH]; intros i Hi; cbn [ts_walk];
    [by intros [= <-] |].
  case_test; [by intros [= <-] |].
  intros (kind & Hkind%load8_inv & Hrun)%bind_inv. revert Hrun.
  case_test; [by intros [= <-] |].
  case_test.
  { intros [Hend H]%IH; [| lia]. split; [done |]. intros o Ho. apply H. lia. }
  case_test.
  { repeat case_test; intros [= <-]; (split; [by mem |]); try done.
    intros o Ho. unfold st32. by mem. }
  intros (l & Hl%load8_inv & Hrun)%bind_inv. revert Hrun.
  case_test; [by intros [= <-] |].
  intros [Hend H]%IH; [| lia]. split; [done |]. intros o Ho. apply H. lia.
Qed.

Lemma timestamp_stage_frame config p tcph p' :
  0 <= tcph ->
  timestamp_stage config p tcph = Ok p' ->
  data_end p' = data_end p
  /\ forall o, 0 <= o < tcph + 22 -> ld8 p' o = ld8 p o.
Proof.
  intros Htcph. unfold timestamp_stage.
  repeat (case_test; [| by intros [= <-]]).
  intros [Hend H]%ts_walk_frame; [| lia ..].
  split; [done |]. intros o Ho. apply H. lia.
Qed.

Lemma ttl_window_frame ttl window_size p iph tcph :
  0 <= iph -> iph <= tcph ->
  data_end (ttl_window ttl window_size p iph tcph) = data_end p
  /\ (forall o, 0 <= o -> o <> iph + 8 -> o <> tcph + 14 -> o <> tcph + 15 ->
                ld8 (ttl_window ttl window_size p iph tcph) o = ld8 p o).
Proof.
  intros. unfold ttl_window, set_ip_ttl, set_tcp_window.
  split; [case_test; by mem |]. intros o ????. case_test; by mem.
Qed.



End FullRecompute.


(** ** One's-complement arithmetic *)

Section OnesComplement.
Implicit Types (x y k : Z).

Lemma land_65535 x : Z.land x 65535 = x mod 65536.
Proof. change 65535 with (Z.ones 16). by rewrite Z.land_ones by lia. Qed.

Lemma shiftr_16 x : Z.shiftr x 16 = x / 65536.
Proof. by rewrite Z.shiftr_div_pow2 by lia. Qed.

Lemma not16_compl x : 0 <= x < 65536 -> not16 x = 65535 - x.
Proof.
  intros Hx. unfold not16, Z.lnot.
  replace (Z.pred (- x)) with ((65535 - x) + (-1) * 65536) by lia.
  rewrite Z.mod_add by lia. apply Z.mod_small. lia.
Qed.

Lemma ones_reduce_range x : 0 <= x -> 0 <= ones_reduce x < 65536.
Proof.
  intros Hx. unfold ones_reduce. case_test; [lia |].
  pose proof (Z.mod_pos_bound (x - 1) 65535 ltac:(lia)). lia.
Qed.

Lemma ones_reduce_pos x : 0 < x -> 0 < ones_reduce x.
Proof.
  intros Hx. unfold ones_reduce. case_test; [lia |].
  pose proof (Z.mod_pos_bound (x - 1) 65535 ltac:(lia)). lia.
Qed.

Lemma ones_reduce_small x : 0 <= x < 65536 -> ones_reduce x = x.
Proof.
  intros Hx. unfold ones_reduce. case_test; [lia |].
  rewrite Z.mod_small by lia. lia.
Qed.

Lemma ones_reduce_shift x k :
  0 < x -> 0 < x + 65535 * k -> ones_reduce (x + 65535 * k) = ones_reduce x.
Proof.
  intros Hx Hy. unfold ones_reduce. repeat case_test; try lia.
  replace (x + 65535 * k - 1) with (x - 1 + k * 65535) by lia.
  by rewrite Z.mod_add by lia.
Qed.

(** [ones_reduce x] differs from [x] by a multiple of 65535. *)
Lemma ones_reduce_mod x : 0 <= x -> exists k, x = ones_reduce x + 65535 * k.
Proof.
  intros Hx. unfold ones_reduce. case_test; [exists 0; lia |].
  exists ((x - 1) / 65535). pose proof (Z.div_mod (x - 1) 65535). lia.
Qed.

(** One round of folding. *)
Lemma fold_round x :
  65536 <= x ->
  let y := Z.land x 65535 + Z.shiftr x 16 in
  0 < y < x /\ ones_reduce y = ones_reduce x
  /\ (x < 4294967296 -> y < 131071).
Proof.
  intros Hx. rewrite land_65535, shiftr_16. cbv zeta.
  pose proof (Z.div_mod x 65536 ltac:(lia)) as Hdm.
  pose proof (Z.mod_pos_bound x 65536 ltac:(lia)) as Hm.
  assert (Hq : 1 <= x / 65536) by (apply Z.div_le_lower_bound; lia).
  split; [lia |]. split.
  - rewrite <- (ones_reduce_shift (x mod 65536 + x / 65536) (x / 65536)) by lia.
    f_equal. lia.
  - intros Hlt. assert (x / 65536 < 65536) by (apply Z.div_lt_upper_bound; lia).
    lia.
Qed.

Lemma fold_carries_S fuel x :
  NetworkShield.fold_carries (S fuel) x
  = if negb (Z.shiftr x 16 =? 0)
    then NetworkShield.fold_carries fuel (Z.land x 65535 + Z.shiftr x 16)
    else x.
Proof. reflexivity. Qed.

Lemma fold_carries_small fuel x :
  0 <= x < 65536 -> NetworkShield.fold_carries fuel x = x.
Proof.
  intros Hx. destruct fuel as [|fuel]; [done |].
  rewrite fold_carries_S, shiftr_16, Z.div_small by lia. done.
Qed.

Lemma shiftr_16_large x : 65536 <= x -> negb (Z.shiftr x 16 =? 0) = true.
Proof.
  intros Hx. rewrite shiftr_16.
  assert (1 <= x / 65536) by (apply Z.div_le_lower_bound; lia). lia.
Qed.

(** The [while] loop has folded a [__u32] after two rounds: more fuel
    changes nothing. *)
Lemma fold_carries_done fuel x :
  (2 <= fuel)%nat -> 0 <= x < 4294967296 ->
  NetworkShield.fold_carries fuel x = ones_reduce x.
Proof.
  intros Hfuel Hx.
  destruct (Z_lt_le_dec x 65536) as [Hlt | Hge].
  { rewrite fold_carries_small, ones_reduce_small by lia. done. }
  destruct fuel as [|[|fuel]]; [lia | lia |].
  rewrite fold_carries_S, shiftr_16_large by done.
  destruct (fold_round x Hge) as (Hy & <- & Hb).
  set (y := Z.land x 65535 + Z.shiftr x 16) in *. specialize (Hb ltac:(lia)).
  destruct (Z_lt_le_dec y 65536) as [Hlty | Hgey].
  { rewrite fold_carries_small, ones_reduce_small by lia. done. }
  rewrite fold_carries_S, shiftr_16_large by done.
  destruct (fold_round y Hgey) as (Hz & <- & _).
  set (z := Z.land y 65535 + Z.shiftr y 16) in *.
  assert (Hz' : z < 65536).
  { unfold z. rewrite land_65535, shiftr_16.
    assert (y / 65536 = 1).
    { assert (1 <= y / 65536) by (apply Z.div_le_lower_bound; lia).
      assert (y / 65536 < 2) by (apply Z.div_lt_upper_bound; lia). lia. }
    pose proof (Z.div_mod y 65536 ltac:(lia)). lia. }
  rewrite fold_carries_small, ones_reduce_small by lia. done.
Qed.

Lemma fold_carries_reduce x :
  0 <= x < 4294967296 ->
  NetworkShield.fold_carries NetworkShield.fold_fuel x = ones_reduce x.
Proof. apply fold_carries_done. unfold NetworkShield.fold_fuel. lia. Qed.

Lemma fold_once_reduce x :
  0 <= x ->
  0 <= TcpFingerprint.fold_once x
  /\ ones_reduce (TcpFingerprint.fold_once x) = ones_reduce x
  /\ (x < 4294967296 -> TcpFingerprint.fold_once x < 131071)
  /\ (x < 131071 -> TcpFingerprint.fold_once x < 65536).
Proof.
  intros Hx. unfold TcpFingerprint.fold_once. rewrite shiftr_16.
  destruct (Z_lt_le_dec x 65536) as [Hlt | Hge].
  - rewrite Z.div_small by lia. cbn [Z.eqb negb]. lia.
  - assert (1 <= x / 65536) by (apply Z.div_le_lower_bound; lia).
    case_test; [| lia].
    rewrite <- shiftr_16.
    destruct (fold_round x Hge) as (Hy & Hred & Hb).
    split; [lia |]. split; [exact Hred |]. split; [exact Hb |].
    intros Hsmall. rewrite land_65535, shiftr_16.
    assert (x / 65536 = 1).
    { assert (x / 65536 < 2) by (apply Z.div_lt_upper_bound; lia). lia. }
    pose proof (Z.div_mod x 65536 ltac:(lia)). lia.
Qed.

Lemma csum_fold_helper_reduce x :
  0 <= x < 4294967296 ->
  TcpFingerprint.csum_fold_helper x = 65535 - ones_reduce x.
Proof.
  intros Hx. unfold TcpFingerprint.csum_fold_helper.
  change (Nat.iter 4 TcpFingerprint.fold_once x)
    with (TcpFingerprint.fold_once
            (TcpFingerprint.fold_once
               (TcpFingerprint.fold_once (TcpFingerprint.fold_once x)))).
  destruct (fold_once_reduce x) as (H1 & R1 & B1 & _); [lia |].
  set (x1 := TcpFingerprint.fold_once x) in *.
  destruct (fold_once_reduce x1) as (H2 & R2 & _ & B2); [lia |].
  set (x2 := TcpFingerprint.fold_once x1) in *.
  destruct (fold_once_reduce x2) as (H3 & R3 & _ & B3); [lia |].
  set (x3 := TcpFingerprint.fold_once x2) in *.
  destruct (fold_once_reduce x3) as (H4 & R4 & _ & B4); [lia |].
  set (x4 := TcpFingerprint.fold_once x3) in *.
  assert (x4 < 65536) by lia.
  rewrite not16_compl by lia. f_equal.
  rewrite <- (ones_reduce_small x4) by lia. congruence.
Qed.

(** *** Byte swapping *)

Lemma htons_range x : 0 <= bpf_htons x < 65536.
Proof.
  unfold bpf_htons.
  pose proof (Z.mod_pos_bound x 256 ltac:(lia)).
  pose proof (Z.mod_pos_bound (x / 256) 256 ltac:(lia)). lia.
Qed.

Lemma htons_times x :
  0 <= x < 65536 -> bpf_htons x = 256 * x - 65535 * (x / 256).
Proof.
  intros Hx. destruct (u16_bytes x Hx) as (Ha & Hb & Hsplit).
  rewrite (htons_split x) by lia. lia.
Qed.

Lemma htons_compl x :
  0 <= x < 65536 -> bpf_htons (65535 - x) = 65535 - bpf_htons x.
Proof.
  intros Hx. destruct (u16_bytes x Hx) as (Ha & Hb & Hsplit).
  rewrite (htons_split x), (htons_split (65535 - x)) by lia.
  replace (65535 - x) with ((255 - x / 256) * 256 + (255 - x mod 256)) by lia.
  rewrite split_lo, split_hi by lia. lia.
Qed.

Lemma htons_pos x : 0 < x < 65536 -> 0 < bpf_htons x.
Proof.
  intros Hx. destruct (u16_bytes x ltac:(lia)) as (Ha & Hb & Hsplit).
  rewrite (htons_split x) by lia. lia.
Qed.

Lemma htons_htons x : 0 <= x < 65536 -> bpf_htons (bpf_htons x) = x.
Proof.
  intros Hx. destruct (u16_bytes x Hx) as (Ha & Hb & Hsplit).
  rewrite (htons_split x) by lia. unfold bpf_htons.
  rewrite split_lo, split_hi by lia. rewrite (Z.mod_small (x mod 256)) by lia.
  lia.
Qed.

Lemma htons_reduce x :
  0 <= x -> bpf_htons (ones_reduce x) = ones_reduce (256 * x).
Proof.
  intros Hx. destruct (decide (x = 0)) as [-> | Hnz]; [reflexivity |].
  pose proof (ones_reduce_range x Hx) as Hr.
  pose proof (ones_reduce_pos x ltac:(lia)) as Hp.
  destruct (ones_reduce_mod x Hx) as [k Hk].
  set (s := ones_reduce x) in *.
  pose proof (htons_range s) as Ht. pose proof (htons_pos s ltac:(lia)) as Ht'.
  pose proof (htons_times s ltac:(lia)) as Htimes.
  rewrite <- (ones_reduce_small (bpf_htons s)) by lia.
  rewrite <- (ones_reduce_shift (bpf_htons s) (256 * k + s / 256)) by lia.
  f_equal. lia.
Qed.

(** *** Sixteen-bit fields in memory *)

Lemma u16_join v : v mod 256 + 256 * ((v / 256) mod 256) = v mod 65536.
Proof.
  pose proof (Z.div_mod v 256 ltac:(lia)).
  pose proof (Z.div_mod (v / 256) 256 ltac:(lia)).
  pose proof (Z.mod_pos_bound v 256 ltac:(lia)).
  pose proof (Z.mod_pos_bound (v / 256) 256 ltac:(lia)).
  apply (Z.mod_unique _ _ (v / 256 / 256)); lia.
Qed.

Lemma ld16_st16_eq (p : packet) o v :
  0 <= o -> o + 1 < data_end p -> ld16 (st16 p o v) o = v mod 65536.
Proof.
  intros. unfold ld16. rewrite ld8_st16_lo, ld8_st16_hi by lia. apply u16_join.
Qed.

Lemma bytes_ok_ld8 (p : packet) o : bytes_ok p = true -> 0 <= ld8 p o < 256.
Proof.
  unfold bytes_ok, ld8. intros H.
  destruct (p !! Z.to_nat o) as [b|] eqn:Hb.
  - rewrite (list_lookup_total_correct _ _ _ Hb).
    rewrite forallb_forall in H. specialize (H b).
    rewrite <- list_elem_of_In in H.
    specialize (H (list_elem_of_lookup_2 _ _ _ Hb)). lia.
  - rewrite list_lookup_total_alt, Hb. cbn. lia.
Qed.

Lemma bytes_ok_ld16 (p : packet) o : bytes_ok p = true -> 0 <= ld16 p o < 65536.
Proof.
  intros H. unfold ld16.
  pose proof (bytes_ok_ld8 p o H). pose proof (bytes_ok_ld8 p (o + 1) H). lia.
Qed.

Lemma bytes_ok_st8 (p : packet) o v : bytes_ok p = true -> bytes_ok (st8 p o v) = true.
Proof.
  unfold bytes_ok, st8. rewrite !forallb_forall. intros H b Hb.
  rewrite <- list_elem_of_In in Hb.
  apply list_elem_of_lookup in Hb as [i Hi].
  destruct (decide (Z.to_nat o = i)) as [<- | Hne].
  - destruct (decide (Z.to_nat o < length p)%nat) as [Hlt | Hge].
    + rewrite list_lookup_insert_eq in Hi by done. injection Hi as <-.
      pose proof (Z.mod_pos_bound v 256 ltac:(lia)). lia.
    + rewrite list_insert_ge in Hi by lia.
      apply H. rewrite <- list_elem_of_In. eapply list_elem_of_lookup_2; eauto.
  - rewrite list_lookup_insert_ne in Hi by done.
    apply H. rewrite <- list_elem_of_In. eapply list_elem_of_lookup_2; eauto.
Qed.

Lemma bytes_ok_st16 (p : packet) o v : bytes_ok p = true -> bytes_ok (st16 p o v) = true.
Proof. intros. unfold st16. by do 2 apply bytes_ok_st8. Qed.
End OnesComplement.


(** ** Incremental update against full recompute *)

Section Incremental.
Implicit Types (p q : packet) (o iph tcph : Z).

Lemma u32_small x : 0 <= x < 4294967296 -> u32 x = x.
Proof. intros. unfold u32. by apply Z.mod_small. Qed.

Lemma u32_range x : 0 <= u32 x < 4294967296.
Proof. unfold u32. apply Z.mod_pos_bound. lia. Qed.

Lemma word_sum_range n p ptr :
  bytes_ok p = true -> 0 <= word_sum n p ptr <= 65535 * Z.of_nat n.
Proof.
  intros Hp. revert ptr. induction n as [|n IH]; intros ptr; cbn [word_sum]; [lia |].
  pose proof (bytes_ok_ld16 p ptr Hp). specialize (IH (ptr + 2)). lia.
Qed.

Lemma sum_words_plain n p ptr csum :
  bytes_ok p = true ->
  0 <= csum -> csum + 65535 * Z.of_nat n < 4294967296 ->
  TcpFingerprint.sum_words n p ptr csum = csum + word_sum n p ptr.
Proof.
  intros Hp. revert ptr csum.
  induction n as [|n IH]; intros ptr csum H0 Hb;
    cbn [TcpFingerprint.sum_words word_sum]; [lia |].
  pose proof (bytes_ok_ld16 p ptr Hp).
  rewrite u32_small by lia. rewrite IH by lia. lia.
Qed.

Lemma sum_words_range n p ptr csum :
  0 <= csum < 4294967296 ->
  0 <= TcpFingerprint.sum_words n p ptr csum < 4294967296.
Proof.
  revert ptr csum. induction n as [|n IH]; intros ptr csum Hc;
    cbn [TcpFingerprint.sum_words]; [done |].
  apply IH. apply u32_range.
Qed.

Lemma sum_words_guarded_in_bounds n p ptr csum :
  ptr + 2 * Z.of_nat n <= data_end p ->
  TcpFingerprint.sum_words_guarded n p ptr csum
  = TcpFingerprint.sum_words n p ptr csum.
Proof.
  revert ptr csum. induction n as [|n IH]; intros ptr csum Hb;
    cbn [TcpFingerprint.sum_words_guarded TcpFingerprint.sum_words]; [done |].
  case_test; [lia |]. apply IH. lia.
Qed.

Lemma sum_header_words n p iph len i sum :
  0 <= i -> (i + Z.of_nat n) * 2 <= len ->
  NetworkShield.sum_header n p iph len i sum
  = TcpFingerprint.sum_words n p (iph + 2 * i) sum.
Proof.
  revert i sum. induction n as [|n IH]; intros i sum Hi Hlen;
    cbn [NetworkShield.sum_header TcpFingerprint.sum_words]; [done |].
  case_test; [| lia]. rewrite IH by lia. f_equal. lia.
Qed.

Lemma pseudo_header_sum_range p iph :
  1536 <= TcpFingerprint.pseudo_header_sum p iph <= 6 * 65535.
Proof.
  unfold TcpFingerprint.pseudo_header_sum. cbv zeta.
  rewrite !land_65535.
  set (a := _ mod 65536). set (b := _ mod 65536).
  set (c := _ mod 65536). set (d := _ mod 65536).
  assert (0 <= a < 65536) by (apply Z.mod_pos_bound; lia).
  assert (0 <= b < 65536) by (apply Z.mod_pos_bound; lia).
  assert (0 <= c < 65536) by (apply Z.mod_pos_bound; lia).
  assert (0 <= d < 65536) by (apply Z.mod_pos_bound; lia).
  change (bpf_htons IPPROTO_TCP) with 1536.
  match goal with |- context [bpf_htons ?x] => pose proof (htons_range x); set (e := bpf_htons x) in * end.
  repeat match goal with
         | |- context [u32 ?x] =>
             lazymatch x with
             | context [u32 _] => fail
             | _ => rewrite (u32_small x) by lia
             end
         end.
  lia.
Qed.

(** With a declared header length of at least 20 bytes, [ip_checksum] of
    network_shield_original.c stores what [update_ip_checksum] of
    tcp_fingerprint.c stores. *)
Lemma ip_checksum_full p iph :
  0 <= iph -> iph + 20 <= data_end p -> 5 <= iph_ihl p iph ->
  let '(p0, check) := NetworkShield.ip_checksum p iph in
  set_ip_check p0 iph check = TcpFingerprint.update_ip_checksum p iph.
Proof.
  intros Hiph Hend Hihl.
  unfold NetworkShield.ip_checksum, TcpFingerprint.update_ip_checksum.
  change (Z.to_nat (Z.shiftr sizeof_iphdr 1)) with 10%nat.
  rewrite sum_header_words by lia.
  replace (iph + 2 * 0) with iph by lia.
  set (S := TcpFingerprint.sum_words 10 (set_ip_check p iph 0) iph 0).
  pose proof (sum_words_range 10 (set_ip_check p iph 0) iph 0 ltac:(lia)) as HS.
  fold S in HS.
  rewrite fold_carries_reduce, csum_fold_helper_reduce by done.
  rewrite not16_compl; [done |]. apply ones_reduce_range. lia.
Qed.




Lemma word_sum_ext n p q ptr :
  (forall o, ptr <= o < ptr + 2 * Z.of_nat n -> ld8 p o = ld8 q o) ->
  word_sum n p ptr = word_sum n q ptr.
Proof.
  revert ptr. induction n as [|n IH]; intros ptr H; [done |].
  cbn [word_sum]. rewrite (ld16_ext p q ptr) by (apply H; lia).
  f_equal. apply IH. intros o Ho. apply H. lia.
Qed.

Lemma word_sum_app n m p ptr :
  word_sum (n + m) p ptr
  = word_sum n p ptr + word_sum m p (ptr + 2 * Z.of_nat n).
Proof.
  revert ptr. induction n as [|n IH]; intros ptr.
  - change (0 + m)%nat with m. cbn [word_sum].
    replace (ptr + 2 * Z.of_nat 0) with ptr by lia. lia.
  - change (S n + m)%nat with (S (n + m)). cbn [word_sum]. rewrite IH.
    replace (ptr + 2 + 2 * Z.of_nat n) with (ptr + 2 * Z.of_nat (S n)) by lia.
    lia.
Qed.

(** The ten words of a TCP header whose checksum field is zeroed. *)
Lemma word_sum_tcp_header x tcph :
  0 <= tcph -> tcph + 20 <= data_end x ->
  word_sum 10 (set_tcp_check x tcph 0) tcph
  = word_sum 7 x tcph + ld16 x (tcph + 14) + ld16 x (tcph + 18).
Proof.
  intros Ht Hend. unfold set_tcp_check.
  change 10%nat with (7 + 3)%nat. rewrite word_sum_app.
  rewrite (word_sum_ext 7 (st16 x (tcph + 16) 0) x).
  2:{ intros o Ho. by mem. }
  rewrite <- Z.add_assoc. f_equal.
  replace (tcph + 2 * Z.of_nat 7) with (tcph + 14) by lia.
  cbn [word_sum].
  replace (tcph + 14 + 2) with (tcph + 16) by lia.
  replace (tcph + 16 + 2) with (tcph + 18) by lia.
  rewrite ld16_st16_eq by lia. mem. change (0 mod 65536) with 0. lia.
Qed.

(** What [update_tcp_checksum] of tcp_fingerprint.c stores, in closed
    form. *)
Lemma update_tcp_checksum_value p iph tcph :
  bytes_ok p = true -> 0 <= iph -> 0 <= tcph -> tcph + 20 <= data_end p ->
  TcpFingerprint.update_tcp_checksum p iph tcph
  = set_tcp_check p tcph
      (65535 - ones_reduce (TcpFingerprint.pseudo_header_sum p iph
                            + word_sum 7 p tcph + ld16 p (tcph + 14)
                            + ld16 p (tcph + 18))).
Proof.
  intros Hp Hiph Htcph Hend. unfold TcpFingerprint.update_tcp_checksum.
  pose proof (pseudo_header_sum_range p iph) as Hps.
  assert (Hp0 : bytes_ok (set_tcp_check p tcph 0) = true)
    by (by apply bytes_ok_st16).
  pose proof (word_sum_range 10 _ tcph Hp0) as Hws.
  rewrite sum_words_guarded_in_bounds by (unfold set_tcp_check; mem; lia).
  rewrite sum_words_plain by (done || lia).
  rewrite csum_fold_helper_reduce by lia.
  rewrite word_sum_tcp_header in * by lia.
  unfold set_tcp_check. rewrite st16_st16 by lia.
  do 3 f_equal. lia.
Qed.
End Incremental.







(** ** The MSS block *)

Section MssBlock.
Import TcpFingerprint.
Implicit Types (p q : packet) (o opts len i j : Z).

Lemma be16_ntohs p o :
  bytes_ok p = true -> Reference.be16 p o = bpf_ntohs (ld16 p o).
Proof.
  intros Hp. pose proof (bytes_ok_ld8 p o Hp). pose proof (bytes_ok_ld8 p (o + 1) Hp).
  unfold Reference.be16, bpf_ntohs, bpf_htons, ld16.
  replace (ld8 p o + 256 * ld8 p (o + 1)) with (ld8 p (o + 1) * 256 + ld8 p o) by lia.
  rewrite split_lo, split_hi by lia. rewrite Z.mod_small by lia. lia.
Qed.

Lemma be16_st16_htons p o x :
  0 <= o -> o + 1 < data_end p -> 0 <= x < 65536 ->
  Reference.be16 (st16 p o (bpf_htons x)) o = x.
Proof.
  intros Ho Hend Hx. destruct (u16_bytes x Hx) as (Ha & Hb & Hsplit).
  unfold Reference.be16. rewrite ld8_st16_lo, ld8_st16_hi by lia.
  rewrite (htons_split x) by lia. rewrite split_lo, split_hi by lia.
  rewrite (Z.mod_small (x mod 256)) by lia. lia.
Qed.

(** The MSS loop against the option records: it edits the first MSS option,
    when that option lies inside the option area and advertises less than
    the configured value, and nothing else. *)
Lemma mss_walk_spec fuel config len p opts i q :
  0 <= opts -> 0 <= i -> 20 < len <= 60 -> opts + (len - 20) <= data_end p ->
  mss_walk fuel config len p opts (opts + (len - 20)) i = Ok q ->
  match find_option 2 fuel p opts (len - 20) i with
  | Some j =>
      i <= j
      /\ q = if (j + 3 <? len - 20)
                && (bpf_ntohs (ld16 p (opts + j + 2)) <? mss config)
             then st16 p (opts + j + 2) (bpf_htons (mss config))
             else p
  | None => q = p
  end.
Proof.
  intros Hopts Hi Hlen Hend. revert i Hi.
  induction fuel as [|fuel IH]; intros i Hi; cbn [mss_walk find_option];
    [by intros [= <-] |].
  destruct (negb ((i <? 40) && (opts + i <? opts + (len - 20)))) eqn:Hloop.
  { replace (i <? len - 20) with false by lia. by intros [= <-]. }
  replace (i <? len - 20) with true by lia.
  rewrite (load8_ok p (opts + i)) by lia. cbn [mbind outcome_bind].
  case_test; [by intros [= <-] |].
  case_test.
  { intros Hrun%IH; [| lia].
    destruct (find_option _ _ _ _ _ _) as [j'|]; [| done].
    destruct Hrun as [Hj' ->]. split; [lia | done]. }
  destruct (ld8 p (opts + i) =? 2) eqn:Hkind; cbn [andb].
  - (* an MSS option *)
    destruct (i + 3 <? len - 20) eqn:Hroom; cbn [andb].
    + replace (opts + i + 2 + 2 <=? data_end p) with true by lia.
      case_test; intros [= <-]; (split; [lia | done]).
    + intros (l & [Hl ->]%load8_inv & Hrun)%bind_inv. revert Hrun.
      case_test; [intros [= <-]; split; [lia | done] |].
      intros Hrun%IH; [| lia]. split; [lia |].
      destruct (find_option _ _ _ _ _ _) as [j'|]; [| done].
      destruct Hrun as [Hj' ->]. by replace (j' + 3 <? len - 20) with false by lia.
  - intros (l & [Hl ->]%load8_inv & Hrun)%bind_inv. revert Hrun.
    case_test; [by intros [= <-] |].
    replace (i + (ld8 p (opts + i + 1) - 1) + 1) with (i + ld8 p (opts + i + 1))
      by lia.
    intros Hrun%IH; [| lia].
    destruct (find_option _ _ _ _ _ _) as [j'|]; [| done].
    destruct Hrun as [Hj' ->]. split; [lia | done].
Qed.

Lemma find_option_bound want fuel p opts len i j :
  find_option want fuel p opts len i = Some j -> i <= j < len.
Proof.
  revert i. induction fuel as [|fuel IH]; intros i; cbn [find_option];
    [discriminate |].
  destruct (i <? len) eqn:Hin; [| discriminate].
  case_test; [discriminate |].
  case_test; [intros H%IH; lia |].
  case_test; [intros [= <-]; lia |].
  case_test; [discriminate |].
  intros H%IH; lia.
Qed.

Lemma hdr_len_range p tcph :
  u8 (tcph_doff p tcph * 4) = tcph_doff p tcph * 4
  /\ 0 <= tcph_doff p tcph * 4 <= 60.
Proof.
  pose proof (doff_range p tcph). split; [| lia].
  unfold u8. apply Z.mod_small. lia.
Qed.

(** The MSS block of [tcp_fingerprint_xdp] on a packet with an MSS
    option. *)
Lemma mss_option_unfold p tcph :
  mss_option p tcph
  = find_option 2 walk_fuel p (tcph + 20) (option_area_len p tcph) 0.
Proof. reflexivity. Qed.

Lemma mss_option_bound p tcph j :
  mss_option p tcph = Some j -> 0 <= j < option_area_len p tcph.
Proof.
  rewrite mss_option_unfold.
  apply (find_option_bound 2 walk_fuel p (tcph + 20) (option_area_len p tcph) 0 j).
Qed.

Lemma mss_stage_spec config p tcph q j :
  0 <= tcph -> bytes_ok p = true -> 0 <= mss config < 65536 ->
  tcph + 20 + option_area_len p tcph <= data_end p ->
  mss_stage config p tcph = Ok q ->
  mss_option p tcph = Some j -> j + 4 <= option_area_len p tcph ->
  q = if tcph_syn p tcph && (mss_value p tcph j <? mss config)
      then st16 p (tcph + 20 + j + 2) (bpf_htons (mss config))
      else p.
Proof.
  intros Htcph Hp Hmss Hend Hrun Hfind Hroom.
  rewrite mss_option_unfold in Hfind.
  pose proof (find_option_bound _ _ _ _ _ _ _ Hfind) as Hj.
  destruct (hdr_len_range p tcph) as [Hu8 Hlen].
  unfold option_area_len in *. rewrite Hu8 in *.
  unfold mss_value. rewrite be16_ntohs by done.
  revert Hrun. unfold mss_stage. rewrite Hu8.
  destruct (tcph_syn p tcph); cbn [andb]; [| by intros [= <-]].
  case_test.
  2:{ intros [= <-].
      assert (Hv : 0 <= bpf_ntohs (ld16 p (tcph + 20 + j + 2))) by apply htons_range.
      by replace (_ <? mss config) with false by lia. }
  case_test; [| lia]. case_test; [| lia].
  replace (tcph + tcph_doff p tcph * 4)
    with (tcph + 20 + (tcph_doff p tcph * 4 - 20)) by lia.
  intros Hrun%mss_walk_spec; try lia.
  rewrite Hfind in Hrun. destruct Hrun as [_ ->].
  by replace (j + 3 <? tcph_doff p tcph * 4 - 20) with true by lia.
Qed.
End MssBlock.

(** *** The kernel helper touches the checksum field only *)

Lemma data_end_bpf_l4_csum_replace (p : packet) offset from to flags :
  data_end (Kernel.bpf_l4_csum_replace p offset from to flags) = data_end p.
Proof. unfold Kernel.bpf_l4_csum_replace. repeat case_test; by mem. Qed.

Lemma ld8_bpf_l4_csum_replace (p : packet) offset from to flags o :
  0 <= o -> o <> offset -> o <> offset + 1 ->
  ld8 (Kernel.bpf_l4_csum_replace p offset from to flags) o = ld8 p o.
Proof.
  intros. unfold Kernel.bpf_l4_csum_replace, Kernel.offset_ok.
  repeat case_test; try done; by mem.
Qed.

Lemma land_shiftl_8 a b : 0 <= b < 256 -> Z.land (Z.shiftl a 8) b = 0.
Proof.
  intros Hb. apply Z.bits_inj'. intros n Hn.
  rewrite Z.land_spec, Z.bits_0.
  destruct (Z_lt_le_dec n 8) as [Hlt | Hge].
  - by rewrite Z.shiftl_spec_low by lia.
  - destruct (decide (b = 0)) as [-> | Hnz].
    + by rewrite Z.bits_0, andb_false_r.
    + rewrite (Z.bits_above_log2 b n), andb_false_r; [done | lia |].
      apply Z.lt_le_trans with 8; [| lia].
      apply Z.log2_lt_pow2; lia.
Qed.

Lemma lor_shiftl_8 a b :
  0 <= b < 256 -> Z.lor (Z.shiftl a 8) b = a * 256 + b.
Proof.
  intros Hb. pose proof (land_shiftl_8 a b Hb) as Hland.
  rewrite <- Z.lxor_lor by done. rewrite <- Z.add_nocarry_lxor by done.
  by rewrite Z.shiftl_mul_pow2 by lia.
Qed.


(** The MSS branch of the option loop of [titan_tc_egress], standing on a
    4-byte MSS option: the option leaves with the profile's MSS. *)
Lemma titan_rewrite_mss_spec os_prof len (p : packet) i r :
  bytes_ok p = true -> 0 <= NetworkShieldV6.mss os_prof < 65536 ->
  let tcp := 14 + iph_ihl p 14 * 4 in
  0 <= i -> tcp + 20 + i + 3 < tcp + len -> tcp + len <= data_end p ->
  NetworkShieldV6.rewrite_mss os_prof len p 14 (tcp + 20) (tcp + len) i 2 4
  = Ok r ->
  exists p',
    r = NetworkShieldV6.Continue (p', tcp + 20, tcp + len)
    /\ data_end p' = data_end p
    /\ Reference.be16 p' (tcp + 20 + i + 2) = NetworkShieldV6.mss os_prof.
Proof.
  intros Hp Hmss tcp Hi Hroom Hend.
  pose proof (ihl_range p 14) as Hihl.
  unfold NetworkShieldV6.rewrite_mss.
  change (2 =? NetworkShieldV6.TCPOPT_MSS) with true.
  change (4 =? 4) with true. cbn [andb].
  replace (tcp + 20 + i + 3 <? tcp + len) with true by lia.
  rewrite (load8_ok p (tcp + 20 + i + 2)) by lia. cbn [mbind outcome_bind].
  rewrite (load8_ok p (tcp + 20 + i + 3)) by lia. cbn [mbind outcome_bind].
  pose proof (bytes_ok_ld8 p (tcp + 20 + i + 2) Hp) as Hb2.
  pose proof (bytes_ok_ld8 p (tcp + 20 + i + 3) Hp) as Hb3.
  rewrite lor_shiftl_8 by lia.
  assert (Hold : u16 (ld8 p (tcp + 20 + i + 2) * 256 + ld8 p (tcp + 20 + i + 3))
                 = Reference.be16 p (tcp + 20 + i + 2)).
  { unfold u16, Reference.be16. rewrite Z.mod_small by lia.
    replace (tcp + 20 + i + 2 + 1) with (tcp + 20 + i + 3) by lia. lia. }
  rewrite Hold.
  case_test.
  2:{ intros [= <-]. eexists. split; [reflexivity |]. split; [done | lia]. }
  cbv beta iota zeta delta [sizeof_ethhdr sizeof_iphdr sizeof_tcphdr ETH_HLEN].
  change (0 + 14) with 14.
  set (p1 := Kernel.bpf_l4_csum_replace _ _ _ _ _).
  assert (Hend1 : data_end p1 = data_end p)
    by apply data_end_bpf_l4_csum_replace.
  assert (Hihl1 : iph_ihl p1 14 = iph_ihl p 14).
  { unfold iph_ihl, p1. by rewrite ld8_bpf_l4_csum_replace by lia. }
  rewrite Hend1, Hihl1. fold tcp.
  repeat (case_test; [lia |]).
  intros [= <-]. eexists. split; [reflexivity |]. split; [by mem |].
  unfold Reference.be16.
  replace (tcp + 20 + i + 2 + 1) with (tcp + 20 + i + 3) by lia.
  rewrite ld8_st8_ne, !ld8_st8_eq by (mem; lia).
  change 255 with (Z.ones 8). rewrite !Z.land_ones by lia.
  rewrite Z.shiftr_div_pow2 by lia. change (2 ^ 8) with 256.
  rewrite !Z.mod_mod by lia.
  destruct (u16_bytes (NetworkShieldV6.mss os_prof) Hmss) as (Ha & Hb & Hsplit).
  rewrite (Z.mod_small (_ / 256)) by lia. lia.
Qed.

(** ** The option loop of [titan_tc_egress] *)

Lemma data_end_bpf_l3_csum_replace p offset from to flags :
  data_end (Kernel.bpf_l3_csum_replace p offset from to flags) = data_end p.
Proof. unfold Kernel.bpf_l3_csum_replace. repeat case_test; by mem. Qed.

(** *** The loop of [titan_tc_egress] stays inside the packet *)

Section TitanWalk.
Implicit Types (p : packet) (opts opts_end i : Z).

Lemma rewrite_ttl_data_end os_prof p ip :
  match NetworkShieldV6.rewrite_ttl os_prof p ip with
  | NetworkShieldV6.Continue q | NetworkShieldV6.Return q =>
      data_end q = data_end p
  end.
Proof.
  unfold NetworkShieldV6.rewrite_ttl, set_ip_ttl.
  repeat case_test; rewrite ?data_end_st8, ?data_end_bpf_l3_csum_replace; done.
Qed.

Lemma rewrite_window_data_end os_prof p ip tcp :
  0 <= tcp ->
  match NetworkShieldV6.rewrite_window os_prof p ip tcp with
  | NetworkShieldV6.Continue (q, tcp') => data_end q = data_end p /\ 0 <= tcp'
  | NetworkShieldV6.Return q => data_end q = data_end p
  end.
Proof.
  intros Htcp. unfold NetworkShieldV6.rewrite_window, set_tcp_window.
  cbv beta iota zeta delta [sizeof_ethhdr sizeof_iphdr sizeof_tcphdr ETH_HLEN].
  case_test; [| done].
  set (p1 := Kernel.bpf_l4_csum_replace _ _ _ _ _).
  assert (Hp1 : data_end p1 = data_end p)
    by apply data_end_bpf_l4_csum_replace.
  pose proof (ihl_range p1 (0 + 14)).
  repeat (case_test; [done |]).
  rewrite data_end_st16. split; [done | lia].
Qed.

Lemma rewrite_mss_safe os_prof len p ip opts opts_end i kind l :
  0 <= opts -> 0 <= i -> opts_end <= data_end p ->
  exists r,
    NetworkShieldV6.rewrite_mss os_prof len p ip opts opts_end i kind l = Ok r
    /\ match r with
       | NetworkShieldV6.Return p' => data_end p' = data_end p
       | NetworkShieldV6.Continue (p', opts', opts_end') =>
           data_end p' = data_end p
           /\ 0 <= opts' /\ opts_end' <= data_end p'
       end.
Proof.
  intros Hopts Hi Hend. unfold NetworkShieldV6.rewrite_mss.
  case_test; [| eexists; split; [reflexivity | done]].
  rewrite (load8_ok p (opts + i + 2)) by lia. cbn [mbind outcome_bind].
  rewrite (load8_ok p (opts + i + 3)) by lia. cbn [mbind outcome_bind].
  case_test; [| eexists; split; [reflexivity | done]].
  cbv beta iota zeta delta [sizeof_ethhdr sizeof_iphdr sizeof_tcphdr ETH_HLEN].
  change (0 + 14) with 14.
  set (p1 := Kernel.bpf_l4_csum_replace _ _ _ _ _).
  assert (Hp1 : data_end p1 = data_end p)
    by apply data_end_bpf_l4_csum_replace.
  pose proof (ihl_range p1 14) as Hihl.
  repeat (case_test; [eexists; split; [reflexivity | done] |]).
  eexists. split; [reflexivity |]. cbv beta iota.
  rewrite !data_end_st8. lia.
Qed.

Lemma rewrite_wscale_safe os_prof p ip opts opts_end i kind l :
  0 <= opts -> 0 <= i -> opts_end <= data_end p ->
  exists r,
    NetworkShieldV6.rewrite_wscale os_prof p ip opts opts_end i kind l = Ok r
    /\ match r with
       | NetworkShieldV6.Return p' | NetworkShieldV6.Continue p' =>
           data_end p' = data_end p
       end.
Proof.
  intros Hopts Hi Hend. unfold NetworkShieldV6.rewrite_wscale.
  case_test; [| eexists; split; [reflexivity | done]].
  rewrite (load8_ok p (opts + i + 2)) by lia. cbn [mbind outcome_bind].
  case_test; [| eexists; split; [reflexivity | done]].
  case_test; (eexists; split; [reflexivity |]); cbv beta iota;
    rewrite ?data_end_bpf_l4_csum_replace; by mem.
Qed.

(** No read of the loop falls outside [data, data_end). *)
Lemma option_walk_safe fuel os_prof len p opts opts_end i :
  0 <= opts -> 0 <= i -> opts_end <= data_end p ->
  exists q,
    NetworkShieldV6.option_walk fuel os_prof len p 14 opts opts_end i = Ok q
    /\ data_end q = data_end p.
Proof.
  revert p opts opts_end i. induction fuel as [|fuel IH];
    intros p opts opts_end i Hopts Hi Hend; cbn [NetworkShieldV6.option_walk];
    [by eexists |].
  case_test; [by eexists |]. case_test; [by eexists |].
  rewrite (load8_ok p (opts + i)) by lia. cbn [mbind outcome_bind].
  case_test; [by eexists |].
  case_test; [apply IH; lia |].
  case_test; [by eexists |].
  rewrite (load8_ok p (opts + i + 1)) by lia. cbn [mbind outcome_bind].
  case_test; [by eexists |].
  destruct (rewrite_mss_safe os_prof len p 14 opts opts_end i
              (ld8 p (opts + i)) (ld8 p (opts + i + 1)) Hopts Hi Hend)
    as (r & -> & Hr).
  cbn [mbind outcome_bind].
  destruct r as [[[p1 opts1] opts_end1]|p1]; [| by eexists].
  destruct Hr as (Hp1 & Hopts1 & Hend1).
  destruct (rewrite_wscale_safe os_prof p1 14 opts1 opts_end1 i
              (ld8 p (opts + i)) (ld8 p (opts + i + 1)) Hopts1 Hi Hend1)
    as (r & -> & Hr).
  cbn [mbind outcome_bind].
  destruct r as [p2|p2]; [| eexists; split; [done | congruence]].
  destruct (IH p2 opts1 opts_end1 (i + (ld8 p (opts + i + 1) - 1) + 1))
    as (q & -> & Hq); [lia | lia | lia |].
  eexists. split; [done | congruence].
Qed.

(** X6: the option loop of [titan_tc_egress] never reads an option byte
    outside the packet: each read of [opts[i]], [opts[i + 1]],
    [opts[i + 2]] and [opts[i + 3]] is covered by the bounds checks before
    it, so the program runs to its end on every packet and with any map
    contents, where the loops of [tcp_fingerprint_xdp] can read at
    [data_end]. *)
Theorem titan_tc_egress_stays_in_bounds (m : NetworkShieldV6.maps) p :
  exists q, NetworkShieldV6.titan_tc_egress m p = Ok (TC_ACT_OK, q)
            /\ data_end q = data_end p.
Proof.
  unfold NetworkShieldV6.titan_tc_egress.
  destruct (NetworkShieldV6.get_config m) as [cfg|]; [| by eexists].
  cbv beta iota zeta delta [sizeof_ethhdr sizeof_iphdr sizeof_tcphdr].
  repeat (case_test; [by eexists |]).
  destruct (NetworkShieldV6.get_os_profile m _) as [os_prof|]; [| by eexists].
  pose proof (rewrite_ttl_data_end os_prof p (0 + 14)) as Httl.
  destruct (NetworkShieldV6.rewrite_ttl os_prof p _) as [p1|p1]; [| by eexists].
  pose proof (ihl_range p1 (0 + 14)) as Hihl.
  case_test; [by eexists |].
  unfold NetworkShieldV6.rewrite_syn.
  case_test; [| by eexists].
  pose proof (rewrite_window_data_end os_prof p1 (0 + 14)
                (0 + 14 + iph_ihl p1 (0 + 14) * 4) ltac:(lia)) as Hwin.
  destruct (NetworkShieldV6.rewrite_window _ _ _ _) as [[p2 tcp]|p2];
    [| eexists; split; [done | congruence]].
  destruct Hwin as [Hp2 Htcp].
  case_test; [eexists; split; [done | congruence] |].
  case_test; [eexists; split; [done | congruence] |].
  destruct (option_walk_safe NetworkShieldV6.walk_fuel os_prof
              (u8 (tcph_doff p2 tcp * 4)) p2 (tcp + 20)
              (tcp + u8 (tcph_doff p2 tcp * 4)) 0) as (q & Hq & Hend);
    [lia .. |].
  change (0 + 14) with 14. rewrite Hq. eexists. split; [done | congruence].
Qed.
End TitanWalk.


(** ** MSS rewriting *)

Section MssRewriting.
Import NetworkShieldV6.
Implicit Types (p q : packet) (o i j l len tcp : Z).

Lemma ld8_bpf_l3_csum_replace p offset from to flags o :
  0 <= o -> o <> offset -> o <> offset + 1 ->
  ld8 (Kernel.bpf_l3_csum_replace p offset from to flags) o = ld8 p o.
Proof.
  intros. unfold Kernel.bpf_l3_csum_replace, Kernel.offset_ok.
  repeat case_test; try done; by mem.
Qed.

Lemma bytes_ok_bpf_l3_csum_replace p offset from to flags :
  bytes_ok p = true ->
  bytes_ok (Kernel.bpf_l3_csum_replace p offset from to flags) = true.
Proof.
  intros. unfold Kernel.bpf_l3_csum_replace.
  repeat case_test; try done; by apply bytes_ok_st16.
Qed.

Lemma bytes_ok_bpf_l4_csum_replace p offset from to flags :
  bytes_ok p = true ->
  bytes_ok (Kernel.bpf_l4_csum_replace p offset from to flags) = true.
Proof.
  intros. unfold Kernel.bpf_l4_csum_replace.
  repeat case_test; try done; by apply bytes_ok_st16.
Qed.

(** [find_option] looks at the bytes from [opts + i] on only. *)
Lemma find_option_ext want fuel p q opts len i :
  (forall o, opts + i <= o -> ld8 q o = ld8 p o) ->
  find_option want fuel q opts len i = find_option want fuel p opts len i.
Proof.
  revert i. induction fuel as [|fuel IH]; intros i Hext; [done |].
  cbn [find_option]. rewrite !Hext by lia.
  case_test; [| done]. case_test; [done |].
  case_test; [apply IH; intros o Ho; apply Hext; lia |].
  case_test; [done |]. case_test; [done |].
  apply IH. intros o Ho. apply Hext. lia.
Qed.

(** The TTL edit of [titan_tc_egress] on a frame that holds the Ethernet
    and IPv4 headers. *)
Lemma titan_rewrite_ttl_frame os_prof p :
  34 <= data_end p ->
  exists q,
    rewrite_ttl os_prof p 14 = Continue q
    /\ data_end q = data_end p
    /\ (bytes_ok p = true -> bytes_ok q = true)
    /\ forall o, 0 <= o -> o <> 22 -> o <> 24 -> o <> 25 -> ld8 q o = ld8 p o.
Proof.
  intros Hend. unfold rewrite_ttl.
  cbv beta iota zeta delta [sizeof_ethhdr sizeof_iphdr ETH_HLEN].
  change (14 + 10) with 24. change (0 + 14) with 14.
  case_test; [| by exists p].
  rewrite data_end_bpf_l3_csum_replace.
  replace (14 >? data_end p) with false by lia.
  replace (14 + 20 >? data_end p) with false by lia.
  eexists. split; [reflexivity |]. unfold set_ip_ttl. change (14 + 8) with 22.
  split; [by rewrite data_end_st8, data_end_bpf_l3_csum_replace |].
  split; [intros; by apply bytes_ok_st8, bytes_ok_bpf_l3_csum_replace |].
  intros o Ho H22 H24 H25.
  rewrite ld8_st8_ne by lia. by rewrite ld8_bpf_l3_csum_replace by lia.
Qed.

(** The window edit, on a frame that holds the TCP header. *)
Lemma titan_rewrite_window_frame os_prof p tcp :
  tcp = 14 + iph_ihl p 14 * 4 -> tcp + 20 <= data_end p ->
  exists q,
    rewrite_window os_prof p 14 tcp = Continue (q, tcp)
    /\ data_end q = data_end p
    /\ (bytes_ok p = true -> bytes_ok q = true)
    /\ forall o, 0 <= o -> ~ (tcp + 14 <= o <= tcp + 17) -> ld8 q o = ld8 p o.
Proof.
  intros Htcp Hend. pose proof (ihl_range p 14) as Hihl.
  unfold rewrite_window.
  cbv beta iota zeta delta [sizeof_ethhdr sizeof_iphdr sizeof_tcphdr ETH_HLEN].
  change (0 + 14) with 14. rewrite <- Htcp.
  case_test; [| by exists p].
  set (p1 := Kernel.bpf_l4_csum_replace _ _ _ _ _).
  assert (Hend1 : data_end p1 = data_end p)
    by apply data_end_bpf_l4_csum_replace.
  assert (Hihl1 : iph_ihl p1 14 = iph_ihl p 14).
  { unfold iph_ihl, p1. by rewrite ld8_bpf_l4_csum_replace by lia. }
  rewrite Hend1, Hihl1, <- Htcp.
  replace (14 >? data_end p) with false by lia.
  replace (14 + 20 >? data_end p) with false by lia.
  replace (tcp + 20 >? data_end p) with false by lia.
  eexists. split; [reflexivity |]. unfold set_tcp_window.
  split; [by rewrite data_end_st16 |].
  split; [intros; by apply bytes_ok_st16, bytes_ok_bpf_l4_csum_replace |].
  intros o Ho Hout. rewrite ld8_st16_ne by lia.
  unfold p1. by rewrite ld8_bpf_l4_csum_replace by lia.
Qed.

(** The MSS branch of a round of the option loop: it goes on, and writes
    (the checksum field apart) inside a 4-byte MSS option only. *)
Lemma titan_rewrite_mss_frame os_prof len p i kind l tcp :
  tcp = 14 + iph_ihl p 14 * 4 -> 0 <= i -> tcp + len <= data_end p ->
  tcp + 20 <= data_end p ->
  exists p',
    rewrite_mss os_prof len p 14 (tcp + 20) (tcp + len) i kind l
    = Ok (Continue (p', tcp + 20, tcp + len))
    /\ data_end p' = data_end p
    /\ (bytes_ok p = true -> bytes_ok p' = true)
    /\ (kind <> 2 \/ l <> 4 -> p' = p)
    /\ forall o, 0 <= o -> o <> tcp + 16 -> o <> tcp + 17 ->
                 o <> tcp + 20 + i + 2 -> o <> tcp + 20 + i + 3 ->
                 ld8 p' o = ld8 p o.
Proof.
  intros Htcp Hi Hend Hhdr. pose proof (ihl_range p 14) as Hihl.
  unfold rewrite_mss, TCPOPT_MSS.
  case_test; [| exists p; repeat split; done].
  rewrite (load8_ok p (tcp + 20 + i + 2)) by lia. cbn [mbind outcome_bind].
  rewrite (load8_ok p (tcp + 20 + i + 3)) by lia. cbn [mbind outcome_bind].
  case_test; [| exists p; repeat split; done].
  cbv beta iota zeta delta [sizeof_ethhdr sizeof_iphdr sizeof_tcphdr ETH_HLEN].
  change (0 + 14) with 14. rewrite <- Htcp.
  set (p1 := Kernel.bpf_l4_csum_replace _ _ _ _ _).
  assert (Hend1 : data_end p1 = data_end p)
    by apply data_end_bpf_l4_csum_replace.
  assert (Hihl1 : iph_ihl p1 14 = iph_ihl p 14).
  { unfold iph_ihl, p1. by rewrite ld8_bpf_l4_csum_replace by lia. }
  rewrite Hend1, Hihl1, <- Htcp.
  replace (14 >? data_end p) with false by lia.
  replace (14 + 20 >? data_end p) with false by lia.
  replace (tcp + 20 >? data_end p) with false by lia.
  replace (tcp + len >? data_end p) with false by lia.
  eexists. split; [reflexivity |].
  split; [by rewrite !data_end_st8 |].
  split; [intros; by do 2 apply bytes_ok_st8; apply bytes_ok_bpf_l4_csum_replace |].
  split; [lia |].
  intros o Ho H16 H17 H2 H3. rewrite !ld8_st8_ne by lia.
  unfold p1. by rewrite ld8_bpf_l4_csum_replace by lia.
Qed.

(** The window-scale branch: it goes on when the frame holds 54 bytes, and
    writes (the checksum field apart) inside a 3-byte option only. *)
Lemma titan_rewrite_wscale_frame os_prof p i kind l tcp opts_end :
  tcp = 14 + iph_ihl p 14 * 4 -> 0 <= i -> opts_end <= data_end p ->
  54 <= data_end p ->
  exists p',
    rewrite_wscale os_prof p 14 (tcp + 20) opts_end i kind l = Ok (Continue p')
    /\ data_end p' = data_end p
    /\ (bytes_ok p = true -> bytes_ok p' = true)
    /\ (kind <> 3 \/ l <> 3 -> p' = p)
    /\ forall o, 0 <= o -> o <> tcp + 16 -> o <> tcp + 17 ->
                 o <> tcp + 20 + i + 2 -> ld8 p' o = ld8 p o.
Proof.
  intros Htcp Hi Hend H54. pose proof (ihl_range p 14) as Hihl.
  unfold rewrite_wscale, TCPOPT_WSCALE.
  case_test; [| exists p; repeat split; done].
  rewrite (load8_ok p (tcp + 20 + i + 2)) by lia. cbn [mbind outcome_bind].
  case_test; [| exists p; repeat split; done].
  cbv beta iota zeta delta [ETH_HLEN].
  set (p1 := st8 p (tcp + 20 + i + 2) _).
  assert (Hihl1 : iph_ihl p1 14 = iph_ihl p 14).
  { unfold iph_ihl, p1. by rewrite ld8_st8_ne by lia. }
  rewrite Hihl1, <- Htcp.
  rewrite data_end_bpf_l4_csum_replace. unfold p1 at 1. rewrite data_end_st8.
  replace (0 + 14 + 40 >? data_end p) with false by lia.
  eexists. split; [reflexivity |].
  split; [by rewrite data_end_bpf_l4_csum_replace; unfold p1; rewrite data_end_st8 |].
  split; [intros; by apply bytes_ok_bpf_l4_csum_replace, bytes_ok_st8 |].
  split; [lia |].
  intros o Ho H16 H17 H2. rewrite ld8_bpf_l4_csum_replace by lia.
  unfold p1. by rewrite ld8_st8_ne by lia.
Qed.

(** A walk started at index [i] completes and leaves the option bytes
    before [i] as they are. *)
Lemma titan_option_walk_frame fuel os_prof len p i tcp :
  tcp = 14 + iph_ihl p 14 * 4 -> 0 <= i -> tcp + len <= data_end p ->
  54 <= data_end p -> tcp + 20 <= data_end p ->
  exists q,
    option_walk fuel os_prof len p 14 (tcp + 20) (tcp + len) i = Ok q
    /\ data_end q = data_end p
    /\ forall o, 0 <= o -> o < tcp + 20 + i -> o <> tcp + 16 -> o <> tcp + 17 ->
                 ld8 q o = ld8 p o.
Proof.
  revert p i. induction fuel as [|fuel IH];
    intros p i Htcp Hi Hend H54 Hhdr; cbn [option_walk]; [by exists p |].
  pose proof (ihl_range p 14) as Hihl.
  case_test; [by exists p |]. case_test; [by exists p |].
  rewrite (load8_ok p (tcp + 20 + i)) by lia. cbn [mbind outcome_bind].
  case_test; [by exists p |].
  case_test.
  { destruct (IH p (i + 1)) as (q & -> & Hq & Hframe); try done; try lia.
    exists q. split; [done |]. split; [done |].
    intros o ????. apply Hframe; lia. }
  case_test; [by exists p |].
  rewrite (load8_ok p (tcp + 20 + i + 1)) by lia. cbn [mbind outcome_bind].
  case_test; [by exists p |].
  set (kind := ld8 p (tcp + 20 + i)) in *.
  set (l := ld8 p (tcp + 20 + i + 1)) in *.
  destruct (titan_rewrite_mss_frame os_prof len p i kind l tcp Htcp Hi Hend Hhdr)
    as (p1 & -> & Hend1 & _ & _ & Hframe1).
  cbn [mbind outcome_bind].
  assert (Htcp1 : tcp = 14 + iph_ihl p1 14 * 4).
  { unfold iph_ihl. by rewrite Hframe1 by lia. }
  destruct (titan_rewrite_wscale_frame os_prof p1 i kind l tcp (tcp + len)
              Htcp1 Hi ltac:(lia) ltac:(lia))
    as (p2 & -> & Hend2 & _ & _ & Hframe2).
  cbn [mbind outcome_bind].
  assert (Htcp2 : tcp = 14 + iph_ihl p2 14 * 4).
  { unfold iph_ihl. rewrite Hframe2 by lia. by rewrite Hframe1 by lia. }
  destruct (IH p2 (i + (l - 1) + 1)) as (q & -> & Hq & Hframe);
    try done; try lia.
  exists q. split; [done |]. split; [lia |].
  intros o Ho Hlt H16 H17. rewrite Hframe by lia.
  rewrite Hframe2 by lia. by rewrite Hframe1 by lia.
Qed.

(** A walk that meets a 4-byte MSS option leaves it with the profile's
    MSS. *)
Lemma titan_option_walk_mss fuel os_prof len p i j tcp :
  bytes_ok p = true -> 0 <= mss os_prof < 65536 ->
  tcp = 14 + iph_ihl p 14 * 4 -> 5 <= iph_ihl p 14 ->
  0 <= i -> len <= 60 -> tcp + len <= data_end p ->
  find_option 2 fuel p (tcp + 20) (len - 20) i = Some j ->
  ld8 p (tcp + 20 + j + 1) = 4 -> j + 4 <= len - 20 ->
  exists q,
    option_walk fuel os_prof len p 14 (tcp + 20) (tcp + len) i = Ok q
    /\ data_end q = data_end p
    /\ Reference.be16 q (tcp + 20 + j + 2) = mss os_prof.
Proof.
  intros Hp Hmss. revert p i Hp. induction fuel as [|fuel IH];
    intros p i Hp Htcp Hihl Hi Hlen Hend Hfind Hl4 Hroom;
    cbn [option_walk find_option] in *; [discriminate |].
  unfold TCPOPT_EOL, TCPOPT_NOP.
  destruct (i <? len - 20) eqn:Hin; [| discriminate].
  replace (negb (i <? 40)) with false by lia.
  replace (tcp + 20 + i >=? tcp + len) with false by lia.
  rewrite (load8_ok p (tcp + 20 + i)) by lia. cbn [mbind outcome_bind].
  set (kind := ld8 p (tcp + 20 + i)) in *.
  destruct (kind =? 0) eqn:H0; [discriminate |].
  destruct (kind =? 1) eqn:H1; [by apply IH; try lia |].
  destruct (kind =? 2) eqn:H2.
  - (* the MSS option *)
    injection Hfind as <-.
    replace (tcp + 20 + i + 1 >=? tcp + len) with false by lia.
    rewrite (load8_ok p (tcp + 20 + i + 1)) by lia. cbn [mbind outcome_bind].
    rewrite Hl4.
    replace ((4 <? 2) || (tcp + 20 + i + 4 >? tcp + len)) with false by lia.
    assert (Hk : kind = 2) by lia. rewrite Hk.
    destruct (titan_rewrite_mss_frame os_prof len p i 2 4 tcp Htcp Hi Hend
                ltac:(lia)) as (p1 & Hrun & Hend1 & Hp1 & _ & Hframe1).
    rewrite Hrun. cbn [mbind outcome_bind].
    destruct (titan_rewrite_mss_spec os_prof len p i _ Hp Hmss Hi
                ltac:(rewrite <- Htcp; lia) ltac:(rewrite <- Htcp; lia)
                ltac:(rewrite <- Htcp; exact Hrun))
      as (p1' & [= <-] & _ & Hval).
    rewrite <- Htcp in Hval.
    assert (Htcp1 : tcp = 14 + iph_ihl p1 14 * 4).
    { unfold iph_ihl. by rewrite Hframe1 by lia. }
    destruct (titan_rewrite_wscale_frame os_prof p1 i 2 4 tcp (tcp + len)
                Htcp1 Hi ltac:(lia) ltac:(lia))
      as (p2 & -> & Hend2 & _ & Hsame & _).
    cbn [mbind outcome_bind]. rewrite (Hsame ltac:(lia)) in *.
    destruct (titan_option_walk_frame fuel os_prof len p1 (i + (4 - 1) + 1) tcp
                Htcp1 ltac:(lia) ltac:(lia) ltac:(lia) ltac:(lia))
      as (q & -> & Hq & Hframe).
    exists q. split; [done |]. split; [lia |].
    rewrite <- Hval. unfold Reference.be16.
    by rewrite !Hframe by lia.
  - (* another option *)
    set (l := ld8 p (tcp + 20 + i + 1)) in *.
    destruct (l <? 2) eqn:Hl; [discriminate |].
    pose proof (find_option_bound _ _ _ _ _ _ _ Hfind) as Hj.
    replace (tcp + 20 + i + 1 >=? tcp + len) with false by lia.
    rewrite (load8_ok p (tcp + 20 + i + 1)) by lia. cbn [mbind outcome_bind].
    fold l. rewrite Hl.
    replace (tcp + 20 + i + l >? tcp + len) with false by lia. cbn [orb].
    destruct (titan_rewrite_mss_frame os_prof len p i kind l tcp Htcp Hi Hend
                ltac:(lia)) as (p1 & -> & _ & _ & Hsame1 & _).
    cbn [mbind outcome_bind]. rewrite (Hsame1 ltac:(lia)). clear p1 Hsame1.
    destruct (titan_rewrite_wscale_frame os_prof p i kind l tcp (tcp + len)
                Htcp Hi ltac:(lia) ltac:(lia))
      as (p2 & -> & Hend2 & Hp2 & Hsame2 & Hframe2).
    cbn [mbind outcome_bind].
    assert (Hrest : forall o, tcp + 20 + (i + l) <= o -> ld8 p2 o = ld8 p o).
    { intros o Ho. destruct (decide (kind = 3 /\ l = 3)) as [[_ H3] | Hno].
      - apply Hframe2; lia.
      - by rewrite Hsame2 by lia. }
    assert (Hihl2 : iph_ihl p2 14 = iph_ihl p 14).
    { unfold iph_ihl. by rewrite Hframe2 by lia. }
    replace (i + (l - 1) + 1) with (i + l) by lia.
    assert (Hfind2 : find_option 2 fuel p2 (tcp + 20) (len - 20) (i + l)
                     = Some j)
      by (rewrite <- Hfind; by apply find_option_ext).
    assert (Hl42 : ld8 p2 (tcp + 20 + j + 1) = 4) by (by rewrite Hrest by lia).
    destruct (IH p2 (i + l) (Hp2 Hp) ltac:(by rewrite Hihl2)
                ltac:(by rewrite Hihl2) ltac:(lia) Hlen ltac:(lia)
                Hfind2 Hl42 Hroom) as (q & -> & Hq & Hval).
    exists q. split; [done |]. split; [lia | done].
Qed.

(** The SYN branch of [titan_tc_egress]: window, then the option loop. *)
Lemma titan_rewrite_syn_mss os_prof p j tcp :
  bytes_ok p = true -> 0 <= mss os_prof < 65536 ->
  tcp = 14 + iph_ihl p 14 * 4 -> 5 <= iph_ihl p 14 ->
  tcp + 20 + option_area_len p tcp <= data_end p ->
  tcph_syn p tcp = true ->
  find_option 2 walk_fuel p (tcp + 20) (option_area_len p tcp) 0 = Some j ->
  ld8 p (tcp + 20 + j + 1) = 4 -> j + 4 <= option_area_len p tcp ->
  exists q, rewrite_syn os_prof p 14 tcp = Ok q
            /\ mss_value q tcp j = mss os_prof.
Proof.
  intros Hp Hmss Htcp Hihl Hend Hsyn Hfind Hl4 Hroom.
  pose proof (ihl_range p 14) as Hihl'.
  pose proof (find_option_bound _ _ _ _ _ _ _ Hfind) as Hj.
  unfold rewrite_syn. rewrite Hsyn.
  destruct (titan_rewrite_window_frame os_prof p tcp Htcp ltac:(lia))
    as (p2 & -> & Hend2 & Hp2 & Hframe2).
  assert (Hsame : forall o, tcp + 18 <= o -> ld8 p2 o = ld8 p o).
  { intros o Ho. apply Hframe2; lia. }
  assert (Hihl2 : iph_ihl p2 14 = iph_ihl p 14).
  { unfold iph_ihl. by rewrite Hframe2 by lia. }
  assert (Hdoff : tcph_doff p2 tcp = tcph_doff p tcp).
  { unfold tcph_doff. by rewrite Hframe2 by lia. }
  cbv zeta. rewrite Hdoff, Hend2.
  unfold option_area_len in *.
  destruct (hdr_len_range p tcp) as [Hu8 Hlen].
  remember (u8 (tcph_doff p tcp * 4)) as len eqn:Elen.
  replace (len <=? 20) with false by lia.
  replace (tcp + len >? data_end p) with false by lia.
  assert (Hfind2 : find_option 2 walk_fuel p2 (tcp + 20) (len - 20) 0
                   = Some j).
  { rewrite <- Hfind. apply find_option_ext.
    intros o Ho. apply Hsame. lia. }
  assert (Hl42 : ld8 p2 (tcp + 20 + j + 1) = 4) by (by rewrite Hsame by lia).
  destruct (titan_option_walk_mss walk_fuel os_prof len p2 0 j tcp
              (Hp2 Hp) Hmss ltac:(by rewrite Hihl2)
              ltac:(by rewrite Hihl2) ltac:(lia) ltac:(lia) ltac:(lia)
              Hfind2 Hl42 Hroom) as (q & -> & _ & Hval).
  by exists q.
Qed.

(** C3 (as amended): the MSS block of [tcp_fingerprint_xdp] is monotonic:
    on a SYN packet the MSS option ends with the larger of the value it
    advertised and the configured MSS (raised when smaller, never
    lowered), no other byte changes, and a non-SYN packet is left as it
    is.  [titan_tc_egress] follows another policy: a SYN packet leaves
    with the profile's MSS in its 4-byte MSS option, whatever the option
    advertised.  It does not touch a packet that is not a SYN beyond the
    TTL and the IPv4 checksum. *)
Theorem mss_rewrite_policies :
  (forall (config : TcpFingerprint.tcp_config) (p : packet) (tcph j : Z)
          (q : packet),
      0 <= tcph -> bytes_ok p = true ->
      0 <= TcpFingerprint.mss config < 65536 ->
      tcph + 20 + option_area_len p tcph <= data_end p ->
      TcpFingerprint.mss_stage config p tcph = Ok q ->
      mss_option p tcph = Some j -> j + 4 <= option_area_len p tcph ->
      (tcph_syn p tcph = true ->
       mss_value q tcph j
       = Z.max (mss_value p tcph j) (TcpFingerprint.mss config))
      /\ (tcph_syn p tcph = false -> q = p)
      /\ (forall o, 0 <= o -> o <> tcph + 20 + j + 2 -> o <> tcph + 20 + j + 3 ->
                    ld8 q o = ld8 p o))
  /\ (forall (m : maps) (cfg : titan_config) (os_prof : os_tcp_profile)
             (p : packet) (j : Z),
         get_config m = Some cfg -> tcp_fingerprint_enabled cfg <> 0 ->
         get_os_profile m (os_profile cfg) = Some os_prof ->
         0 <= mss os_prof < 65536 ->
         bytes_ok p = true -> tcp_frame p = true -> 5 <= iph_ihl p 14 ->
         let tcp := 14 + iph_ihl p 14 * 4 in
         tcp + 20 + option_area_len p tcp <= data_end p ->
         tcph_syn p tcp = true ->
         mss_option p tcp = Some j -> ld8 p (tcp + 20 + j + 1) = 4 ->
         j + 4 <= option_area_len p tcp ->
         exists q,
           titan_tc_egress m p = Ok (TC_ACT_OK, q)
           /\ mss_value q tcp j = mss os_prof)
  /\ (forall (m : maps) (p : packet),
         tcph_syn p (14 + iph_ihl p 14 * 4) = false ->
         exists q,
           titan_tc_egress m p = Ok (TC_ACT_OK, q)
           /\ forall o, 0 <= o -> o <> 22 -> o <> 24 -> o <> 25 ->
                        ld8 q o = ld8 p o).
Proof.
  split; [| split].
  - intros config p tcph j q Htcph Hp Hmss Hend Hrun Hfind Hroom.
    pose proof (mss_stage_spec config p tcph q j Htcph Hp Hmss Hend Hrun Hfind
                  Hroom) as ->.
    pose proof (mss_option_bound p tcph j Hfind) as Hj.
    assert (Hv : 0 <= mss_value p tcph j).
    { unfold mss_value. rewrite be16_ntohs by done. apply htons_range. }
    destruct (tcph_syn p tcph); cbn [andb].
    + split; [| split; [discriminate |]].
      * intros _. case_test.
        -- unfold mss_value at 1. rewrite be16_st16_htons by lia. lia.
        -- lia.
      * intros o Ho H2 H3. case_test; [by mem | done].
    + split; [discriminate | split; done].
  - intros m cfg os_prof p j Hcfg Hon Hprof Hmss Hp Hframe Hihl tcp Hend Hsyn
      Hfind Hl4 Hroom.
    pose proof (ihl_range p 14) as Hihl'.
    pose proof (mss_option_bound p tcp j Hfind) as Hj.
    unfold tcp_frame in Hframe.
    unfold titan_tc_egress. rewrite Hcfg.
    replace (tcp_fingerprint_enabled cfg =? 0) with false by lia.
    cbv beta iota zeta delta [sizeof_ethhdr sizeof_iphdr sizeof_tcphdr].
    change (0 + 14) with 14.
    replace (14 >? data_end p) with false by lia.
    replace (eth_h_proto p 0 =? bpf_htons ETH_P_IP) with true by lia.
    replace (14 + 20 >? data_end p) with false by lia.
    replace (iph_protocol p 14 =? IPPROTO_TCP) with true by lia.
    cbn [negb]. rewrite Hprof.
    destruct (titan_rewrite_ttl_frame os_prof p ltac:(lia))
      as (p1 & -> & Hend1 & Hp1 & Hframe1).
    assert (Hihl1 : iph_ihl p1 14 = iph_ihl p 14).
    { unfold iph_ihl. by rewrite Hframe1 by lia. }
    rewrite Hihl1, Hend1. fold tcp.
    replace (tcp + 20 >? data_end p) with false by lia.
    assert (Hsyn1 : tcph_syn p1 tcp = true).
    { unfold tcph_syn in *. by rewrite Hframe1 by lia. }
    assert (Hopt : forall o, 34 <= o -> ld8 p1 o = ld8 p o).
    { intros o Ho. apply Hframe1; lia. }
    assert (Harea : option_area_len p1 tcp = option_area_len p tcp).
    { unfold option_area_len, tcph_doff. by rewrite Hopt by lia. }
    assert (Hfuel : TcpFingerprint.walk_fuel = walk_fuel) by reflexivity.
    rewrite mss_option_unfold, Hfuel in Hfind. clear Hfuel.
    assert (Hfind1 : find_option 2 walk_fuel p1 (tcp + 20)
                       (option_area_len p1 tcp) 0 = Some j).
    { rewrite Harea, <- Hfind. apply find_option_ext.
      intros o Ho. apply Hopt. lia. }
    destruct (titan_rewrite_syn_mss os_prof p1 j tcp (Hp1 Hp) Hmss
                ltac:(by rewrite Hihl1) ltac:(by rewrite Hihl1)
                ltac:(rewrite Harea; lia) Hsyn1 Hfind1
                ltac:(by rewrite Hopt by lia) ltac:(rewrite Harea; lia))
      as (q & -> & Hval).
    cbn [mbind outcome_bind]. by exists q.
  - intros m p Hsyn. pose proof (ihl_range p 14) as Hihl'.
    unfold titan_tc_egress.
    destruct (get_config m) as [cfg|]; [| by exists p].
    cbv beta iota zeta delta [sizeof_ethhdr sizeof_iphdr sizeof_tcphdr].
    change (0 + 14) with 14.
    repeat (case_test; [by exists p |]).
    destruct (get_os_profile m _) as [os_prof|]; [| by exists p].
    destruct (titan_rewrite_ttl_frame os_prof p ltac:(lia))
      as (p1 & -> & Hend1 & Hp1 & Hframe1).
    assert (Hihl1 : iph_ihl p1 14 = iph_ihl p 14).
    { unfold iph_ihl. by rewrite Hframe1 by lia. }
    rewrite Hihl1. case_test; [by exists p1 |].
    unfold rewrite_syn.
    assert (Hsyn1 : tcph_syn p1 (14 + iph_ihl p 14 * 4) = false).
    { unfold tcph_syn in *. by rewrite Hframe1 by lia. }
    rewrite Hsyn1. cbn [mbind outcome_bind]. by exists p1.
Qed.

Lemma mss_rewrite_policies_witness :
  (exists q,
      TcpFingerprint.mss_stage windows_config syn_opts 34 = Ok q
      /\ mss_value syn_opts 34 0 = 1400 /\ mss_value q 34 0 = 1460)
  /\ (exists q,
         titan_tc_egress (titan_maps 1) syn_bigmss = Ok (TC_ACT_OK, q)
         /\ mss_value syn_bigmss 34 0 = 9104 /\ mss_value q 34 0 = 1460)
  /\ (exists q,
         titan_tc_egress (titan_maps 1) ack_opts = Ok (TC_ACT_OK, q)
         /\ forall o, 34 <= o -> ld8 q o = ld8 ack_opts o).
Proof.
  destruct mss_rewrite_policies as (Hxdp & Htitan & Hother).
  split; [| split].
  - destruct (TcpFingerprint.mss_stage windows_config syn_opts 34) as [q|]
      eqn:Hq; [| vm_compute in Hq; discriminate].
    exists q. split; [reflexivity |]. split; [reflexivity |].
    destruct (Hxdp windows_config syn_opts 34 0 q) as (H & _ & _).
    + lia.
    + reflexivity.
    + cbn. lia.
    + vm_compute. discriminate.
    + exact Hq.
    + vm_compute. reflexivity.
    + vm_compute. discriminate.
    + rewrite (H eq_refl). reflexivity.
  - destruct (Htitan (titan_maps 1) (titan_config_with 1)
                (profile 128 65535 8 1460) syn_bigmss 0)
      as (q & Hq & Hval).
    + reflexivity.
    + vm_compute. discriminate.
    + reflexivity.
    + cbn. lia.
    + reflexivity.
    + reflexivity.
    + vm_compute. discriminate.
    + vm_compute. discriminate.
    + reflexivity.
    + vm_compute. reflexivity.
    + reflexivity.
    + vm_compute. discriminate.
    + exists q. split; [exact Hq |]. split; [reflexivity | exact Hval].
  - destruct (Hother (titan_maps 1) ack_opts) as (q & Hq & Hframe).
    + reflexivity.
    + exists q. split; [exact Hq |]. intros o Ho. apply Hframe; lia.
Defined.

(** C3, as stated, fails on [titan_tc_egress]: a SYN advertising MSS 9104
    leaves with MSS 1460, the value of the profile. *)
Lemma titan_lowers_advertised_mss :
  Reference.is_syn syn_bigmss = true
  /\ mss_option syn_bigmss 34 = Some 0
  /\ mss_value syn_bigmss 34 0 = 9104
  /\ exists q,
       titan_tc_egress (titan_maps 1) syn_bigmss = Ok (TC_ACT_OK, q)
       /\ mss_value q 34 0 = 1460.
Proof.
  repeat split. eexists. split; [vm_compute; reflexivity | reflexivity].
Qed.
End MssRewriting.

(** ** A short length byte ends the option loops *)

(** X5: a length byte below 2 ends each option loop on the spot, and the
    packet is left as it is at that point. *)
Theorem short_length_byte_ends_the_walk
    (fuel : nat) (config : TcpFingerprint.tcp_config)
    (os_prof : NetworkShieldV6.os_tcp_profile)
    (len : Z) (p : packet) (ip opts opts_end i : Z) :
  i < 40 -> 0 <= opts + i -> opts + i + 1 < opts_end -> opts_end <= data_end p ->
  ld8 p (opts + i) <> 0 -> ld8 p (opts + i) <> 1 ->
  ld8 p (opts + i + 1) < 2 ->
  (ld8 p (opts + i) <> 8 ->
   TcpFingerprint.ts_walk (S fuel) config len p opts opts_end i = Ok p)
  /\ (ld8 p (opts + i) <> 2 ->
      TcpFingerprint.mss_walk (S fuel) config len p opts opts_end i = Ok p)
  /\ NetworkShieldV6.option_walk (S fuel) os_prof len p ip opts opts_end i
     = Ok p.
Proof.
  intros. cbn [TcpFingerprint.ts_walk TcpFingerprint.mss_walk
               NetworkShieldV6.option_walk].
  unfold NetworkShieldV6.TCPOPT_EOL, NetworkShieldV6.TCPOPT_NOP.
  rewrite (load8_ok p (opts + i)), (load8_ok p (opts + i + 1)) by lia.
  cbn [mbind outcome_bind].
  split; [| split]; try intros ?; repeat (case_test; try done; try lia).
Qed.

Lemma short_length_byte_ends_the_walk_witness :
  ld8 syn_short_len 54 = 3 /\ ld8 syn_short_len 55 = 0
  /\ TcpFingerprint.mss_walk 40 windows_config 24 syn_short_len 54 58 0
     = Ok syn_short_len
  /\ NetworkShieldV6.option_walk 40 (profile 128 65535 8 1460) 24
       syn_short_len 14 54 58 0
     = Ok syn_short_len.
Proof.
  split; [reflexivity |]. split; [reflexivity |].
  destruct (short_length_byte_ends_the_walk 39 windows_config
              (profile 128 65535 8 1460) 24 syn_short_len 14 54 58 0)
    as (_ & Hmss & Htitan);
    [lia | lia | lia | vm_compute; discriminate | vm_compute; discriminate
    | vm_compute; discriminate | vm_compute; reflexivity |].
  split; [apply Hmss; vm_compute; discriminate | exact Htitan].
Defined.



(** ** The IPv4 full recompute against the reference

    On a header without options (ihl = 5) the two helpers store the
    reference checksum: summing little-endian words and swapping the folded
    result is the same as summing big-endian words, because a byte swap is
    a multiplication by 256 modulo 65535. *)

Section FullRecomputeReference.
Implicit Types (p : packet) (o iph : Z).

Lemma fold16_S fuel x :
  Reference.fold16 (S fuel) x
  = if x <? 65536 then x
    else Reference.fold16 fuel (x mod 65536 + x / 65536).
Proof. reflexivity. Qed.

Lemma fold16_small fuel x : x < 65536 -> Reference.fold16 fuel x = x.
Proof.
  intros Hx. destruct fuel as [|fuel]; [done |].
  rewrite fold16_S. by replace (x <? 65536) with true by lia.
Qed.

Lemma fold16_done fuel x :
  (2 <= fuel)%nat -> 0 <= x < 4294967296 ->
  Reference.fold16 fuel x = ones_reduce x.
Proof.
  intros Hfuel Hx.
  destruct (Z_lt_le_dec x 65536) as [Hlt | Hge].
  { rewrite fold16_small, ones_reduce_small by lia. done. }
  destruct fuel as [|[|fuel]]; [lia | lia |].
  rewrite fold16_S. replace (x <? 65536) with false by lia.
  destruct (fold_round x Hge) as (Hy & <- & Hb).
  rewrite land_65535, shiftr_16 in *.
  set (y := x mod 65536 + x / 65536) in *. specialize (Hb ltac:(lia)).
  destruct (Z_lt_le_dec y 65536) as [Hlty | Hgey].
  { rewrite fold16_small, ones_reduce_small by lia. done. }
  rewrite fold16_S. replace (y <? 65536) with false by lia.
  destruct (fold_round y Hgey) as (Hz & <- & _).
  rewrite land_65535, shiftr_16 in *.
  set (z := y mod 65536 + y / 65536) in *.
  assert (Hz' : z < 65536).
  { unfold z.
    assert (y / 65536 = 1).
    { assert (1 <= y / 65536) by (apply Z.div_le_lower_bound; lia).
      assert (y / 65536 < 2) by (apply Z.div_lt_upper_bound; lia). lia. }
    pose proof (Z.div_mod y 65536 ltac:(lia)). lia. }
  rewrite fold16_small, ones_reduce_small by lia. done.
Qed.

Lemma be16_st16 p o v :
  0 <= o -> o + 1 < data_end p ->
  Reference.be16 (st16 p o v) o = bpf_htons v.
Proof.
  intros Ho Hend. unfold Reference.be16, bpf_htons.
  rewrite ld8_st16_lo, ld8_st16_hi by lia. lia.
Qed.

(** The big-endian sum is 256 times the little-endian one, modulo 65535,
    and the two vanish together. *)
Lemma sum_be_word_sum n p o :
  bytes_ok p = true ->
  0 <= Reference.sum_be n p o <= 65535 * Z.of_nat n
  /\ (word_sum n p o = 0 -> Reference.sum_be n p o = 0)
  /\ (0 < word_sum n p o -> 0 < Reference.sum_be n p o)
  /\ exists k, 0 <= k
               /\ Reference.sum_be n p o + 65535 * k = 256 * word_sum n p o.
Proof.
  intros Hp. revert o. induction n as [|n IH]; intros o.
  - cbn [Reference.sum_be word_sum]. repeat split; try lia. exists 0. lia.
  - cbn [Reference.sum_be word_sum].
    destruct (IH (o + 2)) as (Hr & Hz & Hpos & k & Hk & Heq).
    pose proof (word_sum_range n p (o + 2) Hp) as HW.
    pose proof (bytes_ok_ld16 p o Hp) as Hw.
    rewrite (be16_ntohs p o Hp). unfold bpf_ntohs.
    pose proof (htons_range (ld16 p o)) as Hh.
    pose proof (htons_times (ld16 p o) Hw) as Ht.
    assert (Hq : 0 <= ld16 p o / 256) by (apply Z.div_pos; lia).
    split; [lia |]. split; [| split].
    + intros H0. assert (Hw0 : ld16 p o = 0) by lia.
      rewrite Hw0 in *. change (bpf_htons 0) with 0. lia.
    + intros Hgt.
      destruct (Z_lt_le_dec 0 (ld16 p o)) as [Hw1 | Hw0].
      * pose proof (htons_pos (ld16 p o) ltac:(lia)). lia.
      * lia.
    + exists (ld16 p o / 256 + k). split; lia.
Qed.

Lemma ones_reduce_sum_be n p o :
  bytes_ok p = true ->
  ones_reduce (Reference.sum_be n p o)
  = bpf_htons (ones_reduce (word_sum n p o)).
Proof.
  intros Hp.
  destruct (sum_be_word_sum n p o Hp) as (Hr & Hz & Hpos & k & Hk & Heq).
  pose proof (word_sum_range n p o Hp) as HW.
  rewrite htons_reduce by lia. rewrite <- Heq.
  destruct (Z_lt_le_dec 0 (word_sum n p o)) as [Hgt | Hle].
  - specialize (Hpos Hgt). by rewrite ones_reduce_shift by lia.
  - assert (H0 : word_sum n p o = 0) by lia.
    assert (k = 0) by lia. subst k. rewrite (Hz H0). done.
Qed.

(** The value [update_ip_checksum] stores, read in network byte order, is
    the reference checksum when the header carries no options. *)
Lemma update_ip_checksum_reference (p : packet) iph :
  bytes_ok p = true -> 0 <= iph -> iph + 20 <= data_end p ->
  iph_ihl p iph = 5 ->
  Reference.be16 (TcpFingerprint.update_ip_checksum p iph) (iph + 10)
  = Reference.ip_checksum p iph.
Proof.
  intros Hp Hiph Hend Hihl.
  unfold TcpFingerprint.update_ip_checksum, Reference.ip_checksum,
    Reference.ones_complement_checksum.
  rewrite Hihl.
  change (Z.to_nat (Z.shiftr sizeof_iphdr 1)) with 10%nat.
  change (Z.to_nat (5 * 2)) with 10%nat.
  change (Reference.put_be16 p (iph + 10) 0) with (set_ip_check p iph 0).
  set (p0 := set_ip_check p iph 0).
  assert (Hp0 : bytes_ok p0 = true) by (by apply bytes_ok_st16).
  pose proof (word_sum_range 10 p0 iph Hp0) as HW.
  destruct (sum_be_word_sum 10 p0 iph Hp0) as (HS & _).
  rewrite (sum_words_plain 10 p0 iph 0 Hp0) by (cbn; lia).
  rewrite csum_fold_helper_reduce by lia.
  rewrite fold16_done by lia.
  rewrite ones_reduce_sum_be by done.
  pose proof (ones_reduce_range (0 + word_sum 10 p0 iph) ltac:(lia)) as HR.
  assert (Hend0 : data_end p0 = data_end p)
    by (unfold p0, set_ip_check; by mem).
  unfold set_ip_check. rewrite be16_st16 by lia.
  rewrite htons_compl by lia. done.
Qed.

(** X3: on a header without options (ihl = 5) the value that
    [update_ip_checksum] of tcp_fingerprint.c and [ip_checksum] of
    network_shield_original.c store, read in network byte order, is the
    IPv4 header checksum of RFC 1071. *)
Theorem ip_checksum_without_options p iph :
  bytes_ok p = true -> 0 <= iph -> iph + 20 <= data_end p ->
  iph_ihl p iph = 5 ->
  Reference.be16 (TcpFingerprint.update_ip_checksum p iph) (iph + 10)
  = Reference.ip_checksum p iph
  /\ bpf_ntohs (snd (NetworkShield.ip_checksum p iph))
     = Reference.ip_checksum p iph.
Proof.
  intros Hp Hiph Hend Hihl.
  pose proof (update_ip_checksum_reference p iph Hp Hiph Hend Hihl) as Hcode.
  split; [exact Hcode |].
  pose proof (ip_checksum_full p iph Hiph Hend ltac:(lia)) as Hfull.
  assert (Hfst : fst (NetworkShield.ip_checksum p iph) = set_ip_check p iph 0)
    by reflexivity.
  destruct (NetworkShield.ip_checksum p iph) as [p0 check].
  cbn [fst snd] in *. subst p0. rewrite <- Hcode, <- Hfull.
  unfold set_ip_check. rewrite be16_st16; [done | lia | by mem; lia].
Qed.

Lemma ip_checksum_without_options_witness :
  Reference.be16 (TcpFingerprint.update_ip_checksum syn_opts 14) 24
  = Reference.ip_checksum syn_opts 14
  /\ bpf_ntohs (snd (NetworkShield.ip_checksum syn_opts 14))
     = Reference.ip_checksum syn_opts 14.
Proof.
  apply (ip_checksum_without_options syn_opts 14);
    [reflexivity | lia | vm_compute; discriminate | reflexivity].
Defined.
End FullRecomputeReference.


(** * Further properties of the programs *)

(** ** The checksum helpers of tcp_fingerprint.c *)

Lemma fold_once_bound x H :
  1 <= H -> 0 <= x <= 65536 * H + 65534 ->
  TcpFingerprint.fold_once x <= H + 65534.
Proof.
  intros HH Hx. unfold TcpFingerprint.fold_once.
  rewrite land_65535, shiftr_16.
  pose proof (Z.div_mod x 65536 ltac:(lia)) as Hdm.
  pose proof (Z.mod_pos_bound x 65536 ltac:(lia)) as Hm.
  assert (Hq : 0 <= x / 65536) by (apply Z.div_pos; lia).
  case_test; [| lia].
  assert (x / 65536 < H + 1) by (apply Z.div_lt_upper_bound; lia).
  lia.
Qed.

(** X1: the four conditional folds of [csum_fold_helper] are enough for
    every 64-bit accumulator: the result is a 16-bit value, it is the
    one's-complement of the accumulator modulo 65535 (adding it back gives
    a multiple of 65535), and it is 0xFFFF exactly for the accumulator
    0. *)
Theorem csum_fold_helper_folds_any_u64 (csum : Z) :
  0 <= csum < 18446744073709551616 ->
  0 <= TcpFingerprint.csum_fold_helper csum < 65536
  /\ (csum + TcpFingerprint.csum_fold_helper csum) mod 65535 = 0
  /\ (TcpFingerprint.csum_fold_helper csum = 65535 <-> csum = 0).
Proof.
  intros Hx. unfold TcpFingerprint.csum_fold_helper.
  change (Nat.iter 4 TcpFingerprint.fold_once csum)
    with (TcpFingerprint.fold_once
            (TcpFingerprint.fold_once
               (TcpFingerprint.fold_once (TcpFingerprint.fold_once csum)))).
  destruct (fold_once_reduce csum) as (H1 & R1 & _); [lia |].
  pose proof (fold_once_bound csum 281474976710656 ltac:(lia) ltac:(lia)) as B1.
  set (x1 := TcpFingerprint.fold_once csum) in *.
  destruct (fold_once_reduce x1) as (H2 & R2 & _); [lia |].
  pose proof (fold_once_bound x1 4294967296 ltac:(lia) ltac:(lia)) as B2.
  set (x2 := TcpFingerprint.fold_once x1) in *.
  destruct (fold_once_reduce x2) as (H3 & R3 & _); [lia |].
  pose proof (fold_once_bound x2 65536 ltac:(lia) ltac:(lia)) as B3.
  set (x3 := TcpFingerprint.fold_once x2) in *.
  destruct (fold_once_reduce x3) as (H4 & R4 & _); [lia |].
  pose proof (fold_once_bound x3 1 ltac:(lia) ltac:(lia)) as B4.
  set (x4 := TcpFingerprint.fold_once x3) in *.
  assert (Hx4 : x4 = ones_reduce csum).
  { rewrite <- (ones_reduce_small x4) by lia. congruence. }
  rewrite not16_compl by lia. rewrite Hx4.
  pose proof (ones_reduce_range csum ltac:(lia)) as Hr.
  destruct (ones_reduce_mod csum ltac:(lia)) as [k Hk].
  split; [lia |]. split.
  - replace (csum + (65535 - ones_reduce csum)) with ((k + 1) * 65535) by lia.
    apply Z.mod_mul. lia.
  - split.
    + intros Hz. destruct (Z.eq_dec csum 0) as [-> | Hne]; [done |].
      pose proof (ones_reduce_pos csum ltac:(lia)). lia.
    + intros ->. reflexivity.
Qed.

Lemma csum_fold_helper_folds_any_u64_witness :
  TcpFingerprint.csum_fold_helper 18446744073709551615 = 0
  /\ (18446744073709551615 + TcpFingerprint.csum_fold_helper 18446744073709551615)
       mod 65535 = 0.
Proof.
  split; [reflexivity |].
  exact (proj1 (proj2 (csum_fold_helper_folds_any_u64 18446744073709551615
                         ltac:(lia)))).
Defined.

(** X2: a second run of either full-recompute helper changes nothing. *)
Theorem checksum_helpers_are_idempotent (p : packet) (iph tcph : Z) :
  0 <= iph -> iph + 20 <= tcph -> tcph + 20 <= data_end p ->
  TcpFingerprint.update_ip_checksum (TcpFingerprint.update_ip_checksum p iph) iph
  = TcpFingerprint.update_ip_checksum p iph
  /\ TcpFingerprint.update_tcp_checksum
       (TcpFingerprint.update_tcp_checksum p iph tcph) iph tcph
     = TcpFingerprint.update_tcp_checksum p iph tcph.
Proof.
  intros Hiph Htcph Hend. split.
  - apply update_ip_checksum_fix with p; try lia; try done.
    apply data_end_update_ip_checksum.
  - apply update_tcp_checksum_fix with p; try lia; try done.
    + apply data_end_update_tcp_checksum.
    + intros o Ho. apply ld8_update_tcp_checksum; lia.
Qed.

Lemma checksum_helpers_are_idempotent_witness :
  TcpFingerprint.update_ip_checksum
    (TcpFingerprint.update_ip_checksum syn_opts 14) 14
  = TcpFingerprint.update_ip_checksum syn_opts 14.
Proof.
  refine (proj1 (checksum_helpers_are_idempotent syn_opts 14 34 _ _ _));
    [lia | lia | vm_compute; discriminate].
Defined.


(** ** The TCP full recompute against the reference *)

Section TcpReference.
Implicit Types (p : packet) (o iph tcph : Z).

Lemma ld32_halves p o :
  bytes_ok p = true ->
  Z.land (Z.shiftr (ld32 p o) 16) 65535 = ld16 p (o + 2)
  /\ Z.land (ld32 p o) 65535 = ld16 p o.
Proof.
  intros Hp. pose proof (bytes_ok_ld16 p o Hp) as Hlo.
  pose proof (bytes_ok_ld16 p (o + 2) Hp) as Hhi.
  rewrite !land_65535, shiftr_16. unfold ld32.
  assert (Hd : (ld16 p o + 65536 * ld16 p (o + 2)) / 65536 = ld16 p (o + 2))
    by (symmetry; apply (Z.div_unique _ 65536 _ (ld16 p o)); lia).
  rewrite Hd. split.
  - apply Z.mod_small. lia.
  - symmetry. apply (Z.mod_unique _ 65536 (ld16 p (o + 2))); lia.
Qed.

(** The pseudo-header sum of [update_tcp_checksum]: the four address words,
    the protocol and the TCP length, the last two byte-swapped. *)
Lemma pseudo_header_sum_words p iph :
  bytes_ok p = true ->
  TcpFingerprint.pseudo_header_sum p iph
  = word_sum 4 p (iph + 12) + bpf_htons IPPROTO_TCP
    + bpf_htons (u16 (u32 (bpf_ntohs (iph_tot_len p iph)
                           - Z.shiftl (iph_ihl p iph) 2))).
Proof.
  intros Hp. unfold TcpFingerprint.pseudo_header_sum, iph_saddr, iph_daddr.
  cbv zeta.
  destruct (ld32_halves p (iph + 12) Hp) as [-> ->].
  destruct (ld32_halves p (iph + 16) Hp) as [-> ->].
  pose proof (bytes_ok_ld16 p (iph + 12) Hp).
  pose proof (bytes_ok_ld16 p (iph + 12 + 2) Hp).
  pose proof (bytes_ok_ld16 p (iph + 16) Hp).
  pose proof (bytes_ok_ld16 p (iph + 16 + 2) Hp).
  pose proof (htons_range IPPROTO_TCP).
  pose proof (htons_range (u16 (u32 (bpf_ntohs (iph_tot_len p iph)
                                     - Z.shiftl (iph_ihl p iph) 2)))).
  set (len := bpf_htons (u16 (u32 (bpf_ntohs (iph_tot_len p iph)
                                   - Z.shiftl (iph_ihl p iph) 2)))) in *.
  set (proto := bpf_htons IPPROTO_TCP) in *.
  repeat match goal with
         | |- context [u32 ?x] =>
             lazymatch x with
             | context [u32 _] => fail
             | _ => rewrite (u32_small x) by lia
             end
         end.
  cbn [word_sum].
  replace (iph + 12 + 2 + 2) with (iph + 16) by lia.
  lia.
Qed.

(** The value [update_tcp_checksum] stores, read in network byte order:
    the complement of the one's-complement sum, over big-endian words, of
    the pseudo-header (with the TCP length that the IPv4 header declares)
    and the first 20 bytes of the TCP header. *)
Lemma update_tcp_checksum_reference (p : packet) iph tcph :
  bytes_ok p = true -> 0 <= iph -> iph + 20 <= tcph ->
  tcph + 20 <= data_end p ->
  let p0 := set_tcp_check p tcph 0 in
  let tcp_len := u16 (u32 (Reference.be16 p (iph + 2) - iph_ihl p iph * 4)) in
  Reference.be16 (TcpFingerprint.update_tcp_checksum p iph tcph) (tcph + 16)
  = 65535 - ones_reduce (Reference.sum_be 4 p0 (iph + 12) + IPPROTO_TCP
                         + tcp_len + Reference.sum_be 10 p0 tcph).
Proof.
  intros Hp Hiph Htcph Hend p0 tcp_len.
  rewrite update_tcp_checksum_value by (done || lia).
  rewrite <- Z.add_assoc, <- Z.add_assoc.
  rewrite (Z.add_assoc (word_sum 7 p tcph)).
  rewrite <- word_sum_tcp_header by lia.
  fold p0.
  assert (Hp0 : bytes_ok p0 = true) by (by apply bytes_ok_st16).
  assert (Hend0 : data_end p0 = data_end p)
    by (unfold p0, set_tcp_check; by mem).
  rewrite pseudo_header_sum_words by done.
  unfold iph_tot_len. rewrite <- (be16_ntohs p (iph + 2)) by done.
  rewrite shiftl2. fold tcp_len.
  assert (Hlen : 0 <= tcp_len < 65536) by (apply Z.mod_pos_bound; lia).
  pose proof (htons_range tcp_len) as Hhl.
  pose proof (htons_times (bpf_htons tcp_len) Hhl) as Htl.
  rewrite htons_htons in Htl by done.
  assert (Hkl : 0 <= bpf_htons tcp_len / 256) by (apply Z.div_pos; lia).
  change (bpf_htons IPPROTO_TCP) with 1536.
  rewrite (word_sum_ext 4 p p0 (iph + 12)).
  2:{ intros o Ho. unfold p0, set_tcp_check. by mem. }
  unfold IPPROTO_TCP.
  destruct (sum_be_word_sum 4 p0 (iph + 12) Hp0)
    as (Ha & _ & _ & ka & Hka & Ea).
  destruct (sum_be_word_sum 10 p0 tcph Hp0)
    as (Hb & _ & _ & kb & Hkb & Eb).
  pose proof (word_sum_range 4 p0 (iph + 12) Hp0) as HWa.
  pose proof (word_sum_range 10 p0 tcph Hp0) as HWb.
  set (Wa := word_sum 4 p0 (iph + 12)) in *.
  set (Wb := word_sum 10 p0 tcph) in *.
  set (Sa := Reference.sum_be 4 p0 (iph + 12)) in *.
  set (Sb := Reference.sum_be 10 p0 tcph) in *.
  set (hl := bpf_htons tcp_len) in *.
  assert (Hred : ones_reduce (Sa + 6 + tcp_len + Sb)
                 = bpf_htons (ones_reduce (Wa + 1536 + hl + Wb))).
  { rewrite htons_reduce by lia.
    replace (256 * (Wa + 1536 + hl + Wb))
      with (Sa + 6 + tcp_len + Sb + 65535 * (ka + kb + 6 + hl / 256)) by lia.
    symmetry. apply ones_reduce_shift; lia. }
  rewrite Hred.
  pose proof (ones_reduce_range (Wa + 1536 + hl + Wb) ltac:(lia)) as HR.
  unfold set_tcp_check. rewrite be16_st16 by lia.
  by rewrite htons_compl by lia.
Qed.

(** The reference checksum of a segment that is the bare 20-byte TCP
    header. *)
Lemma tcp_segment_checksum_bare (p : packet) iph :
  bytes_ok p = true ->
  Reference.be16 p (iph + 2) = iph_ihl p iph * 4 + 20 ->
  let tcph := iph + iph_ihl p iph * 4 in
  let p0 := set_tcp_check p tcph 0 in
  Reference.tcp_segment_checksum p iph
  = 65535 - ones_reduce (Reference.sum_be 4 p0 (iph + 12) + IPPROTO_TCP
                         + 20 + Reference.sum_be 10 p0 tcph).
Proof.
  intros Hp Hlen tcph p0.
  unfold Reference.tcp_segment_checksum, Reference.ones_complement_checksum.
  fold tcph. rewrite Hlen.
  replace (iph_ihl p iph * 4 + 20 - iph_ihl p iph * 4) with 20 by lia.
  change (Z.to_nat (20 / 2)) with 10%nat.
  change (Reference.put_be16 p (tcph + 16) 0) with (set_tcp_check p tcph 0).
  fold p0.
  assert (Hp0 : bytes_ok p0 = true) by (by apply bytes_ok_st16).
  destruct (sum_be_word_sum 4 p0 (iph + 12) Hp0) as (Ha & _).
  destruct (sum_be_word_sum 10 p0 tcph Hp0) as (Hb & _).
  unfold IPPROTO_TCP in *. by rewrite fold16_done by lia.
Qed.

(** X22: on a segment that consists of the bare 20-byte TCP header (no
    options, no payload) behind an IPv4 header of at least five words,
    [update_tcp_checksum] stores the TCP checksum of the segment as
    RFC 793 defines it: pseudo-header and segment, summed in network byte
    order. *)
Theorem bare_segment_gets_the_tcp_checksum (p : packet) iph :
  bytes_ok p = true -> 0 <= iph -> 5 <= iph_ihl p iph ->
  let tcph := iph + iph_ihl p iph * 4 in
  tcph + 20 <= data_end p ->
  Reference.be16 p (iph + 2) = iph_ihl p iph * 4 + 20 ->
  Reference.be16 (TcpFingerprint.update_tcp_checksum p iph tcph) (tcph + 16)
  = Reference.tcp_segment_checksum p iph.
Proof.
  intros Hp Hiph Hihl tcph Hend Hlen.
  rewrite update_tcp_checksum_reference by (done || (unfold tcph; lia)).
  rewrite tcp_segment_checksum_bare by done. fold tcph.
  rewrite Hlen.
  replace (iph_ihl p iph * 4 + 20 - iph_ihl p iph * 4) with 20 by lia.
  reflexivity.
Qed.

Lemma bare_segment_gets_the_tcp_checksum_witness :
  Reference.be16 (TcpFingerprint.update_tcp_checksum syn_plain 14 34) 50
  = Reference.tcp_segment_checksum syn_plain 14
  /\ Reference.tcp_segment_checksum syn_plain 14 = Reference.be16 syn_plain 50.
Proof.
  split; [| reflexivity].
  apply (bare_segment_gets_the_tcp_checksum syn_plain 14);
    [reflexivity | lia | vm_compute; discriminate | vm_compute; discriminate
    | reflexivity].
Defined.
End TcpReference.


(** ** Running the rewriter twice *)










(** ** What the rewriters of tcp_fingerprint.c leave in the headers *)

Section Postconditions.
Implicit Types (p q : packet) (o iph tcph : Z).

Lemma apply_config_head config p iph tcph p' :
  0 <= iph -> iph <= tcph ->
  TcpFingerprint.apply_config config p iph tcph = Ok p' ->
  data_end p' = data_end p
  /\ forall o, 0 <= o < tcph + 22 ->
       ld8 p' o
       = ld8 (ttl_window (effective_ttl config) (effective_window config)
                p iph tcph) o.
Proof.
  intros Hiph Htcph. unfold TcpFingerprint.apply_config.
  destruct config as [c|]; cbn [effective_ttl effective_window].
  - fold (ttl_window (TcpFingerprint.ttl c) (TcpFingerprint.window_size c)
            p iph tcph).
    pose proof (ttl_window_frame (TcpFingerprint.ttl c)
                  (TcpFingerprint.window_size c) p iph tcph Hiph Htcph)
      as [Hend0 _].
    intros (p3 & [Hend3 H3]%timestamp_stage_frame
            & [Hend4 H4]%mss_stage_frame)%bind_inv; try lia.
    split; [congruence |]. intros o Ho. rewrite H4, H3 by lia. done.
  - cbn zeta. intros [= <-]. split; [| done].
    apply (ttl_window_frame 128 65535 p iph tcph Hiph Htcph).
Qed.

Lemma ttl_window_ttl ttl window_size p iph tcph :
  0 <= iph -> iph + 8 < data_end p -> iph + 8 < tcph + 14 ->
  ld8 (ttl_window ttl window_size p iph tcph) (iph + 8) = ttl mod 256.
Proof.
  intros. unfold ttl_window, set_ip_ttl, set_tcp_window.
  case_test; mem; by rewrite ld8_st8_eq by lia.
Qed.

Lemma ttl_window_window ttl window_size p iph tcph :
  0 <= iph -> iph + 8 < tcph + 13 -> tcph + 16 <= data_end p ->
  ld16 (ttl_window ttl window_size p iph tcph) (tcph + 14)
  = if tcph_syn p tcph && negb (tcph_ack p tcph)
    then bpf_htons window_size
    else ld16 p (tcph + 14).
Proof.
  intros. unfold ttl_window, set_ip_ttl, set_tcp_window, tcph_syn, tcph_ack.
  rewrite !ld8_st8_ne by lia.
  case_test.
  - rewrite ld16_st16_eq by (mem; lia).
    apply Z.mod_small, htons_range.
  - by mem.
Qed.

Lemma tcp_frame_inv p :
  tcp_frame p = true ->
  34 <= data_end p
  /\ (eth_h_proto p 0 =? bpf_htons ETH_P_IP) = true
  /\ (iph_protocol p 14 =? IPPROTO_TCP) = true
  /\ 14 + iph_ihl p 14 * 4 + 20 <= data_end p.
Proof. unfold tcp_frame. intros H. repeat split; lia. Qed.

(** X7: every frame leaves [tcp_fingerprint_xdp] with the verdict XDP_PASS
    and its length; a frame that parses as Ethernet / IPv4 / TCP leaves
    with the configured TTL (128 without a configuration) and, when it is
    a SYN without ACK, with the configured window (65535 without a
    configuration) while any other segment keeps its window; a frame that
    does not parse is not touched. *)
Theorem xdp_rewriter_sets_ttl_and_window
    (config : option TcpFingerprint.tcp_config) p (v : xdp_action) q :
  TcpFingerprint.tcp_fingerprint_xdp config p = Ok (v, q) ->
  v = XDP_PASS /\ data_end q = data_end p
  /\ if tcp_frame p then
       let tcph := 14 + iph_ihl p 14 * 4 in
       iph_ttl q 14 = effective_ttl config mod 256
       /\ tcph_window q tcph
          = if tcph_syn p tcph && negb (tcph_ack p tcph)
            then bpf_htons (effective_window config)
            else tcph_window p tcph
     else q = p.
Proof.
  unfold TcpFingerprint.tcp_fingerprint_xdp, tcp_frame.
  cbv beta iota zeta delta [sizeof_ethhdr sizeof_iphdr sizeof_tcphdr].
  rewrite shiftl2.
  pose proof (ihl_range p 14) as Hihl. change (0 + 14) with 14.
  case_test.
  { intros [= <- <-]. by replace (34 <=? data_end p) with false by lia. }
  case_test.
  { intros [= <- <-]. destruct (eth_h_proto p 0 =? _); [done |].
    by rewrite andb_false_r. }
  case_test.
  { intros [= <- <-]. by replace (34 <=? data_end p) with false by lia. }
  case_test.
  { intros [= <- <-]. destruct (iph_protocol p 14 =? _); [done |].
    by rewrite andb_false_r. }
  case_test.
  { intros [= <- <-].
    replace (14 + iph_ihl p 14 * 4 + 20 <=? data_end p) with false by lia.
    by rewrite andb_false_r. }
  replace (34 <=? data_end p) with true by lia.
  replace (14 + iph_ihl p 14 * 4 + 20 <=? data_end p) with true by lia.
  destruct (eth_h_proto p 0 =? _); [| done].
  destruct (iph_protocol p 14 =? _); [| done]. cbn [andb negb].
  set (tcph := 14 + iph_ihl p 14 * 4).
  intros (p' & [Hend' Hhead]%apply_config_head & [= <- <-])%bind_inv;
    [| lia | lia].
  split; [done |].
  split.
  { by rewrite data_end_update_tcp_checksum, data_end_update_ip_checksum. }
  cbv zeta. split.
  - unfold iph_ttl.
    rewrite ld8_update_tcp_checksum, ld8_update_ip_checksum by lia.
    rewrite Hhead by lia. apply ttl_window_ttl; lia.
  - unfold tcph_window.
    rewrite <- (ttl_window_window (effective_ttl config)
                  (effective_window config) p 14 tcph) by lia.
    apply ld16_ext;
      rewrite ld8_update_tcp_checksum, ld8_update_ip_checksum by lia;
      apply Hhead; lia.
Qed.

Lemma xdp_rewriter_sets_ttl_and_window_witness :
  exists q,
    TcpFingerprint.tcp_fingerprint_xdp (Some windows_config) syn_opts
    = Ok (XDP_PASS, q)
    /\ iph_ttl q 14 = 128 /\ tcph_window q 34 = bpf_htons 65535.
Proof.
  destruct (TcpFingerprint.tcp_fingerprint_xdp (Some windows_config) syn_opts)
    as [[v q]|] eqn:Hrun; [| vm_compute in Hrun; discriminate].
  destruct (xdp_rewriter_sets_ttl_and_window (Some windows_config) syn_opts
              v q Hrun) as (-> & _ & H).
  exists q. split; [reflexivity |]. exact H.
Defined.

(** *** The TC variant *)

Lemma u32_lnot s : 0 <= s < 65536 -> u32 (Z.lnot s) = 4294967295 - s.
Proof.
  intros Hs. unfold u32, Z.lnot.
  rewrite <- (Z.mod_add _ 1) by lia. rewrite Z.mod_small by lia. lia.
Qed.

(** A checksum replaced "by a difference of zero" keeps its value; only
    the representation 0xFFFF of zero becomes 0x0000. *)
Lemma csum_replace_by_zero_diff s :
  0 <= s < 65536 ->
  Kernel.csum_replace_by_diff s (u32 0)
  = if s =? 65535 then 0 else s.
Proof.
  intros Hs. unfold Kernel.csum_replace_by_diff, Kernel.csum_add.
  change (u32 0) with 0. rewrite u32_lnot by done.
  rewrite (u32_small (0 + _)) by lia.
  replace (0 + (4294967295 - s) <? 4294967295 - s) with false by lia.
  rewrite u32_small by lia.
  unfold Kernel.csum_fold. rewrite !land_65535, !shiftr_16.
  replace (0 + (4294967295 - s) + 0) with (4294967295 - s) by lia.
  assert (Hm : (4294967295 - s) mod 65536 = 65535 - s)
    by (symmetry; apply (Z.mod_unique _ 65536 65535); lia).
  assert (Hd : (4294967295 - s) / 65536 = 65535)
    by (symmetry; apply (Z.div_unique _ 65536 65535 (65535 - s)); lia).
  rewrite Hm, Hd.
  case_test.
  - assert (s = 65535) by lia. subst s. reflexivity.
  - assert (Hm' : (65535 - s + 65535) mod 65536 = 65534 - s)
      by (symmetry; apply (Z.mod_unique _ 65536 1); lia).
    assert (Hd' : (65535 - s + 65535) / 65536 = 1)
      by (symmetry; apply (Z.div_unique _ 65536 1 (65534 - s)); lia).
    rewrite Hm', Hd'. rewrite not16_compl by lia. lia.
Qed.

(** X9: [tcp_fingerprint_tc] edits the TTL (and the window of every SYN,
    ACK or not) but repairs no checksum: its call of
    [bpf_l3_csum_replace] carries a zero difference, so the IPv4 checksum
    field keeps its value (0xFFFF is rewritten as 0x0000, the same
    one's-complement number) and the TCP checksum field is not written at
    all; without a configuration the frame is not touched. *)
Theorem tc_rewriter_leaves_checksums_stale
    (config : TcpFingerprint.tcp_config) p :
  bytes_ok p = true -> tcp_frame p = true ->
  let tcph := 14 + iph_ihl p 14 * 4 in
  let q := snd (TcpFingerprint.tcp_fingerprint_tc (Some config) p) in
  iph_ttl q 14 = TcpFingerprint.ttl config mod 256
  /\ tcph_window q tcph
     = (if tcph_syn p tcph
        then bpf_htons (TcpFingerprint.window_size config)
        else tcph_window p tcph)
  /\ iph_check q 14 = (if iph_check p 14 =? 65535 then 0 else iph_check p 14)
  /\ tcph_check q tcph = tcph_check p tcph
  /\ TcpFingerprint.tcp_fingerprint_tc None p = (TC_ACT_OK, p).
Proof.
  intros Hp (Hlen & Heth & Hproto & Htcp)%tcp_frame_inv tcph q.
  pose proof (ihl_range p 14) as Hihl.
  pose proof (bytes_ok_ld16 p 24 Hp) as Hrange.
  set (p1 := if tcph_syn p tcph
             then set_tcp_window (set_ip_ttl p 14 (TcpFingerprint.ttl config))
                    tcph (bpf_htons (TcpFingerprint.window_size config))
             else set_ip_ttl p 14 (TcpFingerprint.ttl config)).
  assert (Hend1 : data_end p1 = data_end p).
  { unfold p1, set_tcp_window, set_ip_ttl. case_test; by mem. }
  assert (Hparse : forall config',
             TcpFingerprint.tcp_fingerprint_tc config' p
             = match config' with
               | None => (TC_ACT_OK, p)
               | Some config =>
                   let p := set_ip_ttl p 14 (TcpFingerprint.ttl config) in
                   let p := if tcph_syn p tcph
                            then set_tcp_window p tcph
                                   (bpf_htons (TcpFingerprint.window_size config))
                            else p in
                   (TC_ACT_OK, Kernel.bpf_l3_csum_replace p 24 0 0 0)
               end).
  { intros config'. unfold TcpFingerprint.tcp_fingerprint_tc.
    cbv beta iota zeta delta [sizeof_ethhdr sizeof_iphdr sizeof_tcphdr].
    rewrite shiftl2. change (0 + 14) with 14. fold tcph.
    replace (14 >? data_end p) with false by lia.
    replace (14 + 20 >? data_end p) with false by lia.
    replace (tcph + 20 >? data_end p) with false by (unfold tcph; lia).
    by rewrite Heth, Hproto. }
  assert (Hq : q = st16 p1 24 (Kernel.csum_replace_by_diff (ld16 p1 24) (u32 0))).
  { unfold q. rewrite Hparse. cbv zeta. cbn [snd].
    unfold tcph_syn at 1, set_ip_ttl at 1.
    rewrite ld8_st8_ne by (unfold tcph; lia).
    fold (tcph_syn p tcph). fold p1.
    unfold Kernel.bpf_l3_csum_replace, Kernel.offset_ok.
    replace (24 + 2 <=? data_end p1) with true by lia.
    reflexivity. }
  clearbody q. subst q.
  assert (H22 : ld8 p1 22 = TcpFingerprint.ttl config mod 256).
  { unfold p1, set_tcp_window, set_ip_ttl. replace (14 + 8) with 22 by lia.
    case_test; rewrite ?ld8_st16_ne by (unfold tcph; lia);
      by rewrite ld8_st8_eq by lia. }
  assert (Hcheck : ld16 p1 24 = ld16 p 24).
  { unfold p1, set_tcp_window, set_ip_ttl. unfold tcph. case_test; by mem. }
  assert (Hwin : ld16 p1 (tcph + 14)
                 = if tcph_syn p tcph
                   then bpf_htons (TcpFingerprint.window_size config)
                   else ld16 p (tcph + 14)).
  { unfold p1, set_tcp_window, set_ip_ttl. unfold tcph. case_test.
    - rewrite ld16_st16_eq by (mem; lia). apply Z.mod_small, htons_range.
    - by mem. }
  assert (Htc : ld16 p1 (tcph + 16) = ld16 p (tcph + 16)).
  { unfold p1, set_tcp_window, set_ip_ttl. unfold tcph. case_test; by mem. }
  unfold iph_ttl, tcph_window, iph_check, tcph_check.
  replace (14 + 8) with 22 by lia. replace (14 + 10) with 24 by lia.
  split; [by rewrite ld8_st16_ne by lia |].
  split; [rewrite ld16_st16_ne by (unfold tcph; lia); exact Hwin |].
  split.
  { rewrite ld16_st16_eq by lia. rewrite Hcheck.
    rewrite csum_replace_by_zero_diff by lia.
    case_test; [done |]. apply Z.mod_small. lia. }
  split; [rewrite ld16_st16_ne by (unfold tcph; lia); exact Htc |].
  apply (Hparse None).
Qed.

Lemma tc_rewriter_leaves_checksums_stale_witness :
  iph_ttl (snd (TcpFingerprint.tcp_fingerprint_tc (Some windows_config)
                  syn_opts)) 14 = 128
  /\ iph_check (snd (TcpFingerprint.tcp_fingerprint_tc (Some windows_config)
                       syn_opts)) 14
     = iph_check syn_opts 14.
Proof.
  destruct (tc_rewriter_leaves_checksums_stale windows_config syn_opts)
    as (Httl & _ & Hcheck & _); [reflexivity | reflexivity |].
  split; [exact Httl | exact Hcheck].
Defined.
End Postconditions.


(** ** Timestamp aging *)

Section TimestampAging.
Import TcpFingerprint.
Implicit Types (p q : packet) (o opts tcph i j : Z).

Lemma bytes4 a b c d :
  0 <= a < 256 -> 0 <= b < 256 -> 0 <= c < 256 -> 0 <= d < 256 ->
  let x := a + 256 * b + 65536 * c + 16777216 * d in
  x mod 256 = a /\ (x / 256) mod 256 = b /\ (x / 65536) mod 256 = c
  /\ (x / 16777216) mod 256 = d.
Proof.
  intros Ha Hb Hc Hd x. subst x.
  assert (H1 : (a + 256 * b + 65536 * c + 16777216 * d) / 256
               = b + 256 * c + 65536 * d)
    by (symmetry; apply (Z.div_unique _ 256 _ a); lia).
  assert (H2 : (a + 256 * b + 65536 * c + 16777216 * d) / 65536
               = c + 256 * d)
    by (symmetry; apply (Z.div_unique _ 65536 _ (a + 256 * b)); lia).
  assert (H3 : (a + 256 * b + 65536 * c + 16777216 * d) / 16777216 = d)
    by (symmetry; apply (Z.div_unique _ 16777216 _ (a + 256 * b + 65536 * c));
        lia).
  rewrite H1, H2, H3. repeat split; symmetry.
  - apply (Z.mod_unique _ 256 (b + 256 * c + 65536 * d)); lia.
  - apply (Z.mod_unique _ 256 (c + 256 * d)); lia.
  - apply (Z.mod_unique _ 256 d); lia.
  - apply (Z.mod_unique _ 256 0); lia.
Qed.

Lemma be32_ntohl p o :
  bytes_ok p = true -> be32 p o = bpf_ntohl (ld32 p o).
Proof.
  intros Hp.
  pose proof (bytes_ok_ld8 p o Hp) as H0.
  pose proof (bytes_ok_ld8 p (o + 1) Hp) as H1.
  pose proof (bytes_ok_ld8 p (o + 2) Hp) as H2.
  pose proof (bytes_ok_ld8 p (o + 2 + 1) Hp) as H3.
  unfold be32, Reference.be16, bpf_ntohl, bpf_htonl, ld32, ld16.
  destruct (bytes4 _ _ _ _ H0 H1 H2 H3) as (E0 & E1 & E2 & E3).
  replace (ld8 p o + 256 * ld8 p (o + 1)
           + 65536 * (ld8 p (o + 2) + 256 * ld8 p (o + 2 + 1)))
    with (ld8 p o + 256 * ld8 p (o + 1) + 65536 * ld8 p (o + 2)
          + 16777216 * ld8 p (o + 2 + 1)) by lia.
  rewrite E0, E1, E2, E3. lia.
Qed.

(** The four bytes of a 32-bit value. *)
Lemma u32_bytes x :
  0 <= x < 4294967296 ->
  exists a b c d,
    0 <= a < 256 /\ 0 <= b < 256 /\ 0 <= c < 256 /\ 0 <= d < 256
    /\ x = a + 256 * b + 65536 * c + 16777216 * d.
Proof.
  intros Hx.
  exists (x mod 256), ((x / 256) mod 256), ((x / 65536) mod 256),
    (x / 16777216).
  pose proof (Z.div_mod x 256 ltac:(lia)).
  pose proof (Z.div_mod (x / 256) 256 ltac:(lia)).
  pose proof (Z.div_mod (x / 256 / 256) 256 ltac:(lia)).
  rewrite !Z.div_div in * by lia.
  change (256 * 256) with 65536 in *. change (65536 * 256) with 16777216 in *.
  pose proof (Z.mod_pos_bound x 256 ltac:(lia)).
  pose proof (Z.mod_pos_bound (x / 256) 256 ltac:(lia)).
  pose proof (Z.mod_pos_bound (x / 65536) 256 ltac:(lia)).
  assert (0 <= x / 16777216) by (apply Z.div_pos; lia).
  assert (x / 16777216 < 256) by (apply Z.div_lt_upper_bound; lia).
  repeat split; lia.
Qed.

Lemma htonl_bytes a b c d :
  0 <= a < 256 -> 0 <= b < 256 -> 0 <= c < 256 -> 0 <= d < 256 ->
  bpf_htonl (a + 256 * b + 65536 * c + 16777216 * d)
  = d + 256 * c + 65536 * b + 16777216 * a.
Proof.
  intros Ha Hb Hc Hd. unfold bpf_htonl.
  destruct (bytes4 a b c d Ha Hb Hc Hd) as (E0 & E1 & E2 & E3).
  rewrite E0, E1, E2, E3. lia.
Qed.

Lemma be32_st32_htonl p o x :
  0 <= o -> o + 3 < data_end p -> 0 <= x < 4294967296 ->
  be32 (st32 p o (bpf_htonl x)) o = x.
Proof.
  intros Ho Hend Hx.
  destruct (u32_bytes x Hx) as (a & b & c & d & Ha & Hb & Hc & Hd & ->).
  rewrite htonl_bytes by done.
  destruct (bytes4 d c b a Hd Hc Hb Ha) as (E0 & E1 & E2 & E3).
  assert (E2' : (d + 256 * c + 65536 * b + 16777216 * a) / 65536 / 256 mod 256
                = a).
  { rewrite Z.div_div by lia. exact E3. }
  unfold be32, Reference.be16, st32.
  replace (o + 2 + 1) with (o + 3) by lia.
  rewrite (ld8_st16_ne _ (o + 2) _ o), (ld8_st16_ne _ (o + 2) _ (o + 1)) by lia.
  rewrite ld8_st16_lo, ld8_st16_hi by lia.
  replace (o + 3) with (o + 2 + 1) by lia.
  rewrite ld8_st16_lo, ld8_st16_hi by (mem; lia).
  rewrite E0, E1, E2, E2'. lia.
Qed.

Lemma ld8_st32_ne p o v o' :
  0 <= o -> 0 <= o' -> ~ (o <= o' <= o + 3) ->
  ld8 (st32 p o v) o' = ld8 p o'.
Proof. intros. unfold st32. by mem. Qed.

(** The timestamp loop against the option records: it ages the first
    timestamp option, when that option lies inside the option area, and
    edits nothing else. *)
Lemma ts_walk_spec fuel config len p opts i q :
  0 <= opts -> 0 <= i -> 20 < len <= 60 -> opts + (len - 20) <= data_end p ->
  ts_walk fuel config len p opts (opts + (len - 20)) i = Ok q ->
  match find_option 8 fuel p opts (len - 20) i with
  | Some j =>
      i <= j
      /\ q = if j + 9 <? len - 20
             then st32 p (opts + j + 2)
                    (bpf_htonl (u32 (bpf_ntohl (ld32 p (opts + j + 2))
                                     + timestamp_offset config)))
             else p
  | None => q = p
  end.
Proof.
  intros Hopts Hi Hlen Hend. revert i Hi.
  induction fuel as [|fuel IH]; intros i Hi; cbn [ts_walk find_option];
    [by intros [= <-] |].
  destruct (negb ((i <? 40) && (opts + i <? opts + (len - 20)))) eqn:Hloop.
  { replace (i <? len - 20) with false by lia. by intros [= <-]. }
  replace (i <? len - 20) with true by lia.
  rewrite (load8_ok p (opts + i)) by lia. cbn [mbind outcome_bind].
  case_test; [by intros [= <-] |].
  case_test.
  { intros Hrun%IH; [| lia].
    destruct (find_option _ _ _ _ _ _) as [j'|]; [| done].
    destruct Hrun as [Hj' ->]. split; [lia | done]. }
  destruct (ld8 p (opts + i) =? 8) eqn:Hkind; cbn [andb].
  - (* a timestamp option *)
    destruct (i + 9 <? len - 20) eqn:Hroom; cbn [andb].
    + replace (opts + i + 2 + 4 <=? data_end p) with true by lia.
      intros [= <-]. split; [lia | done].
    + intros (l & [Hl ->]%load8_inv & Hrun)%bind_inv. revert Hrun.
      case_test; [intros [= <-]; split; [lia | done] |].
      intros Hrun%IH; [| lia]. split; [lia |].
      destruct (find_option _ _ _ _ _ _) as [j'|]; [| done].
      destruct Hrun as [Hj' ->]. by replace (j' + 9 <? len - 20) with false by lia.
  - intros (l & [Hl ->]%load8_inv & Hrun)%bind_inv. revert Hrun.
    case_test; [by intros [= <-] |].
    replace (i + (ld8 p (opts + i + 1) - 1) + 1) with (i + ld8 p (opts + i + 1))
      by lia.
    intros Hrun%IH; [| lia].
    destruct (find_option _ _ _ _ _ _) as [j'|]; [| done].
    destruct Hrun as [Hj' ->]. split; [lia | done].
Qed.

Lemma timestamp_option_unfold p tcph :
  timestamp_option p tcph
  = find_option 8 walk_fuel p (tcph + 20) (option_area_len p tcph) 0.
Proof. reflexivity. Qed.

(** X8: with a nonzero timestamp offset configured, the timestamp block
    of [tcp_fingerprint_xdp] adds the offset, modulo 2^32, to the value of
    the first timestamp option (read and written in network byte order)
    and changes no other byte; it does so on every TCP segment, SYN or
    not. *)
Theorem timestamp_aging_adds_the_offset
    (config : tcp_config) p tcph j q :
  0 <= tcph -> bytes_ok p = true ->
  timestamp_offset config <> 0 ->
  tcph + 20 + option_area_len p tcph <= data_end p ->
  timestamp_stage config p tcph = Ok q ->
  timestamp_option p tcph = Some j -> j + 10 <= option_area_len p tcph ->
  tsval q tcph j = (tsval p tcph j + timestamp_offset config) mod 4294967296
  /\ data_end q = data_end p
  /\ (forall o, 0 <= o ->
                ~ (tcph + 20 + j + 2 <= o <= tcph + 20 + j + 5) ->
                ld8 q o = ld8 p o).
Proof.
  intros Htcph Hp Hoff Hend Hrun Hfind Hroom.
  rewrite timestamp_option_unfold in Hfind.
  pose proof (find_option_bound _ _ _ _ _ _ _ Hfind) as Hj.
  destruct (hdr_len_range p tcph) as [Hu8 Hlen].
  unfold option_area_len in *. rewrite Hu8 in *.
  revert Hrun. unfold timestamp_stage. rewrite Hu8.
  replace (negb (timestamp_offset config =? 0)) with true by lia.
  case_test; [| lia]. case_test; [| lia].
  replace (tcph + tcph_doff p tcph * 4)
    with (tcph + 20 + (tcph_doff p tcph * 4 - 20)) by lia.
  intros Hrun%ts_walk_spec; try lia.
  rewrite Hfind in Hrun. destruct Hrun as [_ ->].
  replace (j + 9 <? tcph_doff p tcph * 4 - 20) with true by lia.
  unfold tsval. split; [| split].
  - rewrite be32_st32_htonl by (try apply u32_range; lia).
    by rewrite (be32_ntohl p) by done.
  - unfold st32. by mem.
  - intros o Ho Hout. apply ld8_st32_ne; lia.
Qed.

Lemma timestamp_aging_adds_the_offset_witness :
  exists q,
    timestamp_stage aging_config ack_opts 34 = Ok q
    /\ tsval ack_opts 34 2 = 1234567 /\ tsval q 34 2 = 1235567.
Proof.
  destruct (timestamp_stage aging_config ack_opts 34) as [q|] eqn:Hq;
    [| vm_compute in Hq; discriminate].
  exists q. split; [reflexivity |]. split; [reflexivity |].
  destruct (timestamp_aging_adds_the_offset aging_config ack_opts 34 2 q)
    as (H & _).
  - lia.
  - reflexivity.
  - cbn. lia.
  - vm_compute. discriminate.
  - exact Hq.
  - vm_compute. reflexivity.
  - vm_compute. discriminate.
  - rewrite H. reflexivity.
Defined.
End TimestampAging.


(** ** A second pass of [network_shield_xdp] *)

Section ShieldTwice.
Import NetworkShield.
Implicit Types (p q : packet) (sig : os_signature).

Lemma signature_range n sig :
  signature_at n = Ok sig ->
  0 <= ttl sig < 256 /\ 0 <= tcp_window sig < 65536.
Proof.
  unfold signature_at.
  destruct (signatures !! Z.to_nat n) as [s|] eqn:E; [| discriminate].
  case_test; [| discriminate]. intros [= <-].
  destruct (Z.to_nat n) as [|[|[|k]]]; cbn in E; try discriminate;
    injection E as <-; cbn; lia.
Qed.

Lemma rewrite_ttl_ttl sig p :
  0 <= ttl sig < 256 -> 34 <= data_end p ->
  iph_ttl (rewrite_ttl sig p 14) 14 = ttl sig.
Proof.
  intros Hsig Hend.
  unfold rewrite_ttl, ip_checksum, set_ip_check, set_ip_ttl, iph_ttl.
  case_test.
  - rewrite !ld8_st16_ne by lia. rewrite ld8_st8_eq by lia.
    apply Z.mod_small. lia.
  - unfold iph_ttl in *. lia.
Qed.

Lemma rewrite_ttl_fix sig p :
  iph_ttl p 14 = ttl sig -> rewrite_ttl sig p 14 = p.
Proof.
  intros H. unfold rewrite_ttl. by replace (iph_ttl p 14 =? ttl sig) with true by lia.
Qed.

(** The window edit with its checksum update, as [network_shield_xdp]
    runs it on a TCP segment at [tcph]. *)
Lemma window_edit_fix sig p tcph q :
  0 <= tcph -> tcph + 20 <= data_end p -> 0 <= tcp_window sig < 65536 ->
  q = (if tcph_syn p tcph && negb (tcph_ack p tcph) then
         if negb (tcph_window p tcph =? bpf_htons (tcp_window sig)) then
           update_tcp_checksum
             (set_tcp_window p tcph (bpf_htons (tcp_window sig))) tcph
             (bpf_ntohs (tcph_window p tcph))
             (bpf_ntohs (bpf_htons (tcp_window sig)))
         else p
       else p) ->
  (if tcph_syn q tcph && negb (tcph_ack q tcph) then
     if negb (tcph_window q tcph =? bpf_htons (tcp_window sig)) then
       update_tcp_checksum
         (set_tcp_window q tcph (bpf_htons (tcp_window sig))) tcph
         (bpf_ntohs (tcph_window q tcph))
         (bpf_ntohs (bpf_htons (tcp_window sig)))
     else q
   else q) = q.
Proof.
  intros Htcph Hend Hwin Hq.
  assert (Hflags : ld8 q (tcph + 13) = ld8 p (tcph + 13)).
  { subst q. repeat case_test; try done.
    rewrite ld8_incremental_tcp_checksum by lia.
    unfold set_tcp_window. by mem. }
  unfold tcph_syn, tcph_ack in *. rewrite Hflags.
  destruct (Z.testbit (ld8 p (tcph + 13)) 1
            && negb (Z.testbit (ld8 p (tcph + 13)) 4)); [| done].
  assert (Hw : tcph_window q tcph = bpf_htons (tcp_window sig)).
  { subst q. case_test; [| lia].
    unfold tcph_window, update_tcp_checksum, set_tcp_check, set_tcp_window.
    rewrite ld16_st16_ne by lia. rewrite ld16_st16_eq by lia.
    apply Z.mod_small, htons_range. }
  rewrite Hw. by rewrite Z.eqb_refl.
Qed.

(** X10: [network_shield_xdp] is idempotent: run on its own output, with
    the same persona, it changes nothing. *)
Theorem network_shield_xdp_second_pass
    (persona_ptr : option Z) p (v : xdp_action) q :
  network_shield_xdp persona_ptr p = Ok (v, q) ->
  network_shield_xdp persona_ptr q = Ok (XDP_PASS, q).
Proof.
  intros Hrun. pose proof (ihl_range p 14) as Hihl.
  pose proof Hrun as Hfirst. revert Hrun. unfold network_shield_xdp at 1.
  cbv beta iota zeta delta [sizeof_ethhdr sizeof_iphdr sizeof_tcphdr].
  change (0 + 14) with 14.
  destruct (14 >? data_end p) eqn:H14.
  { intros [= <- <-]. exact Hfirst. }
  destruct (negb (eth_h_proto p 0 =? bpf_htons ETH_P_IP)) eqn:Heth.
  { intros [= <- <-]. exact Hfirst. }
  destruct (14 + 20 >? data_end p) eqn:H34.
  { intros [= <- <-]. exact Hfirst. }
  destruct (signature_at (resolve_persona persona_ptr)) as [sig|] eqn:Hsig;
    [| discriminate].
  cbn [mbind outcome_bind].
  destruct (signature_range _ _ Hsig) as [Httl Hwin].
  set (p1 := rewrite_ttl sig p 14).
  assert (Hend1 : data_end p1 = data_end p) by apply data_end_rewrite_ttl.
  assert (Hihl1 : iph_ihl p1 14 = iph_ihl p 14).
  { unfold iph_ihl, p1. by rewrite ld8_rewrite_ttl by lia. }
  assert (Httl1 : iph_ttl p1 14 = ttl sig) by (apply rewrite_ttl_ttl; lia).
  assert (Heth1 : eth_h_proto p1 0 = eth_h_proto p 0).
  { unfold eth_h_proto, p1. apply ld16_ext; by rewrite ld8_rewrite_ttl by lia. }
  (* a second pass over a packet that agrees with [p1] on the IPv4 header *)
  assert (Hagain : forall q',
             data_end q' = data_end p1 ->
             (forall o, 0 <= o < 24 -> ld8 q' o = ld8 p1 o) ->
             network_shield_xdp persona_ptr q'
             = if iph_protocol p1 14 =? IPPROTO_TCP then
                 let tcph := 14 + iph_ihl p1 14 * 4 in
                 if tcph + 20 >? data_end p1 then Ok (XDP_PASS, q')
                 else
                   Ok (XDP_PASS,
                       if tcph_syn q' tcph && negb (tcph_ack q' tcph) then
                         if negb (tcph_window q' tcph
                                  =? bpf_htons (tcp_window sig)) then
                           update_tcp_checksum
                             (set_tcp_window q' tcph
                                (bpf_htons (tcp_window sig))) tcph
                             (bpf_ntohs (tcph_window q' tcph))
                             (bpf_ntohs (bpf_htons (tcp_window sig)))
                         else q'
                       else q')
               else Ok (XDP_PASS, q')).
  { intros q' Hend' Hsame. unfold network_shield_xdp.
    cbv beta iota zeta delta [sizeof_ethhdr sizeof_iphdr sizeof_tcphdr].
    change (0 + 14) with 14.
    replace (14 >? data_end q') with false by lia.
    replace (14 + 20 >? data_end q') with false by lia.
    assert (Heth' : eth_h_proto q' 0 = eth_h_proto p 0).
    { rewrite <- Heth1. unfold eth_h_proto. apply ld16_ext; apply Hsame; lia. }
    rewrite Heth', Heth, Hsig. cbn [mbind outcome_bind].
    assert (Httl' : iph_ttl q' 14 = ttl sig).
    { rewrite <- Httl1. unfold iph_ttl. apply Hsame. lia. }
    rewrite (rewrite_ttl_fix sig q' Httl').
    assert (Hproto' : iph_protocol q' 14 = iph_protocol p1 14)
      by (unfold iph_protocol; apply Hsame; lia).
    assert (Hihl' : iph_ihl q' 14 = iph_ihl p1 14)
      by (unfold iph_ihl; f_equal; apply Hsame; lia).
    rewrite Hproto', Hihl', Hend'. cbv zeta.
    repeat case_test; reflexivity. }
  rewrite Hihl1 in Hagain.
  rewrite Hihl1.
  set (tcph := 14 + iph_ihl p 14 * 4) in *.
  destruct (iph_protocol p1 14 =? IPPROTO_TCP) eqn:Hproto.
  2:{ intros [= <- <-]. by rewrite Hagain. }
  destruct (tcph + 20 >? data_end p1) eqn:Hfit.
  { intros [= <- <-]. rewrite Hagain by done. cbv zeta. by rewrite Hfit. }
  intros [= <- Hq]. symmetry in Hq.
  assert (Hendq : data_end q = data_end p1).
  { subst q. repeat case_test; try done.
    rewrite data_end_incremental_tcp_checksum. unfold set_tcp_window. by mem. }
  assert (Hsameq : forall o, 0 <= o < 24 -> ld8 q o = ld8 p1 o).
  { intros o Ho. subst q. repeat case_test; try done.
    rewrite ld8_incremental_tcp_checksum by (unfold tcph; lia).
    unfold set_tcp_window. unfold tcph. by mem. }
  rewrite (Hagain q Hendq Hsameq). cbv zeta. rewrite Hfit.
  do 2 f_equal.
  apply (window_edit_fix sig p1 tcph q); [unfold tcph; lia | lia | done | done].
Qed.

Lemma network_shield_xdp_second_pass_witness :
  exists q,
    network_shield_xdp (Some PERSONA_WINDOWS) syn_opts = Ok (XDP_PASS, q)
    /\ q <> syn_opts
    /\ network_shield_xdp (Some PERSONA_WINDOWS) q = Ok (XDP_PASS, q).
Proof.
  destruct (network_shield_xdp (Some PERSONA_WINDOWS) syn_opts)
    as [[v q]|] eqn:Hrun; [| vm_compute in Hrun; discriminate].
  exists q.
  pose proof (network_shield_xdp_second_pass _ _ _ _ Hrun) as Hsecond.
  assert (Hv : v = XDP_PASS /\ q <> syn_opts).
  { vm_compute in Hrun. injection Hrun as <- <-. split; [done | discriminate]. }
  destruct Hv as [-> Hne]. split; [reflexivity |]. split; [exact Hne | exact Hsecond].
Defined.

(** X21: both programs of network_shield_original.c always pass the frame
    on with its length; every IPv4 frame of 34 bytes or more, whatever its
    protocol, leaves with the TTL of the persona's signature; the TC
    program changes no byte besides the TTL and the two bytes of the IPv4
    checksum, and does not touch any other frame. *)
Theorem network_shield_sets_the_persona_ttl
    (persona_ptr : option Z) p (v : tc_action) q :
  network_shield_tc persona_ptr p = Ok (v, q) ->
  v = TC_ACT_OK /\ data_end q = data_end p
  /\ (if (34 <=? data_end p) && (eth_h_proto p 0 =? bpf_htons ETH_P_IP) then
        (exists sig, signature_at (resolve_persona persona_ptr) = Ok sig
                     /\ iph_ttl q 14 = ttl sig)
        /\ (forall o, 0 <= o -> o <> 22 -> o <> 24 -> o <> 25 ->
                      ld8 q o = ld8 p o)
      else q = p)
  /\ (forall v' q', network_shield_xdp persona_ptr p = Ok (v', q') ->
                    v' = XDP_PASS /\ iph_ttl q' 14 = iph_ttl q 14).
Proof.
  pose proof (ihl_range p 14) as Hihl.
  unfold network_shield_tc, network_shield_xdp.
  cbv beta iota zeta delta [sizeof_ethhdr sizeof_iphdr sizeof_tcphdr].
  change (0 + 14) with 14.
  destruct (14 >? data_end p) eqn:H14.
  { replace (34 <=? data_end p) with false by lia.
    intros [= <- <-]. split; [done |]. split; [done |]. split; [done |].
    by intros v' q' [= <- <-]. }
  destruct (eth_h_proto p 0 =? bpf_htons ETH_P_IP) eqn:Heth; cbn [negb].
  2:{ rewrite andb_false_r.
      intros [= <- <-]. split; [done |]. split; [done |]. split; [done |].
    by intros v' q' [= <- <-]. }
  destruct (14 + 20 >? data_end p) eqn:H34.
  { replace (34 <=? data_end p) with false by lia.
    intros [= <- <-]. split; [done |]. split; [done |]. split; [done |].
    by intros v' q' [= <- <-]. }
  replace (34 <=? data_end p) with true by lia. cbn [andb].
  destruct (signature_at (resolve_persona persona_ptr)) as [sig|] eqn:Hsig;
    [| discriminate].
  cbn [mbind outcome_bind]. intros [= <- <-].
  destruct (signature_range _ _ Hsig) as [Httl Hwin].
  set (p1 := rewrite_ttl sig p 14).
  assert (Httl1 : iph_ttl p1 14 = ttl sig) by (apply rewrite_ttl_ttl; lia).
  split; [done |]. split; [apply data_end_rewrite_ttl |]. split.
  { split; [by exists sig |].
    intros o Ho H22 H24 H25. apply ld8_rewrite_ttl; lia. }
  intros v' q'.
  assert (Hihl1 : 0 <= iph_ihl p1 14) by apply ihl_range.
  repeat case_test; intros [= <- <-]; (split; [done |]); try done;
    unfold iph_ttl; change (14 + 8) with 22;
    rewrite ?ld8_incremental_tcp_checksum by lia;
    unfold set_tcp_window; by mem.
Qed.

Lemma network_shield_sets_the_persona_ttl_witness :
  exists q,
    network_shield_tc (Some PERSONA_WINDOWS) dns_query = Ok (TC_ACT_OK, q)
    /\ iph_protocol dns_query 14 = IPPROTO_UDP
    /\ iph_ttl dns_query 14 = 64 /\ iph_ttl q 14 = 128.
Proof.
  destruct (network_shield_tc (Some PERSONA_WINDOWS) dns_query)
    as [[v q]|] eqn:Hrun; [| vm_compute in Hrun; discriminate].
  destruct (network_shield_sets_the_persona_ttl _ _ _ _ Hrun)
    as (-> & _ & [(sig & Hsig & Httl) _] & _).
  exists q. split; [reflexivity |]. split; [reflexivity |].
  split; [reflexivity |].
  rewrite Httl. vm_compute in Hsig. by injection Hsig as <-.
Defined.
End ShieldTwice.


(** ** The TTL-only rewriters *)

Section TtlRewriters.
Implicit Types (p q : packet) (o : Z).

(** X20: [xdp_outbound_masking] always passes the frame and keeps its
    length.  An IPv4 frame of 34 bytes or more leaves with TTL 64 and
    identification 0, whatever its protocol; its checksum field is zeroed,
    not recomputed, except on a TCP packet cut before the end of the TCP
    header, where it is left as it was; no other byte changes.  Any other
    frame is not touched.  A second run changes nothing. *)
Theorem xdp_outbound_masking_normalises p :
  let q := snd (XdpOutbound.xdp_outbound_masking p) in
  fst (XdpOutbound.xdp_outbound_masking p) = XDP_PASS
  /\ data_end q = data_end p
  /\ (if (34 <=? data_end p) && (eth_h_proto p 0 =? bpf_htons ETH_P_IP) then
        iph_ttl q 14 = 64 /\ iph_id q 14 = 0
        /\ iph_check q 14
           = (if (iph_protocol p 14 =? IPPROTO_TCP) && (54 >? data_end p)
              then iph_check p 14 else 0)
        /\ (forall o, 0 <= o -> o <> 18 -> o <> 19 -> o <> 22 -> o <> 24 ->
                      o <> 25 -> ld8 q o = ld8 p o)
      else q = p)
  /\ XdpOutbound.xdp_outbound_masking q = (XDP_PASS, q).
Proof.
  intros q. subst q.
  (* the edits on a frame that is long enough and IPv4 *)
  set (p1 := set_ip_id (set_ip_ttl p 14 64) 14 0).
  assert (Hrun : forall r,
             XdpOutbound.xdp_outbound_masking r
             = if (34 <=? data_end r) && (eth_h_proto r 0 =? bpf_htons ETH_P_IP)
               then
                 let r1 := set_ip_id (set_ip_ttl r 14 64) 14 0 in
                 (XDP_PASS,
                  if (iph_protocol r 14 =? IPPROTO_TCP) && (54 >? data_end r)
                  then r1 else set_ip_check r1 14 0)
               else (XDP_PASS, r)).
  { intros r. unfold XdpOutbound.xdp_outbound_masking.
    cbv beta iota zeta delta [sizeof_ethhdr sizeof_iphdr sizeof_tcphdr].
    change (0 + 14) with 14. change (14 + 20 + 20) with 54.
    destruct (14 + 20 >? data_end r) eqn:H34.
    { by replace (34 <=? data_end r) with false by lia. }
    replace (34 <=? data_end r) with true by lia.
    destruct (eth_h_proto r 0 =? bpf_htons ETH_P_IP); cbn [negb andb]; [| done].
    unfold iph_protocol, set_ip_id, set_ip_ttl.
    rewrite !data_end_st16, !data_end_st8.
    rewrite ld8_st16_ne, ld8_st8_ne by lia.
    by case_test. }
  rewrite Hrun.
  destruct ((34 <=? data_end p) && (eth_h_proto p 0 =? bpf_htons ETH_P_IP))
    eqn:Hparse; cbv zeta; cbn [fst snd].
  2:{ split; [done |]. split; [done |]. split; [done |].
      by rewrite Hrun, Hparse. }
  fold p1.
  assert (Hlen : 34 <= data_end p) by lia.
  assert (Hend1 : data_end p1 = data_end p)
    by (unfold p1, set_ip_id, set_ip_ttl; by mem).
  assert (H22 : ld8 p1 22 = 64).
  { unfold p1, set_ip_id, set_ip_ttl. rewrite ld8_st16_ne by lia.
    by rewrite ld8_st8_eq by lia. }
  assert (H18 : ld8 p1 18 = 0 /\ ld8 p1 19 = 0).
  { unfold p1, set_ip_id, set_ip_ttl. change (14 + 4) with 18.
    split; [by rewrite ld8_st16_lo by (mem; lia) |].
    change 19 with (18 + 1). by rewrite ld8_st16_hi by (mem; lia). }
  assert (Hframe1 : forall o, 0 <= o -> o <> 18 -> o <> 19 -> o <> 22 ->
                              ld8 p1 o = ld8 p o).
  { intros o Ho Ha Hb Hc. unfold p1, set_ip_id, set_ip_ttl. by mem. }
  set (q := if (iph_protocol p 14 =? IPPROTO_TCP) && (54 >? data_end p)
            then p1 else set_ip_check p1 14 0).
  assert (Hendq : data_end q = data_end p).
  { unfold q, set_ip_check. case_test; by mem. }
  assert (Hq22 : ld8 q 22 = 64).
  { unfold q, set_ip_check. case_test; by mem. }
  assert (Hq18 : ld8 q 18 = 0 /\ ld8 q 19 = 0).
  { unfold q, set_ip_check. case_test; by mem. }
  assert (Hq24 : ld16 q 24
                 = if (iph_protocol p 14 =? IPPROTO_TCP) && (54 >? data_end p)
                   then ld16 p 24 else 0).
  { unfold q, set_ip_check. change (14 + 10) with 24. case_test.
    - apply ld16_ext; apply Hframe1; lia.
    - by rewrite ld16_st16_eq by lia. }
  assert (Hframeq : forall o, 0 <= o -> o <> 18 -> o <> 19 -> o <> 22 ->
                              o <> 24 -> o <> 25 -> ld8 q o = ld8 p o).
  { intros o Ho Ha Hb Hc Hd He. unfold q, set_ip_check.
    case_test; mem; by apply Hframe1. }
  split; [done |]. split; [done |]. split.
  { unfold iph_ttl, iph_id, iph_check, ld16 at 1.
    change (14 + 8) with 22. change (14 + 4) with 18. change (14 + 10) with 24.
    change (18 + 1) with 19. destruct Hq18 as [-> ->].
    repeat split; try done. }
  (* the second run *)
  rewrite Hrun. rewrite Hendq.
  assert (Hethq : eth_h_proto q 0 = eth_h_proto p 0).
  { unfold eth_h_proto. apply ld16_ext; apply Hframeq; lia. }
  assert (Hprotoq : iph_protocol q 14 = iph_protocol p 14).
  { unfold iph_protocol. apply Hframeq; lia. }
  rewrite Hethq, Hparse, Hprotoq. cbv zeta. f_equal.
  assert (Hq1 : set_ip_id (set_ip_ttl q 14 64) 14 0 = q).
  { unfold set_ip_id, set_ip_ttl. change (14 + 8) with 22. change (14 + 4) with 18.
    rewrite (st8_same q 22 64) by (rewrite ?Hq22; done || lia).
    apply st16_same; [lia | lia | exact (proj1 Hq18) | exact (proj2 Hq18)]. }
  rewrite Hq1.
  destruct ((iph_protocol p 14 =? IPPROTO_TCP) && (54 >? data_end p)) eqn:Hcut;
    [done |].
  unfold set_ip_check. change (14 + 10) with 24.
  unfold ld16 in Hq24.
  apply st16_same; try lia.
  - unfold q, set_ip_check. change (14 + 10) with 24.
    by rewrite ld8_st16_lo by lia.
  - unfold q, set_ip_check. change (14 + 10) with 24.
    by rewrite ld8_st16_hi by lia.
Qed.
End TtlRewriters.


(** ** The filters *)

Section Filters.
Implicit Types (p : packet) (cfg : NetworkShieldV6.titan_config).

Lemma ld16_eqb_htons p o x :
  bytes_ok p = true -> 0 <= x < 65536 ->
  (ld16 p o =? bpf_htons x) = (Reference.be16 p o =? x).
Proof.
  intros Hp Hx. rewrite (be16_ntohs p o Hp). unfold bpf_ntohs.
  pose proof (bytes_ok_ld16 p o Hp) as Hw.
  destruct (ld16 p o =? bpf_htons x) eqn:E.
  - assert (ld16 p o = bpf_htons x) as -> by lia.
    rewrite htons_htons by done. symmetry. apply Z.eqb_refl.
  - symmetry. apply Z.eqb_neq. intros H. apply Z.eqb_neq in E. apply E.
    rewrite <- H. by rewrite htons_htons.
Qed.

(** X11: [quic_blocker] drops exactly the frames that parse as Ethernet /
    IPv4 / UDP with destination port 443, and passes every other frame. *)
Theorem quic_blocker_drops_udp_443 p :
  bytes_ok p = true ->
  QuicBlocker.quic_blocker p
  = if udp_frame p && (udp_dest_port p =? 443) then XDP_DROP else XDP_PASS.
Proof.
  intros Hp. unfold QuicBlocker.quic_blocker, udp_frame, udp_dest_port.
  cbv beta iota zeta delta [sizeof_ethhdr sizeof_iphdr sizeof_udphdr].
  change (0 + 14) with 14. unfold eth_h_proto, udph_dest.
  change (0 + 12) with 12.
  rewrite !ld16_eqb_htons by (done || (unfold ETH_P_IP; lia)).
  pose proof (ihl_range p 14).
  destruct (14 >? data_end p) eqn:H14.
  { by replace (34 <=? data_end p) with false by lia. }
  destruct (Reference.be16 p 12 =? ETH_P_IP);
    [| by rewrite andb_false_r]. cbn [negb].
  destruct (14 + 20 >? data_end p) eqn:H34.
  { by replace (34 <=? data_end p) with false by lia. }
  replace (34 <=? data_end p) with true by lia.
  destruct (iph_protocol p 14 =? IPPROTO_UDP); [| done]. cbn [negb andb].
  destruct (14 + iph_ihl p 14 * 4 + 8 >? data_end p) eqn:Hudp.
  { by replace (14 + iph_ihl p 14 * 4 + 8 <=? data_end p) with false by lia. }
  by replace (14 + iph_ihl p 14 * 4 + 8 <=? data_end p) with true by lia.
Qed.

Lemma quic_blocker_drops_udp_443_witness :
  QuicBlocker.quic_blocker quic_initial = XDP_DROP
  /\ QuicBlocker.quic_blocker dns_query = XDP_PASS
  /\ QuicBlocker.quic_blocker syn_opts = XDP_PASS.
Proof.
  rewrite !quic_blocker_drops_udp_443 by reflexivity.
  repeat split.
Defined.

(** X12: with a configuration loaded, [titan_xdp_filter] drops exactly the
    UDP datagrams caught by the DNS rule (protection on, destination port
    53, destination address neither of the two configured servers) or by
    the STUN rule (blocking on, source or destination port 3478 or 5349);
    every other frame passes, TCP and QUIC included. *)
Theorem titan_xdp_filter_verdict
    (m : NetworkShieldV6.maps) cfg (stats_map : list TitanFilter.titan_stats) p :
  NetworkShieldV6.get_config m = Some cfg ->
  bytes_ok p = true ->
  fst (TitanFilter.titan_xdp_filter m stats_map p)
  = if udp_frame p && (dns_rule cfg p || stun_rule cfg p)
    then XDP_DROP else XDP_PASS.
Proof.
  intros Hcfg Hp.
  unfold TitanFilter.titan_xdp_filter, TitanFilter.udp_block,
    TitanFilter.dns_protection, TitanFilter.webrtc_block.
  rewrite Hcfg.
  unfold udp_frame, dns_rule, stun_rule, udp_dest_port, udp_source_port.
  cbv beta iota zeta delta [sizeof_ethhdr sizeof_iphdr sizeof_udphdr
                              sizeof_tcphdr TitanFilter.QUIC_PORT].
  change (0 + 14) with 14. unfold eth_h_proto, udph_dest, udph_source.
  change (0 + 12) with 12.
  rewrite ld16_eqb_htons by (done || (unfold ETH_P_IP; lia)).
  rewrite <- !(be16_ntohs p) by done.
  pose proof (ihl_range p 14).
  destruct (14 >? data_end p) eqn:H14.
  { by replace (34 <=? data_end p) with false by lia. }
  destruct (Reference.be16 p 12 =? ETH_P_IP);
    [| by rewrite andb_false_r]. cbn [negb].
  destruct (14 + 20 >? data_end p) eqn:H34.
  { by replace (34 <=? data_end p) with false by lia. }
  replace (34 <=? data_end p) with true by lia. cbn [andb].
  destruct (iph_protocol p 14 =? IPPROTO_UDP) eqn:Hudp.
  2:{ cbn [andb]. by repeat case_test. }
  assert (Hnot_tcp : (iph_protocol p 14 =? IPPROTO_TCP) = false)
    by (unfold IPPROTO_TCP, IPPROTO_UDP in *; lia).
  rewrite Hnot_tcp. cbn [andb].
  destruct (14 + iph_ihl p 14 * 4 + 8 >? data_end p) eqn:Hfit.
  { by replace (14 + iph_ihl p 14 * 4 + 8 <=? data_end p) with false by lia. }
  replace (14 + iph_ihl p 14 * 4 + 8 <=? data_end p) with true by lia.
  destruct (negb (NetworkShieldV6.dns_protection_enabled cfg =? 0));
    destruct (Reference.be16 p (14 + iph_ihl p 14 * 4 + 2) =? 53);
    destruct (negb (iph_daddr p 14 =? NetworkShieldV6.dns_server_1 cfg));
    destruct (negb (iph_daddr p 14 =? NetworkShieldV6.dns_server_2 cfg));
    cbn [andb orb fst]; try done;
    destruct (negb (NetworkShieldV6.webrtc_block_enabled cfg =? 0));
    cbn [andb orb fst]; try done;
    repeat case_test; cbn [andb orb fst]; done.
Qed.

Lemma titan_xdp_filter_verdict_witness :
  fst (TitanFilter.titan_xdp_filter shield_maps [zero_stats] stun_binding)
  = XDP_DROP
  /\ fst (TitanFilter.titan_xdp_filter shield_maps [zero_stats] dns_query)
     = XDP_PASS
  /\ fst (TitanFilter.titan_xdp_filter shield_maps [zero_stats] quic_initial)
     = XDP_PASS.
Proof.
  rewrite !(titan_xdp_filter_verdict shield_maps shield_config)
    by reflexivity.
  repeat split.
Defined.

Lemma update_stats_slot (s : TitanFilter.titan_stats) bytes is_quic redirected
    blocked :
  TitanFilter.update_stats [s] bytes is_quic redirected blocked
  = [ {| TitanFilter.packets_total := u64 (TitanFilter.packets_total s + 1);
         TitanFilter.bytes_total := u64 (TitanFilter.bytes_total s + bytes);
         TitanFilter.packets_quic :=
           if negb (is_quic =? 0) then u64 (TitanFilter.packets_quic s + 1)
           else TitanFilter.packets_quic s;
         TitanFilter.packets_redirected :=
           if negb (redirected =? 0)
           then u64 (TitanFilter.packets_redirected s + 1)
           else TitanFilter.packets_redirected s;
         TitanFilter.packets_blocked :=
           if negb (blocked =? 0) then u64 (TitanFilter.packets_blocked s + 1)
           else TitanFilter.packets_blocked s |} ].
Proof. reflexivity. Qed.

(** X13: the blocked counter of [titan_xdp_filter] counts the drops: on a
    statistics slot, a run increments [packets_blocked] (modulo 2^64) when
    its verdict is XDP_DROP and leaves it alone otherwise; it never
    touches [packets_redirected]. *)
Theorem blocked_counter_counts_the_drops
    (m : NetworkShieldV6.maps) (s : TitanFilter.titan_stats) p :
  exists s',
    snd (TitanFilter.titan_xdp_filter m [s] p) = [s']
    /\ TitanFilter.packets_blocked s'
       = match fst (TitanFilter.titan_xdp_filter m [s] p) with
         | XDP_DROP => u64 (TitanFilter.packets_blocked s + 1)
         | _ => TitanFilter.packets_blocked s
         end
    /\ TitanFilter.packets_redirected s' = TitanFilter.packets_redirected s.
Proof.
  unfold TitanFilter.titan_xdp_filter, TitanFilter.udp_block,
    TitanFilter.dns_protection, TitanFilter.webrtc_block.
  destruct (NetworkShieldV6.get_config m) as [cfg|]; [| by eexists].
  cbv beta iota zeta.
  repeat (case_test; cbn [fst snd]; rewrite ?update_stats_slot;
          try (eexists; split; [reflexivity | done])).
Qed.

(** X16: [update_stats] keeps a statistics slot consistent: the packet
    counter grows by one, the byte counter by the packet size (modulo
    2^64), and no event counter overtakes the packet counter; without a
    slot nothing is recorded. *)
Theorem update_stats_keeps_counters_consistent
    (s : TitanFilter.titan_stats) (bytes is_quic redirected blocked : Z) :
  stats_consistent s ->
  TitanFilter.packets_total s + 1 < 18446744073709551616 ->
  exists s',
    TitanFilter.update_stats [s] bytes is_quic redirected blocked = [s']
    /\ stats_consistent s'
    /\ TitanFilter.packets_total s' = TitanFilter.packets_total s + 1
    /\ TitanFilter.bytes_total s' = u64 (TitanFilter.bytes_total s + bytes)
    /\ TitanFilter.update_stats [] bytes is_quic redirected blocked = [].
Proof.
  intros (Ht & Hq & Hr & Hb) Hroom. rewrite update_stats_slot.
  eexists. split; [reflexivity |].
  unfold stats_consistent. cbn [TitanFilter.packets_total
    TitanFilter.packets_quic TitanFilter.packets_redirected
    TitanFilter.packets_blocked TitanFilter.bytes_total].
  unfold u64. rewrite (Z.mod_small (TitanFilter.packets_total s + 1)) by lia.
  repeat split; try lia; try done;
    case_test; rewrite ?Z.mod_small by lia; lia.
Qed.

Lemma update_stats_keeps_counters_consistent_witness :
  exists s',
    TitanFilter.update_stats [zero_stats] 54 1 0 0 = [s']
    /\ stats_consistent s'.
Proof.
  destruct (update_stats_keeps_counters_consistent zero_stats 54 1 0 0)
    as (s' & Hs' & Hok & _).
  - unfold stats_consistent. cbn. lia.
  - cbn. lia.
  - exists s'. split; [exact Hs' | exact Hok].
Defined.

(** X15: with a configuration loaded, [titan_connect4] always allows the
    call; a connect to port 443 with the QUIC proxy enabled leaves for
    127.0.0.1 and the configured proxy port, any other connect keeps its
    destination; and a second run on the rewritten address changes
    nothing. *)
Theorem connect4_redirects_quic_to_the_proxy
    (m : NetworkShieldV6.maps) cfg (ctx : TitanFilter.bpf_sock_addr) :
  NetworkShieldV6.get_config m = Some cfg ->
  0 <= NetworkShieldV6.proxy_port cfg < 65536 ->
  let ctx' := snd (TitanFilter.titan_connect4 m ctx) in
  fst (TitanFilter.titan_connect4 m ctx) = 1
  /\ (if negb (NetworkShieldV6.quic_proxy_enabled cfg =? 0)
         && (bpf_ntohs (TitanFilter.user_port ctx) =? 443)
      then bpf_ntohl (TitanFilter.user_ip4 ctx') = 2130706433
           /\ bpf_ntohs (TitanFilter.user_port ctx')
              = NetworkShieldV6.proxy_port cfg
      else ctx' = ctx)
  /\ TitanFilter.titan_connect4 m ctx' = (1, ctx').
Proof.
  intros Hcfg Hport ctx'. subst ctx'.
  unfold TitanFilter.titan_connect4. rewrite Hcfg.
  unfold TitanFilter.QUIC_PORT.
  destruct (negb (NetworkShieldV6.quic_proxy_enabled cfg =? 0)) eqn:Hq;
    cbn [andb fst snd]; [| done].
  destruct (bpf_ntohs (TitanFilter.user_port ctx) =? 443) eqn:H443;
    cbn [fst snd TitanFilter.user_ip4 TitanFilter.user_port].
  - split; [done |]. split.
    + split; [reflexivity |]. unfold bpf_ntohs. by apply htons_htons.
    + by case_test.
  - split; [done |]. split; [done |]. by rewrite H443.
Qed.

Lemma connect4_redirects_quic_to_the_proxy_witness :
  snd (TitanFilter.titan_connect4 shield_maps
         {| TitanFilter.user_ip4 := 201979052;
            TitanFilter.user_port := 47873 |})
  = {| TitanFilter.user_ip4 := 16777343; TitanFilter.user_port := 64288 |}
  /\ bpf_ntohs 64288 = 8443.
Proof.
  destruct (connect4_redirects_quic_to_the_proxy shield_maps shield_config
              {| TitanFilter.user_ip4 := 201979052;
                 TitanFilter.user_port := 47873 |})
    as (_ & H & _); [reflexivity | cbn; lia |].
  split; [reflexivity |]. exact (proj2 H).
Defined.
End Filters.


(** ** The lucid-empire variant of tcp_fingerprint.c *)

Section Lucid.
Implicit Types (p q : packet) (o options opt_len i j k l : Z).

(** X17: the XDP program of lucid-empire/ebpf/tcp_fingerprint.c is the
    XDP program of titan/ebpf/tcp_fingerprint.c without the option blocks:
    the two agree on every frame when no configuration is loaded, and when
    the configuration asks for no timestamp aging and no MSS clamping. *)
Theorem lucid_xdp_is_the_rewriter_without_option_edits
    (config : option TcpFingerprint.tcp_config) p :
  (forall c, config = Some c ->
             TcpFingerprint.timestamp_offset c = 0 /\ TcpFingerprint.mss c = 0) ->
  TcpFingerprint.tcp_fingerprint_xdp config p
  = Ok (LucidTcpFingerprint.tcp_fingerprint_xdp config p).
Proof.
  intros Hc.
  unfold TcpFingerprint.tcp_fingerprint_xdp,
    LucidTcpFingerprint.tcp_fingerprint_xdp.
  cbv beta iota zeta.
  repeat (case_test; [reflexivity |]).
  unfold TcpFingerprint.apply_config.
  destruct config as [c|]; [| reflexivity].
  destruct (Hc c eq_refl) as [Hts Hmss]. cbv zeta.
  unfold TcpFingerprint.timestamp_stage. rewrite Hts.
  change (negb (0 =? 0)) with false. cbv iota. cbn [mbind outcome_bind].
  unfold TcpFingerprint.mss_stage. rewrite Hmss.
  change (0 >? 0) with false. rewrite andb_false_r. reflexivity.
Qed.

Lemma lucid_xdp_is_the_rewriter_without_option_edits_witness :
  TcpFingerprint.tcp_fingerprint_xdp
    (Some {| TcpFingerprint.ttl := 128; TcpFingerprint.window_size := 65535;
             TcpFingerprint.mss := 0; TcpFingerprint.window_scale := 8;
             TcpFingerprint.sack_permitted := 1; TcpFingerprint.timestamps := 0;
             TcpFingerprint.timestamp_offset := 0 |}) syn_opts
  = Ok (LucidTcpFingerprint.tcp_fingerprint_xdp (Some windows_config) syn_opts).
Proof.
  rewrite lucid_xdp_is_the_rewriter_without_option_edits.
  - reflexivity.
  - intros c [= <-]. split; reflexivity.
Defined.

(** *** The timestamp pass of the TC program *)

Lemma nop_fill_data_end fuel p options opt_len i l k :
  data_end (LucidTcpFingerprint.nop_fill fuel p options opt_len i l k)
  = data_end p.
Proof.
  revert p k. induction fuel as [|fuel IH]; intros p k;
    cbn [LucidTcpFingerprint.nop_fill]; [done |].
  case_test; [| done]. rewrite IH. by mem.
Qed.

(** The inner loop writes NOP over [options + i + k .. options + i + l),
    cut at the end of the option area. *)
Lemma nop_fill_spec fuel p options opt_len i l k o :
  0 <= options + i -> 0 <= k -> 0 <= o ->
  (Z.to_nat (l - k) <= fuel)%nat ->
  options + opt_len <= data_end p ->
  ld8 (LucidTcpFingerprint.nop_fill fuel p options opt_len i l k) o
  = if (options + i + k <=? o) && (o <? options + i + Z.min l (opt_len - i))
    then 1 else ld8 p o.
Proof.
  intros Hbase. revert p k.
  induction fuel as [|fuel IH]; intros p k Hk Ho Hfuel Hend;
    cbn [LucidTcpFingerprint.nop_fill].
  - case_test; [lia | done].
  - destruct ((k <? l) && (i + k <? opt_len)) eqn:Hgo.
    + rewrite IH by (rewrite ?data_end_st8; lia).
      destruct (Z.eq_dec o (options + i + k)) as [-> | Hne].
      * replace (options + i + (k + 1) <=? options + i + k) with false by lia.
        cbn [andb]. rewrite ld8_st8_eq by lia.
        replace (options + i + k <=? options + i + k) with true by lia.
        replace (options + i + k <? options + i + Z.min l (opt_len - i))
          with true by lia.
        reflexivity.
      * rewrite ld8_st8_ne by lia.
        destruct (o <? options + i + Z.min l (opt_len - i)); [| by rewrite !andb_false_r].
        rewrite !andb_true_r.
        destruct (options + i + k <=? o) eqn:E1;
          destruct (options + i + (k + 1) <=? o) eqn:E2; try done; lia.
    + case_test; [lia | done].
Qed.

(** The outer loop against the option records. *)
Lemma timestamp_walk_spec fuel p options opt_len i q j :
  0 <= options -> 0 <= i ->
  LucidTcpFingerprint.timestamp_walk fuel p options opt_len i = Ok q ->
  find_option 8 fuel p options opt_len i = Some j ->
  q = LucidTcpFingerprint.nop_fill (Z.to_nat (ld8 p (options + j + 1))) p
        options opt_len j (ld8 p (options + j + 1)) 0.
Proof.
  intros Hopts. revert i.
  induction fuel as [|fuel IH]; intros i Hi;
    cbn [LucidTcpFingerprint.timestamp_walk find_option]; [discriminate |].
  destruct (i <? opt_len) eqn:Hin; cbn [negb]; [| discriminate].
  intros (kind & [Hb ->]%load8_inv & Hrun)%bind_inv. revert Hrun.
  case_test; [discriminate |].
  case_test; [apply IH; lia |].
  intros (l & [Hb' ->]%load8_inv & Hrun)%bind_inv. revert Hrun.
  case_test.
  - by intros [= <-] [= <-].
  - destruct (ld8 p (options + i + 1) <? 2) eqn:Hl; [by intros _ |].
    replace (ld8 p (options + i + 1) >? 0) with true by lia.
    apply IH. lia.
Qed.

(** X18: the timestamp pass that ends the TC program of
    lucid-empire/ebpf/tcp_fingerprint.c overwrites the first timestamp
    option of the TCP header at offset 34 with NOP bytes, over the length
    the option declares and not beyond the option area, and changes no
    other byte of the packet: the TCP checksum is left as it was. *)
Theorem timestamp_destruction_blanks_the_option p q j :
  let opt_len := u8 (tcph_doff p 34 * 4 - 20) in
  let l := ld8 p (54 + j + 1) in
  LucidTcpFingerprint.timestamp_destruction p = Ok q ->
  54 + opt_len <= data_end p ->
  find_option 8 LucidTcpFingerprint.walk_fuel p 54 opt_len 0 = Some j ->
  data_end q = data_end p
  /\ forall o, 0 <= o ->
       ld8 q o = if (54 + j <=? o) && (o <? 54 + j + Z.min l (opt_len - j))
                 then 1 else ld8 p o.
Proof.
  intros opt_len l Hrun Hend Hfind.
  pose proof (find_option_bound _ _ _ _ _ _ _ Hfind) as Hj.
  revert Hrun. unfold LucidTcpFingerprint.timestamp_destruction.
  cbv beta iota zeta delta [sizeof_ethhdr sizeof_iphdr sizeof_tcphdr].
  change (0 + 14 + 20) with 34. change (34 + 20) with 54. fold opt_len.
  assert (0 <= opt_len) by (apply Z.mod_pos_bound; lia).
  replace (54 >? data_end p) with false by lia.
  replace (54 + opt_len >? data_end p) with false by lia.
  intros Hrun.
  rewrite (timestamp_walk_spec LucidTcpFingerprint.walk_fuel p 54 opt_len 0 q j
             ltac:(lia) ltac:(lia) Hrun Hfind).
  fold l. split; [apply nop_fill_data_end |].
  intros o Ho. rewrite nop_fill_spec by lia.
  by replace (54 + j + 0) with (54 + j) by lia.
Qed.

Lemma timestamp_destruction_blanks_the_option_witness :
  exists q,
    LucidTcpFingerprint.timestamp_destruction syn_opts = Ok q
    /\ find_option 8 LucidTcpFingerprint.walk_fuel syn_opts 54 20 0 = Some 6
    /\ ld8 syn_opts 60 = 8 /\ ld8 q 60 = 1 /\ ld8 q 69 = 1
    /\ ld8 q 70 = ld8 syn_opts 70.
Proof.
  destruct (LucidTcpFingerprint.timestamp_destruction syn_opts) as [q|] eqn:Hq;
    [| vm_compute in Hq; discriminate].
  exists q. split; [reflexivity |].
  split; [vm_compute; reflexivity |]. split; [reflexivity |].
  destruct (timestamp_destruction_blanks_the_option syn_opts q 6 Hq)
    as [_ H]; [vm_compute; discriminate | vm_compute; reflexivity |].
  rewrite !H by lia. repeat split.
Defined.

(** X19: the TC program of lucid-empire/ebpf/tcp_fingerprint.c is the TC
    program of titan/ebpf/tcp_fingerprint.c followed by the timestamp
    pass; without a configuration, or on a frame that does not parse as
    TCP, neither of them touches the frame. *)
Theorem lucid_tc_is_the_rewriter_then_the_timestamp_pass
    (config : option TcpFingerprint.tcp_config) p :
  LucidTcpFingerprint.tcp_fingerprint_tc config p
  = if tcp_frame p && match config with Some _ => true | None => false end then
      q ← LucidTcpFingerprint.timestamp_destruction
            (snd (TcpFingerprint.tcp_fingerprint_tc config p));
      Ok (TC_ACT_OK, q)
    else Ok (TcpFingerprint.tcp_fingerprint_tc config p).
Proof.
  unfold LucidTcpFingerprint.tcp_fingerprint_tc,
    TcpFingerprint.tcp_fingerprint_tc, tcp_frame.
  cbv beta iota zeta delta [sizeof_ethhdr sizeof_iphdr sizeof_tcphdr].
  rewrite shiftl2. change (0 + 14) with 14.
  pose proof (ihl_range p 14).
  destruct (14 >? data_end p) eqn:H14.
  { by replace (34 <=? data_end p) with false by lia. }
  destruct (eth_h_proto p 0 =? bpf_htons ETH_P_IP);
    [| by rewrite andb_false_r]. cbn [negb].
  destruct (14 + 20 >? data_end p) eqn:H34.
  { by replace (34 <=? data_end p) with false by lia. }
  replace (34 <=? data_end p) with true by lia.
  destruct (iph_protocol p 14 =? IPPROTO_TCP); [| done]. cbn [negb andb].
  destruct (14 + iph_ihl p 14 * 4 + 20 >? data_end p) eqn:Hfit.
  { by replace (14 + iph_ihl p 14 * 4 + 20 <=? data_end p) with false by lia. }
  replace (14 + iph_ihl p 14 * 4 + 20 <=? data_end p) with true by lia.
  by destruct config.
Qed.
End Lucid.
